(** * Users/Tasks API: the route handlers of [src/routes/home.js]

    A shallow embedding of the handlers that keep the two-way reference
    between [User.pendingTasks] and [Task.assignedUser] consistent, and of
    the query-string interpreter [parseQuery].

    Modelling conventions.
    - JavaScript values that travel in a request body are [jsval]s; the
      operators the handlers apply to them ([!v], [a || b], [a === b],
      [typeof v === 'string'], [Array.isArray]) are written out.
    - The two collections are finite maps from document id to document.
      A document holds its fields as the handler hands them to the
      storage library.
    - The schemas decide which writes the storage library accepts: the Task
      schema of [src/unnamed/part_000] types [assignedUser] as an ObjectId
      and [deadline] as a Date, the User schema types [pendingTasks] as an
      array of String.  What a write is cast to is not in the source; the
      class [Schema] holds the decisions, with the facts the properties
      rely on as its laws; the general properties hold for all its
      instances, and the evaluations at a sample request use the schema of
      the sample data.  A write the schema refuses throws before anything
      is sent, and the handler's [catch] answers; the writes issued before
      it stay.  A [.lean()] read hands a task's [assignedUser] as the
      ObjectId the schema stores, which matters where the handler compares
      it with a string.  Identifier format checking and connectivity
      failures are left out.
    - An [await]ed storage call is a step of the monad [M]: it reads or
      updates the store and appends the mutating call to a log, so that
      the order of the calls a handler issues is observable.
    - [JSON.parse], the arguments the query builder accepts, and the way
      the store reads a filter, a sort order and a projection are not in
      the source: they are the methods of two type classes, and every
      property holds for all their instances. *)

From Stdlib Require Import ZArith List Ascii String.
From stdpp Require Import base gmap strings list pretty.

Set Warnings "-register-all".

(** ** JavaScript values *)

Inductive jsval : Type :=
  | JUndef
  | JNull
  | JBool (b : bool)
  | JNum (n : Z)
  | JStr (s : string)
  | JArr (elems : list jsval)
  | JObj (fields : list (string * jsval)).

(** [ToBoolean]: what [if (v)] and [!v] test.  Numbers are integer valued
    here (a JSON body carries no NaN). *)
Definition truthy (v : jsval) : bool :=
  match v with
  | JUndef | JNull => false
  | JBool b => b
  | JNum n => negb (n =? 0)%Z
  | JStr s => negb (String.eqb s "")
  | JArr _ | JObj _ => true
  end.

(** [a === b].  Arrays and objects compare by reference; in every use below
    one side comes from the request and the other from the store or from a
    literal, so two such values are never the same object. *)
Definition js_seq (a b : jsval) : bool :=
  match a, b with
  | JUndef, JUndef => true
  | JNull, JNull => true
  | JBool x, JBool y => Bool.eqb x y
  | JNum x, JNum y => (x =? y)%Z
  | JStr x, JStr y => String.eqb x y
  | _, _ => false
  end.

(** [a || b] *)
Definition js_or (a b : jsval) : jsval := if truthy a then a else b.

(** [typeof v === 'string'] *)
Definition is_string (v : jsval) : bool :=
  match v with JStr _ => true | _ => false end.

(** [arr.includes(v)] *)
Definition includes (arr : list jsval) (v : jsval) : bool :=
  existsb (js_seq v) arr.

(** [arr.length > 0] *)
Definition nonempty {A} (arr : list A) : bool :=
  match arr with [] => false | _ :: _ => true end.

(** ** Documents and the store *)

Record UserDoc := mkUser {
  u_name : jsval;
  u_email : jsval;
  u_pendingTasks : list jsval
}.

(** [t_deadline] keeps the submitted value: its conversion to a [Date]
    ([parseFloat], [new Date]) is floating-point and calendar arithmetic
    that no property below looks at. *)
Record TaskDoc := mkTask {
  t_name : jsval;
  t_description : jsval;
  t_deadline : jsval;
  t_completed : jsval;
  t_assignedUser : jsval;
  t_assignedUserName : jsval
}.

Record store := mkStore {
  users : gmap string UserDoc;
  tasks : gmap string TaskDoc
}.

(** The value a handler passes as an id names a document only when it is a
    string. *)
Definition as_key (v : jsval) : option string :=
  match v with JStr s => Some s | _ => None end.

(** [{ _id: { $in: ids } }] *)
Definition in_ids (ids : list jsval) (k : string) : bool :=
  includes ids (JStr k).

(** [$addToSet]: append unless an equal element is present. *)
Definition add_to_set (x : jsval) (l : list jsval) : list jsval :=
  if includes l x then l else l ++ [x].

(** [$pull]: drop every element equal to [x]. *)
Definition pull (x : jsval) (l : list jsval) : list jsval :=
  List.filter (fun v => negb (js_seq v x)) l.

Definition set_pendingTasks (f : list jsval → list jsval) (u : UserDoc) : UserDoc :=
  {| u_name := u_name u; u_email := u_email u;
     u_pendingTasks := f (u_pendingTasks u) |}.

(** [$set: { assignedUser, assignedUserName }] *)
Definition set_assignment (user name : jsval) (t : TaskDoc) : TaskDoc :=
  {| t_name := t_name t; t_description := t_description t;
     t_deadline := t_deadline t; t_completed := t_completed t;
     t_assignedUser := user; t_assignedUserName := name |}.

(** The mutating calls the handlers issue. *)
Inductive op : Type :=
  | UserReplace (id : string) (d : UserDoc)
      (* User.findByIdAndUpdate(id, d, { overwrite: true }) *)
  | UserDelete (id : string)
      (* User.findByIdAndDelete(id) *)
  | UserAddToSet (uid : jsval) (tid : string)
      (* User.findByIdAndUpdate(uid, { $addToSet: { pendingTasks: tid } }) *)
  | UserPull (uid : jsval) (tid : string)
      (* User.findByIdAndUpdate(uid, { $pull: { pendingTasks: tid } }) *)
  | TaskSave (id : string) (d : TaskDoc)
      (* new Task(d).save() *)
  | TaskReplace (id : string) (d : TaskDoc)
      (* Task.findByIdAndUpdate(id, _, { overwrite: true }), leaving d *)
  | TaskDelete (id : string)
      (* Task.findByIdAndDelete(id) *)
  | TaskAssignMany (ids : list jsval) (user name : jsval).
      (* Task.updateMany({ _id: { $in: ids } }, { $set: { assignedUser, assignedUserName } }) *)

Definition update_user (uid : jsval) (f : UserDoc → UserDoc)
    (us : gmap string UserDoc) : gmap string UserDoc :=
  match as_key uid with
  | Some k => alter f k us
  | None => us
  end.

(** What a call does to the store once the storage library has accepted
    it; whether it does is the schema's decision, further down. *)
Definition apply_op (o : op) (st : store) : store :=
  match o with
  | UserReplace id d => mkStore (alter (fun _ => d) id (users st)) (tasks st)
  | UserDelete id => mkStore (delete id (users st)) (tasks st)
  | UserAddToSet uid tid =>
      mkStore (update_user uid (set_pendingTasks (add_to_set (JStr tid))) (users st)) (tasks st)
  | UserPull uid tid =>
      mkStore (update_user uid (set_pendingTasks (pull (JStr tid))) (users st)) (tasks st)
  | TaskSave id d => mkStore (users st) (<[id := d]> (tasks st))
  | TaskReplace id d => mkStore (users st) (alter (fun _ => d) id (tasks st))
  | TaskDelete id => mkStore (users st) (delete id (tasks st))
  | TaskAssignMany ids user name =>
      mkStore (users st)
        (map_imap (fun k t => Some (if in_ids ids k then set_assignment user name t else t))
           (tasks st))
  end.

(** ** The handler monad: store passing with a log of mutating calls *)

Definition M (A : Type) : Type := store → A * store * list op.

Definition ret {A} (a : A) : M A := fun st => (a, st, []).

Definition bind {A B} (m : M A) (k : A → M B) : M B :=
  fun st =>
    let '(a, st1, l1) := m st in
    let '(b, st2, l2) := k a st1 in
    (b, st2, l1 ++ l2).

Notation "'let*' x ':=' m 'in' k" := (bind m (fun x => k))
  (at level 10, x pattern, m at level 100, k at level 200, only parsing).
Notation "m ';;' k" := (bind m (fun _ => k))
  (at level 100, k at level 200, only parsing).

(** A read. *)
Definition get {A} (f : store → A) : M A := fun st => (f st, st, []).

(** A mutating call. *)
Definition issue (o : op) : M unit := fun st => (tt, apply_op o st, [o]).

(** [if (c) { await ... }] *)
Definition when (c : bool) (m : M unit) : M unit := if c then m else ret tt.

Definition result {A} (r : A * store * list op) : A := r.1.1.
Definition final {A} (r : A * store * list op) : store := r.1.2.
Definition calls {A} (r : A * store * list op) : list op := r.2.

(** [User.findById(id)], [Task.findById(id)] *)
Definition find_user (st : store) (id : jsval) : option UserDoc :=
  k ← as_key id; users st !! k.

Definition find_task (st : store) (id : jsval) : option TaskDoc :=
  k ← as_key id; tasks st !! k.

Definition User_findById (id : jsval) : M (option UserDoc) :=
  get (fun st => find_user st id).

Definition Task_findById (id : jsval) : M (option TaskDoc) :=
  get (fun st => find_task st id).

(** [User.findByIdAndDelete(id)], [Task.findByIdAndDelete(id)]: the call
    returns the document it removed, or [null] when there is none. *)
Definition User_findByIdAndDelete (id : string) : M (option UserDoc) :=
  fun st => (users st !! id, apply_op (UserDelete id) st, [UserDelete id]).

Definition Task_findByIdAndDelete (id : string) : M (option TaskDoc) :=
  fun st => (tasks st !! id, apply_op (TaskDelete id) st, [TaskDelete id]).

(** [Task.find({ _id: { $in: ids }, completed: true })] *)
Definition Task_find_completed (ids : list jsval) : M (list TaskDoc) :=
  get (fun st =>
    map snd
      (List.filter (fun kt => in_ids ids kt.1 && js_seq (t_completed kt.2) (JBool true))
         (map_to_list (tasks st)))).

(** ** Requests and responses *)

(** [req.body]; an absent field is [JUndef]. *)
Record body := mkBody {
  b_name : jsval;
  b_email : jsval;
  b_pendingTasks : jsval;
  b_description : jsval;
  b_deadline : jsval;
  b_completed : jsval;
  b_assignedUser : jsval;
  b_assignedUserName : jsval
}.

(** The [message] of a response, one constructor per message text. *)
Inductive message : Type :=
  | MsgOK
  | MsgUserFieldsRequired   (* Validation Error: 'name' and 'email' are required fields. *)
  | MsgUserNotFound         (* User not found *)
  | MsgCompletedAdded (names : list jsval)
      (* Validation Error: Cannot add completed tasks to pendingTasks. ... *)
  | MsgUserReplaced         (* User replaced successfully *)
  | MsgUserDeleted          (* User deleted successfully *)
  | MsgTaskFieldsRequired   (* Validation Error: 'name' and 'deadline' are required fields. *)
  | MsgNoSuchAssignee       (* Error: Cannot assign task to a user that does not exist. *)
  | MsgNameMismatch (given actual : jsval)
      (* Validation Error: 'assignedUserName' (..) does not match the name of the user (..). *)
  | MsgMustBeUnassigned
      (* Validation Error: 'assignedUserName' must be "unassigned" when 'assignedUser' is not provided. *)
  | MsgTaskNotFound         (* Task not found *)
  | MsgAlreadyCompleted     (* Error: Cannot update a task that is already completed. *)
  | MsgTaskCreated          (* Task created successfully *)
  | MsgTaskReplaced         (* Task replaced successfully *)
  | MsgTaskDeleted          (* Task deleted successfully *)
  | MsgBadQuery             (* Invalid JSON or parameter format in query string. *)
  | MsgFetchFailed          (* An internal server error occurred while fetching ... *)
  | MsgWriteRefused.
      (* the 400 of a [catch] for a write the schema refuses: Invalid user
         ID format. / Invalid task ID format. for a CastError,
         Validation Error: <the storage library's message> for a
         ValidationError *)

Inductive payload : Type :=
  | DNull
  | DUser (d : option UserDoc)
  | DTask (d : option TaskDoc)
  | DUsers (l : list (string * UserDoc))
  | DTasks (l : list (string * TaskDoc))
  | DCount (n : nat).

Record response := mkResponse {
  status : nat;
  msg : message;
  data : payload
}.

(** The error classes of the API: a 400 with one of the validation
    errors the handlers raise themselves, and a 404. *)
Definition validation_message (m : message) : bool :=
  match m with
  | MsgUserFieldsRequired | MsgCompletedAdded _ | MsgTaskFieldsRequired
  | MsgNameMismatch _ _ | MsgMustBeUnassigned => true
  | _ => false
  end.

Definition is_ValidationError (r : response) : Prop :=
  status r = 400 ∧ validation_message (msg r) = true.

Definition is_NotFound (r : response) : Prop := status r = 404.

(** ** What the schemas decide *)

Class Schema := {
  (** [new Task(d).save()] passes casting and validation *)
  saves : TaskDoc → bool;
  (** [Task.findByIdAndUpdate(id, d, { overwrite: true, runValidators: true })]
      passes casting and validation *)
  replaces : TaskDoc → bool;
  (** the document that write leaves, from the stored one and [d]: the
      fields [d] lacks are kept or reset, as the library's version has it *)
  overwritten : TaskDoc → TaskDoc → TaskDoc;
  (** [Task.updateMany(_, { $set: { assignedUser, assignedUserName } })]
      can be cast *)
  assigns : jsval → jsval → bool;
  (** [User.findByIdAndUpdate(id, d, { overwrite: true, runValidators: true })]
      passes casting and validation *)
  replaces_user : UserDoc → bool;
  (** [assignedUser] is an ObjectId: the empty string is not cast to one *)
  saves_assignee : ∀ d, saves d = true → t_assignedUser d ≠ JStr "";
  assigns_assignee : ∀ name, assigns (JStr "") name = false;
  (** [pendingTasks] is an array of String: an array or an object is not
      cast to one *)
  replaces_user_pending :
    ∀ d x, replaces_user d = true → x ∈ u_pendingTasks d → js_seq x x = true
}.

(** A write the schema decides on: when it is refused the call throws, no
    request reaches the store and the [catch] of the handler answers. *)
Definition attempt (accepted : bool) (o : op) (caught : response) (k : M response)
    : M response :=
  if accepted then (issue o;; k) else ret caught.

(** [if (c) { await write }], with the rest of the handler. *)
Definition attempt_when (c accepted : bool) (o : op) (caught : response)
    (k : M response) : M response :=
  if c then attempt accepted o caught k else k.

(** [oldUserId !== newUserId] in PUT /tasks/:id.  [oldUserId] is
    [oldTask.assignedUser || ""] of a [.lean()] read: a set [assignedUser]
    is the ObjectId object the schema stores, which is never [===] to a
    value of the request; only the [""] of an unset one compares as a
    string. *)
Definition differs_from_stored (oldUserId newUserId : jsval) : bool :=
  truthy oldUserId || negb (js_seq oldUserId newUserId).

Section Handlers.
Context `{Schema}.

(** ** PUT /users/:id *)

(** [Array.isArray(req.body.pendingTasks) ? req.body.pendingTasks : []] *)
Definition pendingTasks_of (b : body) : list jsval :=
  match b_pendingTasks b with JArr l => l | _ => [] end.

(** The [catch] of the two user handlers answers a refused write with 400. *)
Definition user_write_refused : response := mkResponse 400 MsgWriteRefused DNull.

Definition put_user (id : string) (b : body) : M response :=
  if negb (truthy (b_name b)) || negb (truthy (b_email b)) then
    ret (mkResponse 400 MsgUserFieldsRequired DNull)
  else
    let replacementData :=
      {| u_name := b_name b; u_email := b_email b;
         u_pendingTasks := pendingTasks_of b |} in
    let* oldUser := User_findById (JStr id) in
    match oldUser with
    | None => ret (mkResponse 404 MsgUserNotFound DNull)
    | Some oldUser =>
        let oldTasks := u_pendingTasks oldUser in
        let newTasks := u_pendingTasks replacementData in
        let addedTasks := List.filter (fun t => negb (includes oldTasks t)) newTasks in
        let* completedTasks :=
          (if nonempty addedTasks then Task_find_completed addedTasks else ret []) in
        if nonempty completedTasks then
          ret (mkResponse 400 (MsgCompletedAdded (map t_name completedTasks)) DNull)
        else
          let removedTasks := List.filter (fun t => negb (includes newTasks t)) oldTasks in
          attempt_when (nonempty addedTasks)
            (assigns (JStr id) (u_name replacementData))
            (TaskAssignMany addedTasks (JStr id) (u_name replacementData))
            user_write_refused
            (attempt_when (nonempty removedTasks)
               (assigns (JStr "") (JStr "unassigned"))
               (TaskAssignMany removedTasks (JStr "") (JStr "unassigned"))
               user_write_refused
               (attempt (replaces_user replacementData)
                  (UserReplace id replacementData)
                  user_write_refused
                  (let* updatedUser := User_findById (JStr id) in
                   ret (mkResponse 200 MsgUserReplaced (DUser updatedUser)))))
    end.

(** ** DELETE /users/:id *)

Definition delete_user (id : string) : M response :=
  let* deletedUser := User_findByIdAndDelete id in
  match deletedUser with
  | None => ret (mkResponse 404 MsgUserNotFound DNull)
  | Some deletedUser =>
      attempt_when (nonempty (u_pendingTasks deletedUser))
        (assigns (JStr "") (JStr "unassigned"))
        (TaskAssignMany (u_pendingTasks deletedUser) (JStr "") (JStr "unassigned"))
        user_write_refused
        (ret (mkResponse 204 MsgUserDeleted (DUser (Some deletedUser))))
  end.

(** ** POST /tasks *)

(** [const completedStatus = (req.body.completed === 'true')] *)
Definition completed_on_create (b : body) : bool :=
  js_seq (b_completed b) (JStr "true").

(** The assigned-user check of POST: an early response, or the name to
    store ([validUserName]). *)
Definition check_assignee_post (b : body) : M (response + jsval) :=
  if truthy (b_assignedUser b) then
    let* user := User_findById (b_assignedUser b) in
    match user with
    | None => ret (inl (mkResponse 404 MsgNoSuchAssignee DNull))
    | Some user =>
        if negb (js_seq (b_assignedUserName b) (u_name user)) then
          ret (inl (mkResponse 400
                      (MsgNameMismatch (b_assignedUserName b) (u_name user)) DNull))
        else ret (inr (u_name user))
    end
  else ret (inr (JStr "unassigned")).

(** [new Task({ name, description: req.body.description || "", deadline,
     completed: completedStatus, assignedUser: req.body.assignedUser || "",
     assignedUserName: validUserName })] *)
Definition new_task (b : body) (validUserName : jsval) : TaskDoc :=
  {| t_name := b_name b;
     t_description := js_or (b_description b) (JStr "");
     t_deadline := b_deadline b;
     t_completed := JBool (completed_on_create b);
     t_assignedUser := js_or (b_assignedUser b) (JStr "");
     t_assignedUserName := validUserName |}.

(** [savedTask.assignedUser && !savedTask.completed] *)
Definition is_pending (t : TaskDoc) : bool :=
  truthy (t_assignedUser t) && negb (truthy (t_completed t)).

(** [newId] is the [_id] the store gives the new document.  A save the
    schema refuses throws a ValidationError, which the [catch] answers with
    400. *)
Definition post_task (newId : string) (b : body) : M response :=
  if negb (truthy (b_name b)) || negb (truthy (b_deadline b)) then
    ret (mkResponse 400 MsgTaskFieldsRequired DNull)
  else
    let* checked := check_assignee_post b in
    match checked with
    | inl early => ret early
    | inr validUserName =>
        let newTask := new_task b validUserName in
        attempt (saves newTask) (TaskSave newId newTask)
          (mkResponse 400 MsgWriteRefused DNull)
          (let savedTask := newTask in
           when (is_pending savedTask)
             (issue (UserAddToSet (t_assignedUser savedTask) newId));;
           ret (mkResponse 201 MsgTaskCreated (DTask (Some savedTask))))
    end.

(** ** PUT /tasks/:id *)

(** [let completedStatus = req.body.completed;
     if (typeof req.body.completed === 'string')
         completedStatus = (req.body.completed === 'true');] *)
Definition completed_on_replace (b : body) : jsval :=
  if is_string (b_completed b) then JBool (js_seq (b_completed b) (JStr "true"))
  else b_completed b.

(** The assigned-user check of PUT: an early response, or fall through.
    (The handler also computes [validUserName] here and never reads it.) *)
Definition check_assignee_put (b : body) : M (option response) :=
  if truthy (b_assignedUser b) then
    let* user := User_findById (b_assignedUser b) in
    match user with
    | None => ret (Some (mkResponse 404 MsgNoSuchAssignee DNull))
    | Some user =>
        if negb (js_seq (b_assignedUserName b) (u_name user)) then
          ret (Some (mkResponse 400
                       (MsgNameMismatch (b_assignedUserName b) (u_name user)) DNull))
        else ret None
    end
  else
    if truthy (b_assignedUserName b)
       && negb (js_seq (b_assignedUserName b) (JStr "unassigned")) then
      ret (Some (mkResponse 400 MsgMustBeUnassigned DNull))
    else ret None.

(** [const replacementData = { ...req.body, deadline: deadlineDate,
     completed: completedStatus }] *)
Definition replacement_task (b : body) : TaskDoc :=
  {| t_name := b_name b;
     t_description := b_description b;
     t_deadline := b_deadline b;
     t_completed := completed_on_replace b;
     t_assignedUser := b_assignedUser b;
     t_assignedUserName := b_assignedUserName b |}.

(** "Case 1: User assignment changed" *)
Definition user_change (oldUserId newUserId nowCompleted : jsval) (tid : string) : M unit :=
  when (differs_from_stored oldUserId newUserId)
    (when (truthy oldUserId) (issue (UserPull oldUserId tid));;
     when (truthy newUserId && negb (truthy nowCompleted))
       (issue (UserAddToSet newUserId tid))).

(** "Case 2: Task status changed" *)
Definition completion_change (wasCompleted nowCompleted oldUserId newUserId : jsval)
    (tid : string) : M unit :=
  when (negb (js_seq wasCompleted nowCompleted) && truthy (js_or newUserId oldUserId))
    (let relevantUserId := js_or newUserId oldUserId in
     if truthy nowCompleted then issue (UserPull relevantUserId tid)
     else issue (UserAddToSet relevantUserId tid)).

(** The final write casts [replacementData] (the deadline among it) after
    the two compensations; a refusal is answered with 400 by the [catch]. *)
Definition put_task (id : string) (b : body) : M response :=
  if negb (truthy (b_name b)) || negb (truthy (b_deadline b)) then
    ret (mkResponse 400 MsgTaskFieldsRequired DNull)
  else
    let* checked := check_assignee_put b in
    match checked with
    | Some early => ret early
    | None =>
        let replacementData := replacement_task b in
        let* oldTask := Task_findById (JStr id) in
        match oldTask with
        | None => ret (mkResponse 404 MsgTaskNotFound DNull)
        | Some oldTask =>
            if truthy (t_completed oldTask) then
              ret (mkResponse 400 MsgAlreadyCompleted DNull)
            else
              let oldUserId := js_or (t_assignedUser oldTask) (JStr "") in
              let newUserId := js_or (t_assignedUser replacementData) (JStr "") in
              let wasCompleted := t_completed oldTask in
              let nowCompleted := t_completed replacementData in
              user_change oldUserId newUserId nowCompleted id;;
              completion_change wasCompleted nowCompleted oldUserId newUserId id;;
              attempt (replaces replacementData)
                (TaskReplace id (overwritten oldTask replacementData))
                (mkResponse 400 MsgWriteRefused DNull)
                (let* updatedTask := Task_findById (JStr id) in
                 ret (mkResponse 200 MsgTaskReplaced (DTask updatedTask)))
        end
    end.

(** ** DELETE /tasks/:id *)

Definition delete_task (id : string) : M response :=
  let* deletedTask := Task_findByIdAndDelete id in
  match deletedTask with
  | None => ret (mkResponse 404 MsgTaskNotFound DNull)
  | Some deletedTask =>
      when (truthy (t_assignedUser deletedTask))
        (issue (UserPull (t_assignedUser deletedTask) id));;
      ret (mkResponse 204 MsgTaskDeleted (DTask (Some deletedTask)))
  end.
End Handlers.

(** ** The query-string interpreter *)

(** A value of [req.query]: absent, a string of the URL, or the number the
    task list puts in for a missing [limit]. *)
Inductive qparam : Type :=
  | QAbsent
  | QStr (s : string)
  | QNum (n : Z).

(** [if (queryParams.x)] *)
Definition present (v : qparam) : bool :=
  match v with
  | QAbsent => false
  | QStr s => negb (String.eqb s "")
  | QNum n => negb (n =? 0)%Z
  end.

Record query_params := mkParams {
  p_where : qparam;
  p_sort : qparam;
  p_select : qparam;
  p_skip : qparam;
  p_limit : qparam;
  p_count : qparam
}.

(** A JavaScript number as [parseInt] returns it. *)
Inductive jsnum : Type :=
  | NaN
  | Int (z : Z).

Definition is_space (c : ascii) : bool :=
  let n := nat_of_ascii c in
  (n =? 32) || ((9 <=? n) && (n <=? 13)).

Fixpoint skip_spaces (s : string) : string :=
  match s with
  | String c r => if is_space c then skip_spaces r else s
  | EmptyString => s
  end.

Definition digit_value (c : ascii) : option Z :=
  let n := nat_of_ascii c in
  if (48 <=? n) && (n <=? 57) then Some (Z.of_nat (n - 48))
  else if (97 <=? n) && (n <=? 122) then Some (Z.of_nat (n - 87))
  else if (65 <=? n) && (n <=? 90) then Some (Z.of_nat (n - 55))
  else None.

(** The longest prefix of radix-[r] digits, as a number; [acc] is [None]
    until a digit has been read. *)
Fixpoint read_digits (r : Z) (s : string) (acc : option Z) : option Z :=
  match s with
  | String c rest =>
      match digit_value c with
      | Some d =>
          if (d <? r)%Z then read_digits r rest (Some (default 0%Z acc * r + d)%Z)
          else acc
      | None => acc
      end
  | EmptyString => acc
  end.

(** [parseInt(s)] with no radix: leading white space, a sign, a [0x]
    prefix, then the longest run of digits; [NaN] when there is none.
    (White space is the ASCII one and the result is the exact integer.) *)
Definition parseInt_string (s : string) : jsnum :=
  let s := skip_spaces s in
  let '(neg, s) :=
    match s with
    | String "-" r => (true, r)
    | String "+" r => (false, r)
    | _ => (false, s)
    end in
  let '(radix, s) :=
    match s with
    | String "0" (String "x" r) => (16%Z, r)
    | String "0" (String "X" r) => (16%Z, r)
    | _ => (10%Z, s)
    end in
  match read_digits radix s None with
  | Some n => Int (if neg then - n else n)
  | None => NaN
  end.

Definition parseInt (v : qparam) : jsnum :=
  match v with
  | QStr s => parseInt_string s
  | QNum n => Int n
  | QAbsent => NaN
  end.

(** Exceptions. *)
Inductive error : Type := SyntaxError | TypeError | StoreError.

Inductive outcome (A : Type) : Type :=
  | Returned (a : A)
  | Thrown (e : error).
Arguments Returned {A} a.
Arguments Thrown {A} e.

Definition and_then {A B} (m : outcome A) (k : A → outcome B) : outcome B :=
  match m with
  | Returned a => k a
  | Thrown e => Thrown e
  end.

(** [try { m } catch (e) { h(e) }] *)
Definition try_catch {A} (m : outcome A) (h : error → outcome A) : outcome A :=
  match m with
  | Returned a => Returned a
  | Thrown e => h e
  end.

(** What the handlers do not define themselves: [JSON.parse] ([None] when
    it throws) and which arguments the query builder's [where], [sort] and
    [select] accept without throwing. *)
Class QueryLanguage := {
  JSON_parse : qparam → option jsval;
  where_ok : jsval → bool;
  sort_ok : jsval → bool;
  select_ok : jsval → bool
}.

(** The read specification a query object accumulates. *)
Record Query := mkQuery {
  q_where : list jsval;
  q_sort : list jsval;
  q_select : list jsval;
  q_skip : option jsnum;
  q_limit : option jsnum
}.

(** [User.find()], [Task.find()] *)
Definition find_all : Query := mkQuery [] [] [] None None.

Inductive warning : Type :=
  | InvalidWhere (raw : qparam)
  | InvalidSort (raw : qparam)
  | InvalidSelect (raw : qparam).

Section Interpreter.
Context `{QueryLanguage}.

Definition parse (raw : qparam) : outcome jsval :=
  match JSON_parse raw with
  | Some v => Returned v
  | None => Thrown SyntaxError
  end.

Definition Query_where (v : jsval) (q : Query) : outcome Query :=
  if where_ok v then
    Returned (mkQuery (q_where q ++ [v]) (q_sort q) (q_select q) (q_skip q) (q_limit q))
  else Thrown TypeError.

Definition Query_sort (v : jsval) (q : Query) : outcome Query :=
  if sort_ok v then
    Returned (mkQuery (q_where q) (q_sort q ++ [v]) (q_select q) (q_skip q) (q_limit q))
  else Thrown TypeError.

Definition Query_select (v : jsval) (q : Query) : outcome Query :=
  if select_ok v then
    Returned (mkQuery (q_where q) (q_sort q) (q_select q ++ [v]) (q_skip q) (q_limit q))
  else Thrown TypeError.

(** [query.skip(n)], [query.limit(n)]: the number is stored as given. *)
Definition Query_skip (n : jsnum) (q : Query) : Query :=
  mkQuery (q_where q) (q_sort q) (q_select q) (Some n) (q_limit q).

Definition Query_limit (n : jsnum) (q : Query) : Query :=
  mkQuery (q_where q) (q_sort q) (q_select q) (q_skip q) (Some n).

(** [if (raw) { try { query.m(JSON.parse(raw)) } catch (e) { console.warn(..) } }] *)
Definition clause (raw : qparam) (m : jsval → Query → outcome Query) (w : warning)
    (s : Query * list warning) : outcome (Query * list warning) :=
  if present raw then
    try_catch
      (and_then (parse raw) (fun v =>
       and_then (m v s.1) (fun q => Returned (q, s.2))))
      (fun _ => Returned (s.1, s.2 ++ [w]))
  else Returned s.

(** The query it returns, with the warnings it printed. *)
Definition parseQuery (query : Query) (queryParams : query_params)
    : outcome (Query * list warning) :=
  and_then (clause (p_where queryParams) Query_where
              (InvalidWhere (p_where queryParams)) (query, [])) (fun s =>
  and_then (clause (p_sort queryParams) Query_sort
              (InvalidSort (p_sort queryParams)) s) (fun s =>
  and_then (clause (p_select queryParams) Query_select
              (InvalidSelect (p_select queryParams)) s) (fun s =>
  let q := s.1 in
  let q := if present (p_skip queryParams)
           then Query_skip (parseInt (p_skip queryParams)) q else q in
  let q := if present (p_limit queryParams)
           then Query_limit (parseInt (p_limit queryParams)) q else q in
  Returned (q, s.2)))).
End Interpreter.

(** ** Running a query *)

(** How the store reads a filter, a sort order and a projection, and
    whether it can: [readable q] is false when the schema cannot cast the
    filter of [q] or the server refuses its sort or projection, and
    [query.exec()] throws.  A query without any of them can be read. *)
Class Collection (D : Type) := {
  matches : jsval → D → bool;
  order : list jsval → list D → list D;
  project : list jsval → D → D;
  readable : Query → bool;
  order_perm : ∀ keys l, order keys l ≡ₚ l;
  readable_find_all : ∀ k l, readable (mkQuery [] [] [] k l) = true
}.

(** The store skips a non-negative whole number of documents; it refuses a
    read whose skip is negative or NaN. *)
Definition skip_count (s : option jsnum) : option nat :=
  match s with
  | None => Some 0
  | Some (Int z) => if (0 <=? z)%Z then Some (Z.to_nat z) else None
  | Some NaN => None
  end.

(** A limit of 0 is no limit and a negative one caps like its absolute
    value; a NaN limit is refused. *)
Definition limit_cap (l : option jsnum) : option (option nat) :=
  match l with
  | None => Some None
  | Some (Int z) => if (z =? 0)%Z then Some None else Some (Some (Z.abs_nat z))
  | Some NaN => None
  end.

Definition cap {D} (c : option nat) (l : list D) : list D :=
  match c with
  | Some n => take n l
  | None => l
  end.

Section Reads.
Context {D : Type} `{Collection D}.

(** The documents the filter keeps, in the order asked for. *)
Definition selected (q : Query) (docs : list D) : list D :=
  order (q_sort q)
    (List.filter (fun d => forallb (fun w => matches w d) (q_where q)) docs).

Definition window (q : Query) (docs : list D) : outcome (list D) :=
  if readable q then
    match skip_count (q_skip q), limit_cap (q_limit q) with
    | Some k, Some c => Returned (cap c (drop k (selected q docs)))
    | _, _ => Thrown StoreError
    end
  else Thrown StoreError.

(** [query.exec()] *)
Definition exec (q : Query) (docs : list D) : outcome (list D) :=
  and_then (window q docs) (fun l => Returned (map (project (q_select q)) l)).

(** [query.countDocuments()]; the query's skip and limit are options of
    the count as well. *)
Definition countDocuments (q : Query) (docs : list D) : outcome nat :=
  and_then (window q docs) (fun l => Returned (length l)).
End Reads.

(** ** GET /users and GET /tasks *)

(** The [catch] of the list handlers. *)
Definition fetch_error (e : error) : response :=
  match e with
  | SyntaxError | TypeError => mkResponse 400 MsgBadQuery DNull
  | StoreError => mkResponse 500 MsgFetchFailed DNull
  end.

(** [req.query.count === 'true'] *)
Definition count_requested (p : query_params) : bool :=
  match p_count p with
  | QStr s => String.eqb s "true"
  | _ => false
  end.

Section Lists.
Context `{QueryLanguage} `{Collection (string * UserDoc)} `{Collection (string * TaskDoc)}.

Definition list_response {D} `{Collection D} (wrap : list D → payload)
    (req_query queryParams : query_params) (docs : list D) : response * list warning :=
  match parseQuery find_all queryParams with
  | Thrown e => (fetch_error e, [])
  | Returned (q, ws) =>
      if count_requested req_query then
        match countDocuments q docs with
        | Returned n => (mkResponse 200 MsgOK (DCount n), ws)
        | Thrown e => (fetch_error e, ws)
        end
      else
        match exec q docs with
        | Returned l => (mkResponse 200 MsgOK (wrap l), ws)
        | Thrown e => (fetch_error e, ws)
        end
  end.

Definition get_users (req_query : query_params) (st : store) : response * list warning :=
  list_response DUsers req_query req_query (map_to_list (users st)).

(** [if (!queryParams.limit) queryParams.limit = 100] *)
Definition with_default_limit (p : query_params) : query_params :=
  mkParams (p_where p) (p_sort p) (p_select p) (p_skip p)
    (if present (p_limit p) then p_limit p else QNum 100) (p_count p).

Definition get_tasks (req_query : query_params) (st : store) : response * list warning :=
  list_response DTasks req_query (with_default_limit req_query)
    (map_to_list (tasks st)).
End Lists.

(** ** Vocabulary of the properties *)

(** The store after a sequence of mutating calls. *)
Definition replay (l : list op) (st : store) : store :=
  foldl (fun s o => apply_op o s) st l.

(** A task that references no user. *)
Definition unassigned (t : TaskDoc) : Prop :=
  truthy (t_assignedUser t) = false ∧ t_assignedUserName t = JStr "unassigned".

(** Every stored task named in [pending] references no user. *)
Definition tasks_released (pending : list jsval) (st : store) : Prop :=
  ∀ k t, JStr k ∈ pending → tasks st !! k = Some t → unassigned t.

Definition is_add (o : op) : bool :=
  match o with UserAddToSet _ _ => true | _ => false end.

(** The two compensation rules of a task replacement, as the specification
    words them: first the calls each rule issues ... *)
Definition user_change_calls (oldUserId newUserId nowCompleted : jsval) (tid : string)
    : list op :=
  if differs_from_stored oldUserId newUserId then
    (if truthy oldUserId then [UserPull oldUserId tid] else [])
    ++ (if truthy newUserId && negb (truthy nowCompleted)
        then [UserAddToSet newUserId tid] else [])
  else [].

Definition completion_change_calls (wasCompleted nowCompleted oldUserId newUserId : jsval)
    (tid : string) : list op :=
  if negb (js_seq wasCompleted nowCompleted) && (truthy newUserId || truthy oldUserId) then
    let relevant := if truthy newUserId then newUserId else oldUserId in
    [if truthy nowCompleted then UserPull relevant tid else UserAddToSet relevant tid]
  else [].

(** The calls of both rules, for a stored task and a request body. *)
Definition compensation_calls (oldTask : TaskDoc) (b : body) (id : string) : list op :=
  let old := js_or (t_assignedUser oldTask) (JStr "") in
  let new := js_or (b_assignedUser b) (JStr "") in
  user_change_calls old new (completed_on_replace b) id
  ++ completion_change_calls (t_completed oldTask) (completed_on_replace b) old new id.

(** ... then what each rule does to the pendingTasks of user [uid]. *)
Definition pending_after_user_change (uid : string)
    (oldUserId newUserId nowCompleted : jsval) (tid : string) (l : list jsval)
    : list jsval :=
  if differs_from_stored oldUserId newUserId then
    let l := if truthy oldUserId && js_seq oldUserId (JStr uid)
             then pull (JStr tid) l else l in
    if truthy newUserId && negb (truthy nowCompleted) && js_seq newUserId (JStr uid)
    then add_to_set (JStr tid) l else l
  else l.

Definition pending_after_completion_change (uid : string)
    (wasCompleted nowCompleted oldUserId newUserId : jsval) (tid : string)
    (l : list jsval) : list jsval :=
  if negb (js_seq wasCompleted nowCompleted) && (truthy newUserId || truthy oldUserId) then
    let relevant := if truthy newUserId then newUserId else oldUserId in
    if js_seq relevant (JStr uid) then
      if truthy nowCompleted then pull (JStr tid) l else add_to_set (JStr tid) l
    else l
  else l.

(** A request passes the body checks of PUT /tasks/:id: the required fields
    are there and the assigned-user check lets it through. *)
Definition passes_task_checks (b : body) (st : store) : bool :=
  truthy (b_name b) && truthy (b_deadline b)
  && match result (check_assignee_put b st) with None => true | Some _ => false end.

(** The responses of the handler's own checks on the assigned user. *)
Definition assignee_message (m : message) : bool :=
  match m with
  | MsgNoSuchAssignee | MsgNameMismatch _ _ | MsgMustBeUnassigned => true
  | _ => false
  end.

(** The request without one of its parameters. *)
Definition without_where (p : query_params) : query_params :=
  mkParams QAbsent (p_sort p) (p_select p) (p_skip p) (p_limit p) (p_count p).
Definition without_sort (p : query_params) : query_params :=
  mkParams (p_where p) QAbsent (p_select p) (p_skip p) (p_limit p) (p_count p).
Definition without_select (p : query_params) : query_params :=
  mkParams (p_where p) (p_sort p) QAbsent (p_skip p) (p_limit p) (p_count p).

(** A skip that has been replaced by the default: unset, or zero. *)
Definition skip_defaulted (q : Query) : Prop :=
  q_skip q = None ∨ q_skip q = Some (Int 0).

(** ** Sample data *)

Module Sample.
Definition alice : UserDoc := mkUser (JStr "Alice") (JStr "a@x.com") [JStr "t1"].
Definition bob : UserDoc := mkUser (JStr "Bob") (JStr "b@x.com") [].

Definition open_task : TaskDoc :=
  mkTask (JStr "Write report") (JStr "") (JStr "1730421319000.0")
    (JBool false) (JStr "u1") (JStr "Alice").
Definition done_task : TaskDoc :=
  mkTask (JStr "File taxes") (JStr "") (JStr "1730421319000.0")
    (JBool true) (JStr "u2") (JStr "Bob").

Definition db : store :=
  mkStore {[ "u1" := alice; "u2" := bob ]} {[ "t1" := open_task; "t2" := done_task ]}.

(** A body with only the fields given. *)
Definition user_body (name email pendingTasks : jsval) : body :=
  mkBody name email pendingTasks JUndef JUndef JUndef JUndef JUndef.
Definition task_body (name deadline completed assignedUser assignedUserName : jsval)
    : body :=
  mkBody name JUndef JUndef JUndef deadline completed assignedUser assignedUserName.

Definition no_params : query_params :=
  mkParams QAbsent QAbsent QAbsent QAbsent QAbsent QAbsent.

(** A parser that knows the literal [{}] only, a builder that takes any
    value, and a collection whose filters keep every document in store
    order. *)
Definition language : QueryLanguage :=
  {| JSON_parse := fun v => match v with QStr "{}" => Some (JObj []) | _ => None end;
     where_ok := fun _ => true;
     sort_ok := fun _ => true;
     select_ok := fun _ => true |}.

Definition plain (D : Type) : Collection D :=
  {| matches := fun _ _ => true;
     order := fun _ l => l;
     project := fun _ d => d;
     readable := fun _ => true;
     order_perm := fun _ l => Permutation_refl l;
     readable_find_all := fun _ _ => eq_refl |}.

(** 101 members, each with one open task. *)
Definition crowd : store :=
  mkStore
    (list_to_map
       (map (fun n => (pretty n,
                       mkUser (JStr "member") (JStr (pretty n)) [JStr (pretty n)]))
          (seq 0 101)))
    (list_to_map
       (map (fun n => (pretty n,
                       mkTask (JStr "job") (JStr "") (JStr "1") (JBool false)
                         (JStr (pretty n)) (JStr "member")))
          (seq 0 101))).

(** A schema that takes a number, or text that starts with one, for a
    date and any non-empty string for an ObjectId, and whose replacing write
    keeps the fields the new document lacks. *)
Definition dated (v : jsval) : bool :=
  match v with
  | JNum _ => true
  | JStr s => match parseInt_string s with Int _ => true | NaN => false end
  | _ => false
  end.

Definition referring (v : jsval) : bool :=
  match v with
  | JStr s => negb (String.eqb s "")
  | JUndef | JNull => true
  | _ => false
  end.

Definition kept (stored given : jsval) : jsval :=
  match given with JUndef => stored | _ => given end.

Definition strings (l : list jsval) : bool := forallb (fun x => js_seq x x) l.

Definition schema : Schema.
Proof.
  refine
    {| saves := fun d => dated (t_deadline d) && (truthy (t_assignedUser d)
                         && referring (t_assignedUser d));
       replaces := fun d => dated (t_deadline d) && referring (t_assignedUser d);
       overwritten := fun old d =>
         mkTask (kept (t_name old) (t_name d))
           (kept (t_description old) (t_description d))
           (kept (t_deadline old) (t_deadline d))
           (kept (t_completed old) (t_completed d))
           (kept (t_assignedUser old) (t_assignedUser d))
           (kept (t_assignedUserName old) (t_assignedUserName d));
       assigns := fun user _ => truthy user && referring user;
       replaces_user := fun d => strings (u_pendingTasks d);
       saves_assignee := _;
       assigns_assignee := fun _ => eq_refl;
       replaces_user_pending := _ |}.
  - intros d Hd Hu. rewrite Hu in Hd. simpl in Hd.
    rewrite Bool.andb_false_r in Hd. discriminate.
  - intros d x Hd Hx. unfold strings in Hd. rewrite forallb_forall in Hd.
    apply Hd, list_elem_of_In, Hx.
Defined.
End Sample.

(** ** GET /users/:id and GET /tasks/:id *)

(** The [message] of a by-id read. *)
Inductive item_message : Type :=
  | ItemOK              (* OK *)
  | ItemNotFound        (* User not found / Task not found *)
  | ItemBadSelect       (* Invalid JSON in 'select' query parameter. *)
  | ItemInternalError.  (* An internal server error occurred. *)

Record item_response (D : Type) := mkItem {
  i_status : nat;
  i_msg : item_message;
  i_data : option D
}.
Arguments mkItem {D} _ _ _.
Arguments i_status {D} _.
Arguments i_msg {D} _.
Arguments i_data {D} _.

Section Items.
Context `{QueryLanguage} {D : Type} `{Collection D}.

(** The [catch] of the by-id reads: a [SyntaxError] is a 400, anything else
    the model can throw a 500. *)
Definition item_error (e : error) : item_response D :=
  match e with
  | SyntaxError => mkItem 400 ItemBadSelect None
  | TypeError | StoreError => mkItem 500 ItemInternalError None
  end.

(** [let query = Model.findById(id);
     if (req.query.select) query.select(JSON.parse(req.query.select));
     const doc = await query.exec();
     if (!doc) 404 else 200], with [found] the stored document, if any. *)
Definition get_by_id (found : option D) (select : qparam) : item_response D :=
  let query :=
    if present select then and_then (parse select) (fun v => Query_select v find_all)
    else Returned find_all in
  match query with
  | Thrown e => item_error e
  | Returned q =>
      if readable q then
        match found with
        | None => mkItem 404 ItemNotFound None
        | Some doc => mkItem 200 ItemOK (Some (project (q_select q) doc))
        end
      else item_error StoreError
  end.
End Items.

Section ItemHandlers.
Context `{QueryLanguage} `{Collection (string * UserDoc)} `{Collection (string * TaskDoc)}.

Definition get_user (id : string) (select : qparam) (st : store)
    : item_response (string * UserDoc) :=
  get_by_id (pair id <$> users st !! id) select.

Definition get_task (id : string) (select : qparam) (st : store)
    : item_response (string * TaskDoc) :=
  get_by_id (pair id <$> tasks st !! id) select.
End ItemHandlers.

(** ** Vocabulary of the further properties *)

(** The elements of [l] that [other] does not include: with [l] the new
    and [other] the old pendingTasks these are the added ids, the other way
    round the removed ones. *)
Definition not_included (other l : list jsval) : list jsval :=
  List.filter (fun t => negb (includes other t)) l.

(** The document PUT /users/:id writes. *)
Definition replacement_user (b : body) : UserDoc :=
  {| u_name := b_name b; u_email := b_email b; u_pendingTasks := pendingTasks_of b |}.

(** What one parameter contributes to a query: the parsed value when it is
    present, parses and is accepted ... *)
Definition installed `{QueryLanguage} (raw : qparam) (ok : jsval → bool) : list jsval :=
  if present raw then
    match JSON_parse raw with
    | Some v => if ok v then [v] else []
    | None => []
    end
  else [].

(** ... and the warning when it is present and does not parse or is not
    accepted. *)
Definition refused `{QueryLanguage} (raw : qparam) (ok : jsval → bool) (w : warning)
    : list warning :=
  if present raw then
    match JSON_parse raw with
    | Some v => if ok v then [] else [w]
    | None => [w]
    end
  else [].

(** The two-way reference, as a property of a store:
    - no user has the empty id;
    - every task's completed flag is a boolean;
    - an id on a user's pendingTasks names a stored, open task assigned to
      that user;
    - a stored, open task assigned to a stored user is on that user's
      pendingTasks.
    It speaks of the stored users only: a task that names a user who is
    not stored is outside it. *)
Definition pending_sound (st : store) : Prop :=
  ∀ uid u tid,
    users st !! uid = Some u → JStr tid ∈ u_pendingTasks u →
    ∃ t, tasks st !! tid = Some t
         ∧ t_assignedUser t = JStr uid ∧ t_completed t = JBool false.

Definition pending_complete (st : store) : Prop :=
  ∀ tid t uid u,
    tasks st !! tid = Some t → t_assignedUser t = JStr uid →
    t_completed t = JBool false → users st !! uid = Some u →
    JStr tid ∈ u_pendingTasks u.

Definition completed_booleans (st : store) : Prop :=
  ∀ tid t, tasks st !! tid = Some t → ∃ c, t_completed t = JBool c.

Definition consistent (st : store) : Prop :=
  users st !! "" = None
  ∧ completed_booleans st
  ∧ pending_sound st
  ∧ pending_complete st.

(** Every user's pendingTasks is free of duplicates. *)
Definition duplicate_free (st : store) : Prop :=
  ∀ uid u, users st !! uid = Some u → NoDup (u_pendingTasks u).

(** * Properties *)

Lemma js_seq_JStr_r v k : js_seq v (JStr k) = true ↔ v = JStr k.
Proof.
  destruct v; simpl; try (split; [discriminate | intros [=]]).
  rewrite String.eqb_eq. split; [intros -> | intros [=]]; done.
Qed.

Lemma js_seq_JStr_l v k : js_seq (JStr k) v = true ↔ v = JStr k.
Proof.
  destruct v; simpl; try (split; [discriminate | intros [=]]).
  rewrite String.eqb_eq. split; [intros -> | intros [=]]; done.
Qed.

Lemma includes_JStr l k : includes l (JStr k) = true ↔ JStr k ∈ l.
Proof.
  unfold includes. rewrite existsb_exists. split.
  - intros (v & Hin & Hv). apply js_seq_JStr_l in Hv as ->.
    by apply list_elem_of_In.
  - intros Hin. exists (JStr k). split; [by apply list_elem_of_In |].
    by apply js_seq_JStr_l.
Qed.

Lemma nonempty_elem {A} (l : list A) x : x ∈ l → nonempty l = true.
Proof. destruct l; [by intros ?%elem_of_nil | done]. Qed.

Lemma nonempty_false {A} (l : list A) : nonempty l = false → l = [].
Proof. by destruct l. Qed.

(** *** Running the monad *)

Lemma run_bind {A B} (m : M A) (k : A → M B) st :
  bind m k st =
  (result (k (result (m st)) (final (m st))),
   final (k (result (m st)) (final (m st))),
   calls (m st) ++ calls (k (result (m st)) (final (m st)))).
Proof.
  unfold bind, result, final, calls.
  destruct (m st) as [[a st1] l1]; simpl.
  by destruct (k a st1) as [[b' st2] l2].
Qed.

(** *** Reads *)

Lemma User_findById_run k st :
  User_findById (JStr k) st = (users st !! k, st, []).
Proof. done. Qed.

Lemma Task_find_completed_elem ids st k t :
  JStr k ∈ ids → tasks st !! k = Some t → t_completed t = JBool true →
  t ∈ result (Task_find_completed ids st).
Proof.
  intros Hin Hk Hc. unfold Task_find_completed, get, result; simpl.
  apply list_elem_of_In, in_map_iff. exists (k, t). split; [done |].
  apply filter_In. split.
  - by apply list_elem_of_In, elem_of_map_to_list.
  - simpl. rewrite Hc. simpl. rewrite andb_true_r.
    by apply includes_JStr.
Qed.

Lemma Task_find_completed_pure ids st :
  final (Task_find_completed ids st) = st ∧ calls (Task_find_completed ids st) = [].
Proof. done. Qed.

(** *** PUT /users/:id *)

(** C1.  Replacing an existing user with a pendingTasks array that adds the
    id of a task whose completed flag is true fails with a validation
    error, and the request leaves the store as it was: no mutating call
    is issued.  When name and e-mail are there, the error is the one that
    lists the completed tasks, that task among them. *)
Theorem put_user_completed_added_rejected `{Schema} id b st u new k t :
  users st !! id = Some u →
  b_pendingTasks b = JArr new →
  JStr k ∈ new →
  JStr k ∉ u_pendingTasks u →
  tasks st !! k = Some t →
  t_completed t = JBool true →
  is_ValidationError (result (put_user id b st))
  ∧ final (put_user id b st) = st
  ∧ calls (put_user id b st) = []
  ∧ (truthy (b_name b) && truthy (b_email b) = true →
     ∃ names, msg (result (put_user id b st)) = MsgCompletedAdded names
              ∧ t_name t ∈ names).
Proof.
  intros Hu Hnew Hin Hold Hk Hc. unfold put_user.
  destruct (truthy (b_name b)), (truthy (b_email b)); cbn [negb orb andb];
    try by split_and!.
  rewrite run_bind, User_findById_run. unfold result, final, calls; simpl.
  rewrite Hu. unfold pendingTasks_of. rewrite Hnew.
  set (added := List.filter _ new).
  assert (Hadded : JStr k ∈ added).
  { apply list_elem_of_In, filter_In. split; [by apply list_elem_of_In |].
    apply negb_true_iff, not_true_is_false. by rewrite includes_JStr. }
  rewrite (nonempty_elem _ _ Hadded).
  rewrite run_bind.
  pose proof (Task_find_completed_elem added st k t Hadded Hk Hc) as Ht.
  destruct (Task_find_completed_pure added st) as [Hst Hcalls].
  rewrite Hst, Hcalls.
  rewrite (nonempty_elem _ _ Ht).
  split_and!; try done.
  intros _. eexists. split; [reflexivity |].
  apply list_elem_of_In, in_map, list_elem_of_In, Ht.
Qed.

Lemma put_user_completed_added_rejected_witness :
  is_ValidationError
    (result (@put_user Sample.schema "u1"
               (Sample.user_body (JStr "Alice") (JStr "a@x.com")
                  (JArr [JStr "t1"; JStr "t2"])) Sample.db))
  ∧ final (@put_user Sample.schema "u1"
             (Sample.user_body (JStr "Alice") (JStr "a@x.com")
                (JArr [JStr "t1"; JStr "t2"])) Sample.db) = Sample.db
  ∧ calls (@put_user Sample.schema "u1"
             (Sample.user_body (JStr "Alice") (JStr "a@x.com")
                (JArr [JStr "t1"; JStr "t2"])) Sample.db) = [].
Proof.
  destruct (@put_user_completed_added_rejected Sample.schema "u1"
              (Sample.user_body (JStr "Alice") (JStr "a@x.com")
                 (JArr [JStr "t1"; JStr "t2"]))
              Sample.db Sample.alice [JStr "t1"; JStr "t2"] "t2" Sample.done_task)
    as (Herr & Hfinal & Hcalls & _).
  - reflexivity.
  - reflexivity.
  - repeat constructor.
  - intros Hx%includes_JStr. vm_compute in Hx. discriminate Hx.
  - reflexivity.
  - reflexivity.
  - split_and!; assumption.
Defined.

(** *** DELETE /users/:id *)

Lemma tasks_assign_many_lookup ids user name st k :
  tasks (apply_op (TaskAssignMany ids user name) st) !! k =
  (fun t => if in_ids ids k then set_assignment user name t else t) <$> tasks st !! k.
Proof. simpl. rewrite map_lookup_imap. by destruct (tasks st !! k). Qed.

Lemma in_ids_elem ids k : in_ids ids k = true ↔ JStr k ∈ ids.
Proof. apply includes_JStr. Qed.

Lemma delete_user_run `{Schema} id st :
  delete_user id st =
  match users st !! id with
  | None => (mkResponse 404 MsgUserNotFound DNull, apply_op (UserDelete id) st, [UserDelete id])
  | Some u =>
      (if nonempty (u_pendingTasks u) then user_write_refused
       else mkResponse 204 MsgUserDeleted (DUser (Some u)),
       apply_op (UserDelete id) st, [UserDelete id])
  end.
Proof.
  unfold delete_user, bind, User_findByIdAndDelete, attempt_when, attempt.
  destruct (users st !! id) as [u|]; [| done].
  rewrite assigns_assignee. by destruct (nonempty (u_pendingTasks u)).
Qed.

(** C4.  What DELETE /users/:id does in place of the release.  The user
    document is deleted first.  For a user whose pendingTasks is not empty
    the update that is to set assignedUser to the empty string on the
    listed tasks is refused, because the field is an ObjectId: the answer
    is 400 and every task is as it was, still naming the deleted user.
    Only a user with no pending task is answered 204.  For an id that
    names no user the answer is 404 and the store is unchanged. *)
Theorem delete_user_releases_nothing `{Schema} id st :
  match users st !! id with
  | None =>
      is_NotFound (result (delete_user id st))
      ∧ final (delete_user id st) = st
  | Some u =>
      result (delete_user id st) =
        (if nonempty (u_pendingTasks u) then mkResponse 400 MsgWriteRefused DNull
         else mkResponse 204 MsgUserDeleted (DUser (Some u)))
      ∧ calls (delete_user id st) = [UserDelete id]
      ∧ users (final (delete_user id st)) = delete id (users st)
      ∧ tasks (final (delete_user id st)) = tasks st
      ∧ (∀ k t, JStr k ∈ u_pendingTasks u → tasks st !! k = Some t →
           truthy (t_assignedUser t) = true →
           ¬ tasks_released (u_pendingTasks u) (final (delete_user id st)))
  end.
Proof.
  rewrite delete_user_run.
  destruct (users st !! id) as [u|] eqn:Hu; cbn [result final calls fst snd].
  - split_and!; try done.
    intros k t Hin Hk Ht Hrel. destruct (Hrel k t Hin Hk) as [Hf _]. congruence.
  - split; [done |]. destruct st as [us ts]; cbn [apply_op users tasks] in *.
    by rewrite delete_id.
Qed.

(** The sample store: deleting Alice, whose pendingTasks lists t1, is
    answered 400; Alice is gone and t1 still names her. *)
Example delete_user_strands_task `{Schema} :
  result (delete_user "u1" Sample.db) = mkResponse 400 MsgWriteRefused DNull
  ∧ users (final (delete_user "u1" Sample.db)) !! "u1" = None
  ∧ tasks (final (delete_user "u1" Sample.db)) !! "t1" = Some Sample.open_task.
Proof. rewrite delete_user_run. by split_and!. Qed.

(** *** The set operations on pendingTasks *)

Lemma js_seq_JStr_refl k : js_seq (JStr k) (JStr k) = true.
Proof. by apply js_seq_JStr_l. Qed.

Lemma add_to_set_elem k l : JStr k ∈ add_to_set (JStr k) l.
Proof.
  unfold add_to_set. destruct (includes l (JStr k)) eqn:Hi.
  - by apply includes_JStr.
  - apply elem_of_app. right. by apply list_elem_of_singleton.
Qed.

Lemma add_to_set_includes k l : includes (add_to_set (JStr k) l) (JStr k) = true.
Proof. apply includes_JStr, add_to_set_elem. Qed.

Lemma add_to_set_idem k l :
  add_to_set (JStr k) (add_to_set (JStr k) l) = add_to_set (JStr k) l.
Proof. unfold add_to_set at 1. by rewrite add_to_set_includes. Qed.

Lemma add_to_set_cases k l :
  add_to_set (JStr k) l = l
  ∨ ((JStr k ∉ l) ∧ add_to_set (JStr k) l = l ++ [JStr k]).
Proof.
  unfold add_to_set. destruct (includes l (JStr k)) eqn:Hi; [by left |].
  right. split; [| done]. intros Hin%includes_JStr. congruence.
Qed.

Lemma add_to_set_NoDup k l : NoDup l → NoDup (add_to_set (JStr k) l).
Proof.
  intros Hnd. destruct (add_to_set_cases k l) as [-> | [Hnotin ->]]; [done |].
  apply NoDup_app. split_and!; [done | | apply NoDup_singleton].
  intros x Hx ->%list_elem_of_singleton. done.
Qed.

Lemma pull_elem x k l : x ∈ pull (JStr k) l ↔ x ∈ l ∧ x ≠ JStr k.
Proof.
  unfold pull. rewrite !list_elem_of_In, filter_In, negb_true_iff.
  split; intros [Hin Hx]; (split; [done |]).
  - intros ->. by rewrite js_seq_JStr_refl in Hx.
  - apply not_true_is_false. by rewrite js_seq_JStr_r.
Qed.

Lemma pull_not_elem k l : JStr k ∉ pull (JStr k) l.
Proof. rewrite pull_elem. by intros [_ Hne]. Qed.

Lemma pull_idem k l : pull (JStr k) (pull (JStr k) l) = pull (JStr k) l.
Proof.
  unfold pull. induction l as [|x l IH]; [done |]. simpl.
  destruct (negb (js_seq x (JStr k))) eqn:Hx; simpl; rewrite ?Hx; [f_equal |]; exact IH.
Qed.

(** *** What a call does to one user *)

Lemma as_key_seq v uid : js_seq v (JStr uid) = true ↔ as_key v = Some uid.
Proof.
  rewrite js_seq_JStr_r. destruct v; simpl; split; try done; by intros [= ->].
Qed.

Lemma update_user_lookup v f us uid :
  update_user v f us !! uid =
  (fun u => if js_seq v (JStr uid) then f u else u) <$> us !! uid.
Proof.
  unfold update_user. destruct (as_key v) as [k|] eqn:Hk.
  - destruct (decide (k = uid)) as [-> | Hne].
    + rewrite lookup_alter_eq. apply as_key_seq in Hk. rewrite Hk.
      by destruct (us !! uid).
    + rewrite lookup_alter_ne by done.
      destruct (js_seq v (JStr uid)) eqn:Hs.
      * apply as_key_seq in Hs. congruence.
      * by destruct (us !! uid).
  - destruct (js_seq v (JStr uid)) eqn:Hs.
    + apply as_key_seq in Hs. congruence.
    + by destruct (us !! uid).
Qed.

Lemma update_user_idem v f us :
  (∀ u, f (f u) = f u) → update_user v f (update_user v f us) = update_user v f us.
Proof.
  intros Hf. apply map_eq. intros uid. rewrite !update_user_lookup.
  destruct (us !! uid) as [u|]; simpl; [| done].
  destruct (js_seq v (JStr uid)); by rewrite ?Hf.
Qed.

Lemma set_add_idem k u :
  set_pendingTasks (add_to_set (JStr k)) (set_pendingTasks (add_to_set (JStr k)) u)
  = set_pendingTasks (add_to_set (JStr k)) u.
Proof. unfold set_pendingTasks. simpl. by rewrite add_to_set_idem. Qed.

Lemma set_pull_idem k u :
  set_pendingTasks (pull (JStr k)) (set_pendingTasks (pull (JStr k)) u)
  = set_pendingTasks (pull (JStr k)) u.
Proof. unfold set_pendingTasks. simpl. by rewrite pull_idem. Qed.

Lemma UserAddToSet_idem v k st :
  apply_op (UserAddToSet v k) (apply_op (UserAddToSet v k) st)
  = apply_op (UserAddToSet v k) st.
Proof.
  cbn [apply_op users tasks]. f_equal. apply update_user_idem, set_add_idem.
Qed.

Lemma UserPull_idem v k st :
  apply_op (UserPull v k) (apply_op (UserPull v k) st) = apply_op (UserPull v k) st.
Proof.
  cbn [apply_op users tasks]. f_equal. apply update_user_idem, set_pull_idem.
Qed.

(** *** POST /tasks *)

Lemma check_assignee_post_run b st :
  check_assignee_post b st =
  (if truthy (b_assignedUser b) then
     match find_user st (b_assignedUser b) with
     | None => inl (mkResponse 404 MsgNoSuchAssignee DNull)
     | Some user =>
         if js_seq (b_assignedUserName b) (u_name user) then inr (u_name user)
         else inl (mkResponse 400
                     (MsgNameMismatch (b_assignedUserName b) (u_name user)) DNull)
     end
   else inr (JStr "unassigned"), st, []).
Proof.
  unfold check_assignee_post. destruct (truthy (b_assignedUser b)); [| done].
  unfold bind, User_findById, get.
  destruct (find_user st (b_assignedUser b)) as [u|]; [| done].
  by destruct (js_seq (b_assignedUserName b) (u_name u)).
Qed.

Lemma post_task_run `{Schema} newId b st :
  post_task newId b st =
  if negb (truthy (b_name b)) || negb (truthy (b_deadline b)) then
    (mkResponse 400 MsgTaskFieldsRequired DNull, st, [])
  else
    match result (check_assignee_post b st) with
    | inl early => (early, st, [])
    | inr validUserName =>
        let saved := new_task b validUserName in
        if saves saved then
          (mkResponse 201 MsgTaskCreated (DTask (Some saved)),
           if is_pending saved
           then apply_op (UserAddToSet (t_assignedUser saved) newId)
                  (apply_op (TaskSave newId saved) st)
           else apply_op (TaskSave newId saved) st,
           TaskSave newId saved ::
           if is_pending saved then [UserAddToSet (t_assignedUser saved) newId] else [])
        else (mkResponse 400 MsgWriteRefused DNull, st, [])
    end.
Proof.
  unfold post_task.
  destruct (negb (truthy (b_name b)) || negb (truthy (b_deadline b))); [done |].
  unfold bind at 1. rewrite check_assignee_post_run. cbn [result fst].
  match goal with |- context [if truthy (b_assignedUser b) then ?x else ?y] =>
    destruct (if truthy (b_assignedUser b) then x else y) as [early | name] end;
    [done |].
  cbv zeta. unfold attempt. destruct (saves (new_task b name)); [| done].
  by destruct (is_pending (new_task b name)).
Qed.

(** A task without an assigned user is handed to the store with the empty
    string as assignedUser, which the schema refuses. *)
Lemma saves_unassigned `{Schema} b name :
  truthy (b_assignedUser b) = false → saves (new_task b name) = false.
Proof.
  intros Hau. destruct (saves (new_task b name)) eqn:Hs; [| done].
  apply saves_assignee in Hs. exfalso. apply Hs.
  unfold new_task, js_or. simpl. by rewrite Hau.
Qed.

(** C3.  A successful task creation first saves the task and then, when
    the saved task has a non-empty assignedUser and is not completed,
    issues one add-to-set of its id on that user's pendingTasks.  The add
    reaches the assigned user only, puts the id in that user's list,
    appends at most one element and only when the id was not there (so a
    duplicate-free list stays duplicate free), and issuing it a second time
    changes nothing. *)
Theorem post_task_adds_pending_once `{Schema} newId b st :
  status (result (post_task newId b st)) = 201 →
  ∃ saved,
    data (result (post_task newId b st)) = DTask (Some saved)
    ∧ calls (post_task newId b st) =
        TaskSave newId saved ::
        (if is_pending saved then [UserAddToSet (t_assignedUser saved) newId] else [])
    ∧ tasks (final (post_task newId b st)) = <[newId := saved]> (tasks st)
    ∧ (∀ uid, users (final (post_task newId b st)) !! uid =
          (fun u => if is_pending saved && js_seq (t_assignedUser saved) (JStr uid)
                    then set_pendingTasks (add_to_set (JStr newId)) u else u)
          <$> users st !! uid)
    ∧ (is_pending saved = true →
         ∃ uid u', t_assignedUser saved = JStr uid
           ∧ users (final (post_task newId b st)) !! uid = Some u'
           ∧ JStr newId ∈ u_pendingTasks u')
    ∧ (∀ uid u u',
         users st !! uid = Some u →
         users (final (post_task newId b st)) !! uid = Some u' →
         (u_pendingTasks u' = u_pendingTasks u
          ∨ ((JStr newId ∉ u_pendingTasks u)
             ∧ u_pendingTasks u' = u_pendingTasks u ++ [JStr newId]))
         ∧ (NoDup (u_pendingTasks u) → NoDup (u_pendingTasks u')))
    ∧ (∀ s, apply_op (UserAddToSet (t_assignedUser saved) newId)
              (apply_op (UserAddToSet (t_assignedUser saved) newId) s)
            = apply_op (UserAddToSet (t_assignedUser saved) newId) s).
Proof.
  rewrite post_task_run.
  destruct (negb (truthy (b_name b)) || negb (truthy (b_deadline b))); [done |].
  rewrite check_assignee_post_run. cbn [result fst].
  destruct (truthy (b_assignedUser b)) eqn:Hau.
  - destruct (find_user st (b_assignedUser b)) as [usr|] eqn:Hfind; [| done].
    destruct (js_seq (b_assignedUserName b) (u_name usr)) eqn:Hname; [| done].
    cbv zeta. set (saved := new_task b (u_name usr)).
    destruct (saves saved); [| done].
    intros _. exists saved. cbn [result final calls fst snd data].
    assert (Hsu : t_assignedUser saved = b_assignedUser b).
    { unfold saved, new_task, js_or. simpl. by rewrite Hau. }
    clearbody saved.
    assert (Hlk : ∀ uid,
      users (if is_pending saved
             then apply_op (UserAddToSet (t_assignedUser saved) newId)
                    (apply_op (TaskSave newId saved) st)
             else apply_op (TaskSave newId saved) st) !! uid
      = (fun u => if is_pending saved && js_seq (t_assignedUser saved) (JStr uid)
                  then set_pendingTasks (add_to_set (JStr newId)) u else u)
        <$> users st !! uid).
    { intros uid. destruct (is_pending saved); cbn [apply_op users tasks andb].
      - by rewrite update_user_lookup.
      - by destruct (users st !! uid). }
    split_and!; [done | done | by destruct (is_pending saved) | done | | |].
    + intros Hpend. unfold find_user in Hfind.
      destruct (as_key (b_assignedUser b)) as [uid|] eqn:Hkey; [| done].
      simpl in Hfind. apply as_key_seq in Hkey as Hseq.
      apply js_seq_JStr_r in Hseq as Heq.
      exists uid, (set_pendingTasks (add_to_set (JStr newId)) usr).
      split_and!; [congruence | | apply add_to_set_elem].
      rewrite Hlk, Hfind, Hpend, Hsu, Hseq. done.
    + intros uid u u' Hu Hu'. rewrite Hlk, Hu in Hu'.
      cbn [fmap option_fmap option_map] in Hu'. injection Hu' as <-.
      destruct (is_pending saved && js_seq (t_assignedUser saved) (JStr uid)).
      * split; [apply add_to_set_cases | apply add_to_set_NoDup].
      * split; [by left | done].
    + intros s. apply UserAddToSet_idem.
  - cbv zeta. by rewrite (saves_unassigned _ _ Hau).
Qed.

Lemma post_task_adds_pending_once_witness :
  status (result (@post_task Sample.schema "t3"
            (Sample.task_body (JStr "Pay rent") (JStr "1730421319000")
               (JStr "false") (JStr "u2") (JStr "Bob")) Sample.db)) = 201
  ∧ ∃ uid u',
      JStr "u2" = JStr uid
      ∧ users (final (@post_task Sample.schema "t3"
                 (Sample.task_body (JStr "Pay rent") (JStr "1730421319000")
                    (JStr "false") (JStr "u2") (JStr "Bob")) Sample.db)) !! uid = Some u'
      ∧ JStr "t3" ∈ u_pendingTasks u'.
Proof.
  split; [reflexivity |].
  destruct (@post_task_adds_pending_once Sample.schema "t3"
              (Sample.task_body (JStr "Pay rent") (JStr "1730421319000")
                 (JStr "false") (JStr "u2") (JStr "Bob")) Sample.db eq_refl)
    as (saved & Hdata & _ & _ & _ & Hadd & _).
  injection Hdata as <-.
  exact (Hadd eq_refl).
Defined.

(** The coercion of [completed]: on replace a string becomes the boolean
    it spells and any other value is kept; on create the result is true
    for the string "true" and false for everything else. *)
Lemma completed_on_replace_cases b :
  match b_completed b with
  | JStr s => completed_on_replace b = JBool (String.eqb s "true")
  | v => completed_on_replace b = v
  end.
Proof. unfold completed_on_replace. by destruct (b_completed b). Qed.

Lemma completed_on_create_true b :
  completed_on_create b = true ↔ b_completed b = JStr "true".
Proof. unfold completed_on_create. apply js_seq_JStr_r. Qed.

(** C9, at the input where the code departs from it.  A task created with
    the JSON boolean [true] as [completed] is stored with [completed]
    false, and, being taken for an open task, is put on the assigned
    user's pendingTasks; the same value sent to a replacement is kept. *)
Theorem post_task_boolean_true_stored_false :
  completed_on_create
    (Sample.task_body (JStr "Pay rent") (JStr "1730421319000")
       (JBool true) (JStr "u2") (JStr "Bob")) = false
  ∧ t_completed <$>
      tasks (final (@post_task Sample.schema "t3"
                      (Sample.task_body (JStr "Pay rent") (JStr "1730421319000")
                         (JBool true) (JStr "u2") (JStr "Bob")) Sample.db)) !! "t3"
    = Some (JBool false)
  ∧ u_pendingTasks <$>
      users (final (@post_task Sample.schema "t3"
                      (Sample.task_body (JStr "Pay rent") (JStr "1730421319000")
                         (JBool true) (JStr "u2") (JStr "Bob")) Sample.db)) !! "u2"
    = Some [JStr "t3"]
  ∧ completed_on_replace
      (Sample.task_body (JStr "Pay rent") (JStr "1730421319000")
         (JBool true) (JStr "u2") (JStr "Bob")) = JBool true.
Proof. split_and!; reflexivity. Qed.

(** *** PUT /tasks/:id *)

Lemma replay_app l1 l2 st : replay (l1 ++ l2) st = replay l2 (replay l1 st).
Proof. apply foldl_app. Qed.

Lemma check_assignee_put_run b st :
  check_assignee_put b st =
  (if truthy (b_assignedUser b) then
     match find_user st (b_assignedUser b) with
     | None => Some (mkResponse 404 MsgNoSuchAssignee DNull)
     | Some user =>
         if js_seq (b_assignedUserName b) (u_name user) then None
         else Some (mkResponse 400
                      (MsgNameMismatch (b_assignedUserName b) (u_name user)) DNull)
     end
   else if truthy (b_assignedUserName b)
           && negb (js_seq (b_assignedUserName b) (JStr "unassigned"))
        then Some (mkResponse 400 MsgMustBeUnassigned DNull)
        else None, st, []).
Proof.
  unfold check_assignee_put. destruct (truthy (b_assignedUser b)).
  - unfold bind, User_findById, get.
    destruct (find_user st (b_assignedUser b)) as [u|]; [| done].
    by destruct (js_seq (b_assignedUserName b) (u_name u)).
  - by destruct (truthy (b_assignedUserName b)
                 && negb (js_seq (b_assignedUserName b) (JStr "unassigned"))).
Qed.

(** Each rule issues exactly the calls the specification lists for it. *)
Lemma user_change_run old new now tid st :
  user_change old new now tid st =
  (tt, replay (user_change_calls old new now tid) st, user_change_calls old new now tid).
Proof.
  unfold user_change, user_change_calls, when, bind, issue, ret.
  destruct (differs_from_stored old new); [| done].
  by destruct (truthy old), (truthy new && negb (truthy now)).
Qed.

Lemma js_or_truthy a b : truthy (js_or a b) = truthy a || truthy b.
Proof. unfold js_or. by destruct (truthy a) eqn:Ha. Qed.

Lemma completion_change_run was now old new tid st :
  completion_change was now old new tid st =
  (tt, replay (completion_change_calls was now old new tid) st,
   completion_change_calls was now old new tid).
Proof.
  unfold completion_change, completion_change_calls, when, issue, ret.
  rewrite js_or_truthy. unfold js_or.
  destruct (negb (js_seq was now) && (truthy new || truthy old)); [| done].
  by destruct (truthy now).
Qed.

Lemma put_task_run `{Schema} id b st :
  put_task id b st =
  if negb (truthy (b_name b)) || negb (truthy (b_deadline b)) then
    (mkResponse 400 MsgTaskFieldsRequired DNull, st, [])
  else
    match result (check_assignee_put b st) with
    | Some early => (early, st, [])
    | None =>
        match tasks st !! id with
        | None => (mkResponse 404 MsgTaskNotFound DNull, st, [])
        | Some oldTask =>
            if truthy (t_completed oldTask) then
              (mkResponse 400 MsgAlreadyCompleted DNull, st, [])
            else
              let log := compensation_calls oldTask b id in
              if replaces (replacement_task b) then
                let log :=
                  log ++ [TaskReplace id (overwritten oldTask (replacement_task b))] in
                (mkResponse 200 MsgTaskReplaced (DTask (tasks (replay log st) !! id)),
                 replay log st, log)
              else (mkResponse 400 MsgWriteRefused DNull, replay log st, log)
        end
    end.
Proof.
  unfold put_task.
  destruct (negb (truthy (b_name b)) || negb (truthy (b_deadline b))); [done |].
  unfold bind at 1. rewrite check_assignee_put_run. cbn [result fst].
  match goal with |- context [if truthy (b_assignedUser b) then ?x else ?y] =>
    destruct (if truthy (b_assignedUser b) then x else y) as [early |] end;
    [done |].
  unfold bind at 1, Task_findById, get, find_task. cbn [as_key mbind option_bind].
  destruct (tasks st !! id) as [oldTask|]; [| done].
  destruct (truthy (t_completed oldTask)); [done |].
  cbv zeta. unfold bind, attempt, compensation_calls.
  rewrite user_change_run, completion_change_run.
  cbn [replacement_task t_assignedUser t_completed].
  destruct (replaces _).
  - unfold bind, issue, Task_findById, get, find_task, ret.
    cbn [as_key mbind option_bind].
    rewrite !replay_app. cbn [replay foldl app]. by rewrite app_assoc.
  - unfold ret. rewrite !replay_app. cbn [app]. by rewrite !app_nil_r.
Qed.

(** The requests the body checks of PUT /tasks/:id let through. *)
Lemma check_assignee_put_Some b st early :
  result (check_assignee_put b st) = Some early → status early ≠ 200.
Proof.
  rewrite check_assignee_put_run. cbn [result fst].
  destruct (truthy (b_assignedUser b)).
  - destruct (find_user st (b_assignedUser b)) as [u|]; [| by intros [= <-]].
    destruct (js_seq (b_assignedUserName b) (u_name u)); [done |].
    by intros [= <-].
  - destruct (truthy (b_assignedUserName b)
              && negb (js_seq (b_assignedUserName b) (JStr "unassigned")));
      [by intros [= <-] | done].
Qed.

Lemma set_pendingTasks_same u : set_pendingTasks (fun l => l) u = u.
Proof. by destruct u. Qed.

Lemma users_after_user_change uid old new now tid st :
  users (replay (user_change_calls old new now tid) st) !! uid =
  set_pendingTasks (pending_after_user_change uid old new now tid) <$> users st !! uid.
Proof.
  unfold user_change_calls, pending_after_user_change.
  destruct (differs_from_stored old new).
  - destruct (truthy old), (truthy new && negb (truthy now));
      cbn [app replay foldl apply_op users andb];
      rewrite ?update_user_lookup;
      (destruct (users st !! uid) as [u|]; [| done]);
      cbn [fmap option_fmap option_map]; f_equal;
      destruct (js_seq old (JStr uid)), (js_seq new (JStr uid)); by destruct u.
  - cbn [replay foldl]. destruct (users st !! uid) as [u|]; [| done].
    cbn. by rewrite set_pendingTasks_same.
Qed.

Lemma users_after_completion_change uid was now old new tid st :
  users (replay (completion_change_calls was now old new tid) st) !! uid =
  set_pendingTasks (pending_after_completion_change uid was now old new tid)
  <$> users st !! uid.
Proof.
  unfold completion_change_calls, pending_after_completion_change.
  destruct (negb (js_seq was now) && (truthy new || truthy old)).
  - cbv zeta. set (relevant := if truthy new then new else old).
    destruct (truthy now);
      cbn [replay foldl apply_op users]; rewrite update_user_lookup;
      (destruct (users st !! uid) as [u|]; [| done]);
      cbn [fmap option_fmap option_map]; f_equal;
      destruct (js_seq relevant (JStr uid)); by destruct u.
  - cbn [replay foldl]. destruct (users st !! uid) as [u|]; [| done].
    cbn. by rewrite set_pendingTasks_same.
Qed.

Lemma users_after_compensation uid oldTask b id st :
  users (replay (compensation_calls oldTask b id) st) !! uid =
  set_pendingTasks
    (fun l =>
       pending_after_completion_change uid (t_completed oldTask) (completed_on_replace b)
         (js_or (t_assignedUser oldTask) (JStr "")) (js_or (b_assignedUser b) (JStr "")) id
         (pending_after_user_change uid
            (js_or (t_assignedUser oldTask) (JStr "")) (js_or (b_assignedUser b) (JStr ""))
            (completed_on_replace b) id l))
  <$> users st !! uid.
Proof.
  unfold compensation_calls. rewrite replay_app.
  rewrite users_after_completion_change, users_after_user_change.
  destruct (users st !! uid) as [u|]; [| done]. by destruct u.
Qed.

Lemma users_after_TaskReplace id d st : users (apply_op (TaskReplace id d) st) = users st.
Proof. done. Qed.



(** A replacement that names the user the task already has: the stored id
    is an ObjectId and the submitted one a string, so the user-change rule
    runs; the id is pulled and added back. *)
Example same_user_scenario :
  calls (@put_task Sample.schema "t1"
           (Sample.task_body (JStr "Write report, twice") (JStr "1730421319000.0")
              (JBool false) (JStr "u1") (JStr "Alice")) Sample.db)
  = [UserPull (JStr "u1") "t1"; UserAddToSet (JStr "u1") "t1";
     TaskReplace "t1"
       (@overwritten Sample.schema Sample.open_task
          (replacement_task
             (Sample.task_body (JStr "Write report, twice") (JStr "1730421319000.0")
                (JBool false) (JStr "u1") (JStr "Alice"))))]
  ∧ u_pendingTasks <$>
      users (final (@put_task Sample.schema "t1"
               (Sample.task_body (JStr "Write report, twice") (JStr "1730421319000.0")
                  (JBool false) (JStr "u1") (JStr "Alice")) Sample.db)) !! "u1"
    = Some [JStr "t1"].
Proof. split; reflexivity. Qed.

(** C5, as the code has it.  A replacement aimed at a stored task whose
    completed flag is set never succeeds and never touches the store; when
    the request passes the body checks that come first (required fields,
    assigned user), the answer is the 400 "already completed" error. *)
Theorem put_task_completed_immutable `{Schema} id b st t :
  tasks st !! id = Some t →
  truthy (t_completed t) = true →
  final (put_task id b st) = st
  ∧ calls (put_task id b st) = []
  ∧ 400 ≤ status (result (put_task id b st))
  ∧ (passes_task_checks b st = true →
     result (put_task id b st) = mkResponse 400 MsgAlreadyCompleted DNull).
Proof.
  intros Ht Hdone. unfold passes_task_checks. rewrite put_task_run, Ht, Hdone.
  destruct (truthy (b_name b)), (truthy (b_deadline b));
    cbn [negb orb andb result final calls fst snd status];
    try (split_and!; [done | done | lia | done]).
  rewrite check_assignee_put_run. cbn [result fst].
  destruct (truthy (b_assignedUser b)).
  - destruct (find_user st (b_assignedUser b)) as [u|];
      [| cbn; split_and!; [done | done | lia | done]].
    destruct (js_seq (b_assignedUserName b) (u_name u));
      cbn; split_and!; done || lia.
  - destruct (truthy (b_assignedUserName b)
              && negb (js_seq (b_assignedUserName b) (JStr "unassigned")));
      cbn; split_and!; done || lia.
Qed.

Lemma put_task_completed_immutable_witness :
  final (@put_task Sample.schema "t2"
           (Sample.task_body (JStr "File taxes") (JStr "1730421319000.0")
              (JStr "false") JUndef (JStr "unassigned")) Sample.db) = Sample.db
  ∧ result (@put_task Sample.schema "t2"
              (Sample.task_body (JStr "File taxes") (JStr "1730421319000.0")
                 (JStr "false") JUndef (JStr "unassigned")) Sample.db)
    = mkResponse 400 MsgAlreadyCompleted DNull.
Proof.
  destruct (@put_task_completed_immutable Sample.schema "t2"
              (Sample.task_body (JStr "File taxes") (JStr "1730421319000.0")
                 (JStr "false") JUndef (JStr "unassigned"))
              Sample.db Sample.done_task eq_refl eq_refl)
    as (Hfinal & _ & _ & Herr).
  split; [exact Hfinal | exact (Herr eq_refl)].
Defined.

(** C5, as stated, fails: a replacement of the completed sample task that
    names a user who does not exist is answered 404 "cannot assign", not
    "already completed". *)
Lemma put_task_completed_other_error :
  tasks Sample.db !! "t2" = Some Sample.done_task
  ∧ t_completed Sample.done_task = JBool true
  ∧ result (@put_task Sample.schema "t2"
              (Sample.task_body (JStr "File taxes") (JStr "1730421319000.0")
                 (JStr "false") (JStr "u9") (JStr "Zed")) Sample.db)
    = mkResponse 404 MsgNoSuchAssignee DNull
  ∧ msg (result (@put_task Sample.schema "t2"
              (Sample.task_body (JStr "File taxes") (JStr "1730421319000.0")
                 (JStr "false") (JStr "u9") (JStr "Zed")) Sample.db))
    ≠ MsgAlreadyCompleted.
Proof. split_and!; [reflexivity | reflexivity | reflexivity | discriminate]. Qed.

Lemma completion_change_calls_cases was now old new tid :
  (completion_change_calls was now old new tid = []
   ∨ (∃ v, completion_change_calls was now old new tid = [UserPull v tid])
   ∨ (∃ v, completion_change_calls was now old new tid = [UserAddToSet v tid]))
  ∧ ((∃ v, completion_change_calls was now old new tid = [UserAddToSet v tid])
     ↔ js_seq was now = false ∧ truthy now = false ∧ truthy (js_or new old) = true)
  ∧ (js_seq was now = true ∨ truthy now = true →
     forallb (fun o => negb (is_add o)) (completion_change_calls was now old new tid)
     = true).
Proof.
  rewrite js_or_truthy. unfold completion_change_calls.
  destruct (js_seq was now), (truthy new || truthy old), (truthy now);
    cbn [negb andb forallb is_add];
    (split_and!;
     [ first [by left | solve [right; left; eauto] | solve [right; right; eauto]]
     | split; [ first [by intros [v [=]] | done]
              | first [by intros ([=] & _) | by intros (_ & [=] & _)
                      | by intros (_ & _ & [=]) | solve [eauto]] ]
     | first [done | by intros [[=] | [=]]] ]).
Qed.

(** When the compensation of a task replacement runs, the stored completed
    value is falsy.  The completion-change rule then issues no call, one
    pull or one add; it adds exactly when the new completed value is falsy,
    is not strictly equal to the stored one and some user id is set.  When
    the stored value is the boolean false and the request carries completed
    as a boolean or a string, the rule never adds. *)
Lemma put_task_completion_change_adds_iff `{Schema} id b st oldTask :
  tasks st !! id = Some oldTask →
  status (result (put_task id b st)) = 200 →
  let oldUserId := js_or (t_assignedUser oldTask) (JStr "") in
  let newUserId := js_or (b_assignedUser b) (JStr "") in
  let wasCompleted := t_completed oldTask in
  let nowCompleted := completed_on_replace b in
  truthy wasCompleted = false
  ∧ ∀ s,
      (calls (completion_change wasCompleted nowCompleted oldUserId newUserId id s) = []
       ∨ (∃ v, calls (completion_change wasCompleted nowCompleted oldUserId newUserId id s)
               = [UserPull v id])
       ∨ (∃ v, calls (completion_change wasCompleted nowCompleted oldUserId newUserId id s)
               = [UserAddToSet v id]))
      ∧ ((∃ v, calls (completion_change wasCompleted nowCompleted oldUserId newUserId id s)
               = [UserAddToSet v id])
         ↔ js_seq wasCompleted nowCompleted = false
           ∧ truthy nowCompleted = false
           ∧ truthy (js_or newUserId oldUserId) = true)
      ∧ (wasCompleted = JBool false →
         (is_string (b_completed b) = true ∨ ∃ x, b_completed b = JBool x) →
         forallb (fun o => negb (is_add o))
           (calls (completion_change wasCompleted nowCompleted oldUserId newUserId id s))
         = true).
Proof.
  intros Hold. rewrite put_task_run, Hold.
  destruct (negb (truthy (b_name b)) || negb (truthy (b_deadline b))); [done |].
  destruct (result (check_assignee_put b st)) as [early|] eqn:Hcheck.
  { cbn [result fst]. intros Hst. by apply check_assignee_put_Some in Hcheck. }
  destruct (truthy (t_completed oldTask)) eqn:Hwas; [done |].
  intros _. cbv zeta. split; [done |]. intros s.
  rewrite completion_change_run. cbn [calls snd].
  destruct (completion_change_calls_cases (t_completed oldTask) (completed_on_replace b)
              (js_or (t_assignedUser oldTask) (JStr ""))
              (js_or (b_assignedUser b) (JStr "")) id) as (Hshape & Hiff & Hnever).
  split_and!; [exact Hshape | exact Hiff |].
  intros Hfalse Hbody. apply Hnever. rewrite Hfalse.
  unfold completed_on_replace.
  destruct Hbody as [Hstr | [x Hx]].
  - rewrite Hstr. cbn. destruct (js_seq (b_completed b) (JStr "true")); auto.
  - rewrite Hx. cbn. destruct x; auto.
Qed.

(** C10, at the input where the code departs from it.  The open sample
    task is replaced with a body that has no [completed] field and names
    the user the task already has.  The stored completed value is the
    boolean false and the new one is undefined, which are not strictly
    equal: the rule headed "Task status changed" runs although no status
    changed, and it takes its add branch.  The handler answers 200 after
    the pull and the add of the user-change rule, the add of the
    completion-change rule and the replacement. *)
Theorem put_task_completion_change_can_add :
  status (result (@put_task Sample.schema "t1"
            (Sample.task_body (JStr "Write report") (JStr "1730421319000.0")
               JUndef (JStr "u1") (JStr "Alice")) Sample.db)) = 200
  ∧ t_completed Sample.open_task = JBool false
  ∧ completed_on_replace
      (Sample.task_body (JStr "Write report") (JStr "1730421319000.0")
         JUndef (JStr "u1") (JStr "Alice")) = JUndef
  ∧ calls (completion_change (JBool false) JUndef (JStr "u1") (JStr "u1") "t1" Sample.db)
    = [UserAddToSet (JStr "u1") "t1"]
  ∧ calls (@put_task Sample.schema "t1"
            (Sample.task_body (JStr "Write report") (JStr "1730421319000.0")
               JUndef (JStr "u1") (JStr "Alice")) Sample.db)
    = [UserPull (JStr "u1") "t1";
       UserAddToSet (JStr "u1") "t1";
       UserAddToSet (JStr "u1") "t1";
       TaskReplace "t1"
         (@overwritten Sample.schema Sample.open_task
            (replacement_task
               (Sample.task_body (JStr "Write report") (JStr "1730421319000.0")
                  JUndef (JStr "u1") (JStr "Alice"))))].
Proof. split_and!; reflexivity. Qed.

(** *** The assigned-user check of task creation and replacement *)

Lemma tasks_after_post newId saved st :
  tasks (if is_pending saved
         then apply_op (UserAddToSet (t_assignedUser saved) newId)
                (apply_op (TaskSave newId saved) st)
         else apply_op (TaskSave newId saved) st) !! newId = Some saved.
Proof.
  destruct (is_pending saved); cbn [apply_op tasks users]; apply lookup_insert_eq.
Qed.

(** X12.  The assigned-user check, for a request that carries name and
    deadline:
    - with an assignedUser, creation and replacement both answer 404 when
      no such user exists and a validation error when assignedUserName is
      not strictly equal to that user's name, leaving the store untouched;
      a creation that passes and is saved stores the user's name;
    - without one, creation hands the store the empty string as
      assignedUser and is refused; replacement is stopped by the check
      only when assignedUserName is non-empty and differs from
      "unassigned" -- an absent or empty assignedUserName passes, as does
      "unassigned" itself. *)
Theorem task_assignee_checks `{Schema} newId id b st :
  truthy (b_name b) = true →
  truthy (b_deadline b) = true →
  (if truthy (b_assignedUser b) then
     match find_user st (b_assignedUser b) with
     | None =>
         is_NotFound (result (post_task newId b st))
         ∧ final (post_task newId b st) = st
     | Some user =>
         if js_seq (b_assignedUserName b) (u_name user) then
           if saves (new_task b (u_name user)) then
             status (result (post_task newId b st)) = 201
             ∧ t_assignedUserName <$> tasks (final (post_task newId b st)) !! newId
               = Some (u_name user)
           else
             result (post_task newId b st) = mkResponse 400 MsgWriteRefused DNull
             ∧ final (post_task newId b st) = st
         else
           is_ValidationError (result (post_task newId b st))
           ∧ final (post_task newId b st) = st
     end
   else
     result (post_task newId b st) = mkResponse 400 MsgWriteRefused DNull
     ∧ final (post_task newId b st) = st)
  ∧ (if truthy (b_assignedUser b) then
       match find_user st (b_assignedUser b) with
       | None =>
           is_NotFound (result (put_task id b st))
           ∧ final (put_task id b st) = st
       | Some user =>
           if js_seq (b_assignedUserName b) (u_name user) then
             assignee_message (msg (result (put_task id b st))) = false
           else
             is_ValidationError (result (put_task id b st))
             ∧ final (put_task id b st) = st
       end
     else
       if truthy (b_assignedUserName b)
          && negb (js_seq (b_assignedUserName b) (JStr "unassigned"))
       then
         is_ValidationError (result (put_task id b st))
         ∧ final (put_task id b st) = st
       else
         assignee_message (msg (result (put_task id b st))) = false).
Proof.
  intros Hname Hdeadline.
  rewrite post_task_run, put_task_run, Hname, Hdeadline. cbn [negb orb].
  rewrite check_assignee_post_run, check_assignee_put_run. cbn [result fst].
  assert (Hpass : ∀ r1 r2 s1 s2 l1 l2 (c : bool),
    assignee_message
      (msg (result
         match tasks st !! id with
         | None => (mkResponse 404 MsgTaskNotFound DNull, st, [])
         | Some oldTask =>
             if truthy (t_completed oldTask) then
               (mkResponse 400 MsgAlreadyCompleted DNull, st, [])
             else
               if c then (mkResponse 200 MsgTaskReplaced (r1 oldTask), s1 oldTask, l1 oldTask)
               else (mkResponse 400 MsgWriteRefused (r2 oldTask), s2 oldTask, l2 oldTask)
         end)) = false).
  { intros. destruct (tasks st !! id) as [oldTask|]; [| done].
    destruct (truthy (t_completed oldTask)); [done |]. by destruct c. }
  destruct (truthy (b_assignedUser b)) eqn:Hau.
  - destruct (find_user st (b_assignedUser b)) as [user|]; [| done].
    destruct (js_seq (b_assignedUserName b) (u_name user)); [| done].
    cbv zeta. split.
    + destruct (saves (new_task b (u_name user))); [| done].
      cbn [result final fst snd status]. by rewrite tasks_after_post.
    + apply (Hpass
        (fun oldTask => DTask (tasks (replay (compensation_calls oldTask b id
           ++ [TaskReplace id (overwritten oldTask (replacement_task b))]) st) !! id))
        (fun _ => DNull)).
  - cbv zeta. rewrite (saves_unassigned _ _ Hau). split; [done |].
    destruct (truthy (b_assignedUserName b)
              && negb (js_seq (b_assignedUserName b) (JStr "unassigned"))); [done |].
    apply (Hpass
      (fun oldTask => DTask (tasks (replay (compensation_calls oldTask b id
         ++ [TaskReplace id (overwritten oldTask (replacement_task b))]) st) !! id))
      (fun _ => DNull)).
Qed.

Lemma task_assignee_checks_witness :
  is_ValidationError
    (result (@put_task Sample.schema "t1"
               (Sample.task_body (JStr "Write report") (JStr "1730421319000.0")
                  (JBool false) JUndef (JStr "nobody")) Sample.db))
  ∧ final (@put_task Sample.schema "t1"
             (Sample.task_body (JStr "Write report") (JStr "1730421319000.0")
                (JBool false) JUndef (JStr "nobody")) Sample.db) = Sample.db.
Proof.
  exact (proj2 (@task_assignee_checks Sample.schema "t3" "t1"
                  (Sample.task_body (JStr "Write report") (JStr "1730421319000.0")
                     (JBool false) JUndef (JStr "nobody"))
                  Sample.db eq_refl eq_refl)).
Defined.

(** C6, at the input where the code departs from it.  The open sample
    task, assigned to Alice, is replaced with a body that has no
    assignedUser and the empty string as assignedUserName.  The name is not
    "unassigned", yet the check of the replacement lets the request through
    (the check of the creation computes "unassigned" for the same body and
    stores it; the replacement computes it and never reads it): the
    handler goes on, pulls the task from Alice's pendingTasks and attempts
    the replacement with the empty name.  The answer is not the validation
    error of the check.  The creation with that body is refused, but by the
    schema, which does not take the empty assignedUser. *)
Theorem put_task_empty_name_accepted `{Schema} :
  truthy (b_assignedUser
            (Sample.task_body (JStr "Write report") (JStr "1730421319000.0")
               (JBool false) JUndef (JStr ""))) = false
  ∧ b_assignedUserName
      (Sample.task_body (JStr "Write report") (JStr "1730421319000.0")
         (JBool false) JUndef (JStr "")) ≠ JStr "unassigned"
  ∧ result (check_assignee_put
              (Sample.task_body (JStr "Write report") (JStr "1730421319000.0")
                 (JBool false) JUndef (JStr "")) Sample.db) = None
  ∧ result (check_assignee_post
              (Sample.task_body (JStr "Write report") (JStr "1730421319000.0")
                 (JBool false) JUndef (JStr "")) Sample.db) = inr (JStr "unassigned")
  ∧ (∃ rest,
       calls (put_task "t1"
                (Sample.task_body (JStr "Write report") (JStr "1730421319000.0")
                   (JBool false) JUndef (JStr "")) Sample.db)
       = UserPull (JStr "u1") "t1" :: rest
       ∧ (rest = []
          ∨ rest = [TaskReplace "t1"
                      (overwritten Sample.open_task
                         (replacement_task
                            (Sample.task_body (JStr "Write report")
                               (JStr "1730421319000.0") (JBool false) JUndef
                               (JStr ""))))]))
  ∧ u_pendingTasks <$>
      users (final (put_task "t1"
                      (Sample.task_body (JStr "Write report") (JStr "1730421319000.0")
                         (JBool false) JUndef (JStr "")) Sample.db)) !! "u1"
    = Some []
  ∧ msg (result (put_task "t1"
                   (Sample.task_body (JStr "Write report") (JStr "1730421319000.0")
                      (JBool false) JUndef (JStr "")) Sample.db))
    ≠ MsgMustBeUnassigned
  ∧ result (post_task "t3"
              (Sample.task_body (JStr "Write report") (JStr "1730421319000.0")
                 (JBool false) JUndef (JStr "")) Sample.db)
    = mkResponse 400 MsgWriteRefused DNull.
Proof.
  split_and!; [reflexivity | discriminate | reflexivity | reflexivity | | | |].
  - rewrite put_task_run.
    change (result (check_assignee_put _ Sample.db)) with (@None response).
    cbn [negb orb Sample.task_body b_name b_deadline truthy String.eqb Ascii.eqb Bool.eqb].
    change (tasks Sample.db !! "t1") with (Some Sample.open_task).
    cbn [Sample.open_task t_completed truthy]. cbv zeta.
    destruct (replaces _); cbn [calls snd]; eexists; (split; [reflexivity |]); auto.
  - rewrite put_task_run.
    change (result (check_assignee_put _ Sample.db)) with (@None response).
    cbn [negb orb Sample.task_body b_name b_deadline truthy String.eqb Ascii.eqb Bool.eqb].
    change (tasks Sample.db !! "t1") with (Some Sample.open_task).
    cbn [Sample.open_task t_completed truthy]. cbv zeta.
    destruct (replaces _); reflexivity.
  - rewrite put_task_run.
    change (result (check_assignee_put _ Sample.db)) with (@None response).
    cbn [negb orb Sample.task_body b_name b_deadline truthy String.eqb Ascii.eqb Bool.eqb].
    change (tasks Sample.db !! "t1") with (Some Sample.open_task).
    cbn [Sample.open_task t_completed truthy]. cbv zeta.
    destruct (replaces _); discriminate.
  - rewrite post_task_run.
    change (result (check_assignee_post _ Sample.db))
      with (@inr response jsval (JStr "unassigned")).
    cbn [negb orb Sample.task_body b_name b_deadline truthy String.eqb Ascii.eqb Bool.eqb].
    cbv beta iota zeta. by rewrite saves_unassigned.
Qed.

(** *** The query-string interpreter *)

Section InterpreterFacts.
Context `{QueryLanguage}.

(** One [try]/[catch] clause always returns: the query is either left as
    it was (with a warning when the clause was present and refused) or
    extended by the builder. *)
Lemma clause_returns raw m w s :
  ∃ s', clause raw m w s = Returned s'
    ∧ (s' = s
       ∨ s' = (s.1, s.2 ++ [w])
       ∨ ∃ v q, JSON_parse raw = Some v ∧ m v s.1 = Returned q ∧ s' = (q, s.2))
    ∧ (present raw = true → JSON_parse raw = None → s' = (s.1, s.2 ++ [w])).
Proof.
  unfold clause, parse. destruct (present raw).
  - destruct (JSON_parse raw) as [v|] eqn:Hv; cbn [and_then try_catch].
    + destruct (m v s.1) as [q|e] eqn:Hm; cbn [and_then try_catch].
      * exists (q, s.2). split_and!; [done | | done]. right. right. eauto.
      * exists (s.1, s.2 ++ [w]). split_and!; [done | by right; left | done].
    + exists (s.1, s.2 ++ [w]). split_and!; [done | by right; left | done].
  - exists s. split_and!; [done | by left | done].
Qed.

Lemma Query_where_keeps v q q' :
  Query_where v q = Returned q' →
  q_sort q' = q_sort q ∧ q_select q' = q_select q
  ∧ q_skip q' = q_skip q ∧ q_limit q' = q_limit q.
Proof. unfold Query_where. destruct (where_ok v); [| done]. by intros [= <-]. Qed.

Lemma Query_sort_keeps v q q' :
  Query_sort v q = Returned q' →
  q_where q' = q_where q ∧ q_select q' = q_select q
  ∧ q_skip q' = q_skip q ∧ q_limit q' = q_limit q.
Proof. unfold Query_sort. destruct (sort_ok v); [| done]. by intros [= <-]. Qed.

Lemma Query_select_keeps v q q' :
  Query_select v q = Returned q' →
  q_where q' = q_where q ∧ q_sort q' = q_sort q
  ∧ q_skip q' = q_skip q ∧ q_limit q' = q_limit q.
Proof. unfold Query_select. destruct (select_ok v); [| done]. by intros [= <-]. Qed.

(** What [parseQuery] returns, for any parameters. *)
Lemma parseQuery_returns q p :
  ∃ q' ws, parseQuery q p = Returned (q', ws)
    ∧ (present (p_where p) = true → JSON_parse (p_where p) = None →
       q_where q' = q_where q ∧ InvalidWhere (p_where p) ∈ ws)
    ∧ (present (p_sort p) = true → JSON_parse (p_sort p) = None →
       q_sort q' = q_sort q ∧ InvalidSort (p_sort p) ∈ ws)
    ∧ (present (p_select p) = true → JSON_parse (p_select p) = None →
       q_select q' = q_select q ∧ InvalidSelect (p_select p) ∈ ws)
    ∧ q_skip q' = (if present (p_skip p) then Some (parseInt (p_skip p)) else q_skip q)
    ∧ q_limit q' = (if present (p_limit p) then Some (parseInt (p_limit p)) else q_limit q).
Proof.
  unfold parseQuery.
  destruct (clause_returns (p_where p) Query_where (InvalidWhere (p_where p)) (q, []))
    as ([q1 w1] & -> & Hc1 & Hm1).
  cbn [and_then].
  destruct (clause_returns (p_sort p) Query_sort (InvalidSort (p_sort p)) (q1, w1))
    as ([q2 w2] & -> & Hc2 & Hm2).
  cbn [and_then].
  destruct (clause_returns (p_select p) Query_select (InvalidSelect (p_select p)) (q2, w2))
    as ([q3 w3] & -> & Hc3 & Hm3).
  cbn [and_then fst snd] in *.
  assert (H1 : q_sort q1 = q_sort q ∧ q_select q1 = q_select q
               ∧ q_skip q1 = q_skip q ∧ q_limit q1 = q_limit q ∧ w1 ⊆ w1).
  { destruct Hc1 as [[= -> ->] | [[= -> ->] | (v & q0 & _ & Hq & [= -> ->])]];
      try done. by apply Query_where_keeps in Hq as (? & ? & ? & ?). }
  assert (H2 : q_where q2 = q_where q1 ∧ q_select q2 = q_select q1
               ∧ q_skip q2 = q_skip q1 ∧ q_limit q2 = q_limit q1 ∧ w1 ⊆ w2).
  { destruct Hc2 as [[= -> ->] | [[= -> ->] | (v & q0 & _ & Hq & [= -> ->])]];
      try done.
    - split_and!; try done. intros x Hx. apply elem_of_app. by left.
    - by apply Query_sort_keeps in Hq as (? & ? & ? & ?). }
  assert (H3 : q_where q3 = q_where q2 ∧ q_sort q3 = q_sort q2
               ∧ q_skip q3 = q_skip q2 ∧ q_limit q3 = q_limit q2 ∧ w2 ⊆ w3).
  { destruct Hc3 as [[= -> ->] | [[= -> ->] | (v & q0 & _ & Hq & [= -> ->])]];
      try done.
    - split_and!; try done. intros x Hx. apply elem_of_app. by left.
    - by apply Query_select_keeps in Hq as (? & ? & ? & ?). }
  destruct H1 as (H1a & H1b & H1c & H1d & _).
  destruct H2 as (H2a & H2b & H2c & H2d & H2w).
  destruct H3 as (H3a & H3b & H3c & H3d & H3w).
  assert (Hf :
    q_where (if present (p_limit p)
             then Query_limit (parseInt (p_limit p))
                    (if present (p_skip p)
                     then Query_skip (parseInt (p_skip p)) q3 else q3)
             else if present (p_skip p)
                  then Query_skip (parseInt (p_skip p)) q3 else q3) = q_where q3
    ∧ q_sort (if present (p_limit p)
             then Query_limit (parseInt (p_limit p))
                    (if present (p_skip p)
                     then Query_skip (parseInt (p_skip p)) q3 else q3)
             else if present (p_skip p)
                  then Query_skip (parseInt (p_skip p)) q3 else q3) = q_sort q3
    ∧ q_select (if present (p_limit p)
             then Query_limit (parseInt (p_limit p))
                    (if present (p_skip p)
                     then Query_skip (parseInt (p_skip p)) q3 else q3)
             else if present (p_skip p)
                  then Query_skip (parseInt (p_skip p)) q3 else q3) = q_select q3
    ∧ q_skip (if present (p_limit p)
             then Query_limit (parseInt (p_limit p))
                    (if present (p_skip p)
                     then Query_skip (parseInt (p_skip p)) q3 else q3)
             else if present (p_skip p)
                  then Query_skip (parseInt (p_skip p)) q3 else q3)
      = (if present (p_skip p) then Some (parseInt (p_skip p)) else q_skip q3)
    ∧ q_limit (if present (p_limit p)
             then Query_limit (parseInt (p_limit p))
                    (if present (p_skip p)
                     then Query_skip (parseInt (p_skip p)) q3 else q3)
             else if present (p_skip p)
                  then Query_skip (parseInt (p_skip p)) q3 else q3)
      = (if present (p_limit p) then Some (parseInt (p_limit p)) else q_limit q3)).
  { by destruct (present (p_skip p)), (present (p_limit p)). }
  destruct Hf as (Hfw & Hfs & Hfsel & Hfskip & Hflimit).
  eexists _, _. split; [reflexivity |].
  rewrite Hfw, Hfs, Hfsel, Hfskip, Hflimit.
  split_and!.
  - intros Hp Hn. specialize (Hm1 Hp Hn) as [= -> ->].
    split; [congruence |]. apply H3w, H2w. cbn. by constructor.
  - intros Hp Hn. specialize (Hm2 Hp Hn) as [= -> ->].
    split; [congruence |]. apply H3w, elem_of_app. right.
    by apply list_elem_of_singleton.
  - intros Hp Hn. specialize (Hm3 Hp Hn) as [= -> ->].
    split; [congruence |]. apply elem_of_app. right.
    by apply list_elem_of_singleton.
  - destruct (present (p_skip p)); congruence.
  - destruct (present (p_limit p)); congruence.
Qed.

Lemma clause_where raw q ws :
  clause raw Query_where (InvalidWhere raw) (q, ws) =
  Returned (mkQuery (q_where q ++ installed raw where_ok) (q_sort q) (q_select q)
              (q_skip q) (q_limit q),
            ws ++ refused raw where_ok (InvalidWhere raw)).
Proof.
  unfold clause, parse, Query_where, installed, refused.
  destruct (present raw);
    [destruct (JSON_parse raw) as [v|]; cbn [and_then]; [destruct (where_ok v) |] |];
    cbn; rewrite ?app_nil_r; by destruct q.
Qed.

Lemma clause_sort raw q ws :
  clause raw Query_sort (InvalidSort raw) (q, ws) =
  Returned (mkQuery (q_where q) (q_sort q ++ installed raw sort_ok) (q_select q)
              (q_skip q) (q_limit q),
            ws ++ refused raw sort_ok (InvalidSort raw)).
Proof.
  unfold clause, parse, Query_sort, installed, refused.
  destruct (present raw);
    [destruct (JSON_parse raw) as [v|]; cbn [and_then]; [destruct (sort_ok v) |] |];
    cbn; rewrite ?app_nil_r; by destruct q.
Qed.

Lemma clause_select raw q ws :
  clause raw Query_select (InvalidSelect raw) (q, ws) =
  Returned (mkQuery (q_where q) (q_sort q) (q_select q ++ installed raw select_ok)
              (q_skip q) (q_limit q),
            ws ++ refused raw select_ok (InvalidSelect raw)).
Proof.
  unfold clause, parse, Query_select, installed, refused.
  destruct (present raw);
    [destruct (JSON_parse raw) as [v|]; cbn [and_then]; [destruct (select_ok v) |] |];
    cbn; rewrite ?app_nil_r; by destruct q.
Qed.

(** The value of [parseQuery]. *)
Lemma parseQuery_value q p :
  parseQuery q p =
  Returned
    (mkQuery
       (q_where q ++ installed (p_where p) where_ok)
       (q_sort q ++ installed (p_sort p) sort_ok)
       (q_select q ++ installed (p_select p) select_ok)
       (if present (p_skip p) then Some (parseInt (p_skip p)) else q_skip q)
       (if present (p_limit p) then Some (parseInt (p_limit p)) else q_limit q),
     refused (p_where p) where_ok (InvalidWhere (p_where p))
     ++ refused (p_sort p) sort_ok (InvalidSort (p_sort p))
     ++ refused (p_select p) select_ok (InvalidSelect (p_select p))).
Proof.
  unfold parseQuery.
  rewrite clause_where. cbn [and_then].
  rewrite clause_sort. cbn [and_then q_where q_sort q_select q_skip q_limit].
  rewrite clause_select. cbn [and_then fst snd q_where q_sort q_select q_skip q_limit].
  rewrite app_nil_l, <- app_assoc.
  by destruct (present (p_skip p)), (present (p_limit p)).
Qed.

Lemma installed_unparsed raw ok :
  present raw = true → JSON_parse raw = None → installed raw ok = [].
Proof. unfold installed. by intros -> ->. Qed.

(** A parameter that does not parse leaves the query the request would
    have had without it. *)
Lemma parseQuery_without q p :
  (present (p_where p) = true → JSON_parse (p_where p) = None →
   (λ r, match r with Returned s => Some s.1 | Thrown _ => None end)
     (parseQuery q (without_where p))
   = (λ r, match r with Returned s => Some s.1 | Thrown _ => None end) (parseQuery q p))
  ∧ (present (p_sort p) = true → JSON_parse (p_sort p) = None →
     (λ r, match r with Returned s => Some s.1 | Thrown _ => None end)
       (parseQuery q (without_sort p))
     = (λ r, match r with Returned s => Some s.1 | Thrown _ => None end) (parseQuery q p))
  ∧ (present (p_select p) = true → JSON_parse (p_select p) = None →
     (λ r, match r with Returned s => Some s.1 | Thrown _ => None end)
       (parseQuery q (without_select p))
     = (λ r, match r with Returned s => Some s.1 | Thrown _ => None end) (parseQuery q p)).
Proof.
  rewrite !parseQuery_value.
  cbn [without_where without_sort without_select
       p_where p_sort p_select p_skip p_limit fst].
  split_and!; intros Hp Hn; rewrite (installed_unparsed _ _ Hp Hn); done.
Qed.
End InterpreterFacts.

Section ListFacts.
Context `{QueryLanguage} `{Collection (string * UserDoc)} `{Collection (string * TaskDoc)}.

Lemma selected_length {D} `{Collection D} (q : Query) (docs : list D) :
  length (selected q docs) =
  length (List.filter (fun d => forallb (fun w => matches w d) (q_where q)) docs).
Proof. unfold selected. apply Permutation_length, order_perm. Qed.

(** A list request whose parameters parse to a query the store can read,
    with a skip and a limit it takes, is answered 200. *)
Lemma list_response_ok {D} `{Collection D} (wrap : list D → payload)
    rq p (docs : list D) q ws k c :
  parseQuery find_all p = Returned (q, ws) →
  readable q = true →
  skip_count (q_skip q) = Some k →
  limit_cap (q_limit q) = Some c →
  list_response wrap rq p docs =
  (mkResponse 200 MsgOK
     (if count_requested rq then DCount (length (cap c (drop k (selected q docs))))
      else wrap (map (project (q_select q)) (cap c (drop k (selected q docs))))),
   ws).
Proof.
  intros Hp Hr Hk Hc. unfold list_response, countDocuments, exec, window.
  rewrite Hp, Hr, Hk, Hc. cbn [and_then]. by destruct (count_requested rq).
Qed.

(** A list response that carries documents comes from a query that
    parsed, that the store could read and whose skip and limit it took. *)
Lemma list_response_data {D} `{Collection D} (wrap : list D → payload)
    rq p (docs : list D) l :
  (∀ n l', wrap l' ≠ DCount n) → (∀ l', wrap l' ≠ DNull) →
  (∀ l1 l2, wrap l1 = wrap l2 → l1 = l2) →
  data (list_response wrap rq p docs).1 = wrap l →
  ∃ q ws k c,
    parseQuery find_all p = Returned (q, ws)
    ∧ readable q = true
    ∧ skip_count (q_skip q) = Some k
    ∧ limit_cap (q_limit q) = Some c
    ∧ l = map (project (q_select q)) (cap c (drop k (selected q docs))).
Proof.
  intros Hcount Hnull Hinj.
  destruct (parseQuery_returns find_all p) as (q & ws & Hp & _).
  unfold list_response, countDocuments, exec, window. rewrite Hp.
  destruct (readable q) eqn:Hr;
    [destruct (skip_count (q_skip q)) as [k|] eqn:Hk;
       [destruct (limit_cap (q_limit q)) as [c|] eqn:Hc |] |];
    destruct (count_requested rq); cbn; intros Hd;
    try (symmetry in Hd; by apply Hcount in Hd);
    try (symmetry in Hd; by apply Hnull in Hd).
  apply Hinj in Hd. exists q, ws, k, c. by subst.
Qed.

(** The response of a list request is settled by the query its parameters
    parse to and by whether a count is asked for. *)
Lemma list_response_query {D} `{Collection D} (wrap : list D → payload)
    rq rq' p p' (docs : list D) :
  count_requested rq = count_requested rq' →
  (λ r, match r with Returned s => Some s.1 | Thrown _ => None end)
    (parseQuery find_all p)
  = (λ r, match r with Returned s => Some s.1 | Thrown _ => None end)
      (parseQuery find_all p') →
  (list_response wrap rq p docs).1 = (list_response wrap rq' p' docs).1.
Proof.
  intros Hc. unfold list_response. rewrite Hc.
  destruct (parseQuery_returns find_all p) as (q & ws & -> & _).
  destruct (parseQuery_returns find_all p') as (q' & ws' & -> & _).
  cbn. intros [= ->].
  destruct (count_requested rq');
    [by destruct (countDocuments q' docs) | by destruct (exec q' docs)].
Qed.

(** C7, as the code has it.  [parseQuery] returns for every value of the
    parameters.  A [where], [sort] or [select] that does not parse is
    passed over with a warning and leaves that part of the query as it
    was, so that both list requests are answered as if the parameter had
    not been sent.  A [skip] or [limit] is stored as [parseInt] reads it --
    so one that does not start with an integer is stored as NaN, not
    replaced by a default -- and is left alone only when the parameter is
    empty. *)
Theorem parseQuery_lenient q p :
  ∃ q' ws, parseQuery q p = Returned (q', ws)
    ∧ (present (p_where p) = true → JSON_parse (p_where p) = None →
       q_where q' = q_where q ∧ InvalidWhere (p_where p) ∈ ws)
    ∧ (present (p_sort p) = true → JSON_parse (p_sort p) = None →
       q_sort q' = q_sort q ∧ InvalidSort (p_sort p) ∈ ws)
    ∧ (present (p_select p) = true → JSON_parse (p_select p) = None →
       q_select q' = q_select q ∧ InvalidSelect (p_select p) ∈ ws)
    ∧ q_skip q' = (if present (p_skip p) then Some (parseInt (p_skip p)) else q_skip q)
    ∧ q_limit q' = (if present (p_limit p) then Some (parseInt (p_limit p)) else q_limit q)
    ∧ (present (p_skip p) = true → parseInt (p_skip p) = NaN →
       q_skip q' = Some NaN ∧ ¬ skip_defaulted q')
    ∧ (present (p_limit p) = true → parseInt (p_limit p) = NaN → q_limit q' = Some NaN)
    ∧ (∀ st, present (p_where p) = true → JSON_parse (p_where p) = None →
         (get_users p st).1 = (get_users (without_where p) st).1
         ∧ (get_tasks p st).1 = (get_tasks (without_where p) st).1)
    ∧ (∀ st, present (p_sort p) = true → JSON_parse (p_sort p) = None →
         (get_users p st).1 = (get_users (without_sort p) st).1
         ∧ (get_tasks p st).1 = (get_tasks (without_sort p) st).1)
    ∧ (∀ st, present (p_select p) = true → JSON_parse (p_select p) = None →
         (get_users p st).1 = (get_users (without_select p) st).1
         ∧ (get_tasks p st).1 = (get_tasks (without_select p) st).1).
Proof.
  destruct (parseQuery_returns q p) as (q' & ws & Hp & Hw & Hs & Hsel & Hskip & Hlimit).
  exists q', ws. split_and!; try done.
  - intros Hpres Hnan. rewrite Hskip, Hpres, Hnan. split; [done |].
    unfold skip_defaulted. rewrite Hskip, Hpres, Hnan. by intros [[=] | [=]].
  - intros Hpres Hnan. by rewrite Hlimit, Hpres, Hnan.
  - intros st Hpres Hnone. unfold get_users, get_tasks. split.
    + apply list_response_query; [done |]. symmetry.
      by apply (parseQuery_without find_all p).
    + apply list_response_query; [done |]. symmetry.
      by apply (parseQuery_without find_all (with_default_limit p)).
  - intros st Hpres Hnone. unfold get_users, get_tasks. split.
    + apply list_response_query; [done |]. symmetry.
      by apply (parseQuery_without find_all p).
    + apply list_response_query; [done |]. symmetry.
      by apply (parseQuery_without find_all (with_default_limit p)).
  - intros st Hpres Hnone. unfold get_users, get_tasks. split.
    + apply list_response_query; [done |]. symmetry.
      by apply (parseQuery_without find_all p).
    + apply list_response_query; [done |]. symmetry.
      by apply (parseQuery_without find_all (with_default_limit p)).
Qed.

(** C8.  With no [limit] parameter (absent or empty), a task list holds
    at most 100 tasks -- exactly min(100, matches - skip) -- while a user
    list holds every user the filter keeps after the skipped ones, with
    no cap.  Both lists are what the request is answered with, status
    200, whenever the store can read the query, takes its skip and no
    count is asked for. *)
Theorem list_limits p st :
  present (p_limit p) = false →
  (∀ l, data (get_tasks p st).1 = DTasks l →
     length l ≤ 100
     ∧ ∃ q ws k,
         parseQuery find_all (with_default_limit p) = Returned (q, ws)
         ∧ skip_count (q_skip q) = Some k
         ∧ length l =
             100 `min`
             (length (List.filter (fun d => forallb (fun w => matches w d) (q_where q))
                        (map_to_list (tasks st))) - k))
  ∧ (∀ l, data (get_users p st).1 = DUsers l →
     ∃ q ws k,
       parseQuery find_all p = Returned (q, ws)
       ∧ q_limit q = None
       ∧ skip_count (q_skip q) = Some k
       ∧ l = map (project (q_select q)) (drop k (selected q (map_to_list (users st))))
       ∧ length l =
           length (List.filter (fun d => forallb (fun w => matches w d) (q_where q))
                     (map_to_list (users st))) - k)
  ∧ (∀ q ws k,
       count_requested p = false →
       parseQuery find_all p = Returned (q, ws) →
       readable (D := string * UserDoc) q = true →
       skip_count (q_skip q) = Some k →
       (get_users p st).1 =
         mkResponse 200 MsgOK
           (DUsers (map (project (q_select q))
                      (drop k (selected q (map_to_list (users st)))))))
  ∧ (∀ q ws k,
       count_requested p = false →
       parseQuery find_all (with_default_limit p) = Returned (q, ws) →
       readable (D := string * TaskDoc) q = true →
       skip_count (q_skip q) = Some k →
       (get_tasks p st).1 =
         mkResponse 200 MsgOK
           (DTasks (map (project (q_select q))
                      (take 100 (drop k (selected q (map_to_list (tasks st)))))))).
Proof.
  intros Hnolimit. split_and!.
  - intros l Hl.
    apply list_response_data in Hl as (q & ws & k & c & Hp & _ & Hk & Hc & ->);
      [| done | done | by intros ?? [=]].
    destruct (parseQuery_returns find_all (with_default_limit p))
      as (q1 & ws1 & Hp1 & _ & _ & _ & _ & Hlimit1).
    rewrite Hp in Hp1. injection Hp1 as <- <-.
    cbn [with_default_limit p_limit] in Hlimit1. rewrite Hnolimit in Hlimit1.
    cbn in Hlimit1. rewrite Hlimit1 in Hc. cbn in Hc. injection Hc as <-.
    cbn [cap]. rewrite length_map, length_take, length_drop, selected_length.
    split; [lia |]. exists q, ws, k. by split_and!.
  - intros l Hl.
    apply list_response_data in Hl as (q & ws & k & c & Hp & _ & Hk & Hc & ->);
      [| done | done | by intros ?? [=]].
    destruct (parseQuery_returns find_all p)
      as (q1 & ws1 & Hp1 & _ & _ & _ & _ & Hlimit1).
    rewrite Hp in Hp1. injection Hp1 as <- <-.
    rewrite Hnolimit in Hlimit1. cbn in Hlimit1. rewrite Hlimit1 in Hc.
    cbn in Hc. injection Hc as <-. cbn [cap].
    exists q, ws, k. split_and!; try done.
    by rewrite length_map, length_drop, selected_length.
  - intros q ws k Hcount Hp Hr Hk.
    destruct (parseQuery_returns find_all p)
      as (q1 & ws1 & Hp1 & _ & _ & _ & _ & Hlimit1).
    rewrite Hp in Hp1. injection Hp1 as <- <-.
    rewrite Hnolimit in Hlimit1. cbn in Hlimit1.
    unfold get_users.
    rewrite (list_response_ok DUsers p p _ q ws k None Hp Hr Hk)
      by (by rewrite Hlimit1).
    by rewrite Hcount.
  - intros q ws k Hcount Hp Hr Hk.
    destruct (parseQuery_returns find_all (with_default_limit p))
      as (q1 & ws1 & Hp1 & _ & _ & _ & _ & Hlimit1).
    rewrite Hp in Hp1. injection Hp1 as <- <-.
    cbn [with_default_limit p_limit] in Hlimit1. rewrite Hnolimit in Hlimit1.
    cbn in Hlimit1.
    unfold get_tasks.
    rewrite (list_response_ok DTasks p _ _ q ws k (Some 100) Hp Hr Hk)
      by (by rewrite Hlimit1).
    by rewrite Hcount.
Qed.
End ListFacts.

Lemma parseQuery_lenient_witness :
  ∃ q' ws,
    @parseQuery Sample.language find_all
      (mkParams (QStr "[") QAbsent QAbsent QAbsent QAbsent QAbsent) = Returned (q', ws)
    ∧ q_where q' = []
    ∧ InvalidWhere (QStr "[") ∈ ws.
Proof.
  destruct (@parseQuery_lenient Sample.language (Sample.plain _) (Sample.plain _)
              find_all (mkParams (QStr "[") QAbsent QAbsent QAbsent QAbsent QAbsent))
    as (q' & ws & Hp & Hw & _).
  exists q', ws. split; [exact Hp |]. exact (Hw eq_refl eq_refl).
Defined.

(** What [parseInt] reads in a few strings. *)
Example parseInt_samples :
  map parseInt_string ["12"; " 12px"; "-7"; "0x1F"; "3.7"; "abc"; ""; "-"; "0x"]
  = [Int 12; Int 12; Int (-7); Int 31; Int 3; NaN; NaN; NaN; NaN].
Proof. reflexivity. Qed.

(** C7, as stated, fails: [skip=abc] is not turned into the default; the
    query that comes back carries NaN as its skip. *)
Lemma parseQuery_skip_not_defaulted :
  parseInt (QStr "abc") = NaN
  ∧ @parseQuery Sample.language find_all
      (mkParams QAbsent QAbsent QAbsent (QStr "abc") QAbsent QAbsent)
    = Returned (mkQuery [] [] [] (Some NaN) None, [])
  ∧ ¬ skip_defaulted (mkQuery [] [] [] (Some NaN) None).
Proof.
  split_and!; [reflexivity | reflexivity |].
  by intros [[=] | [=]].
Qed.

(** In a store with 101 users and 101 tasks a request without parameters
    is answered with all 101 users and with 100 tasks. *)
Lemma list_limits_witness :
  (∃ l,
     (@get_users Sample.language (Sample.plain _) Sample.no_params Sample.crowd).1
     = mkResponse 200 MsgOK (DUsers l)
     ∧ length l = 101)
  ∧ (∃ l,
       (@get_tasks Sample.language (Sample.plain _) Sample.no_params Sample.crowd).1
       = mkResponse 200 MsgOK (DTasks l)
       ∧ length l = 100).
Proof.
  destruct (@list_limits Sample.language (Sample.plain _) (Sample.plain _)
              Sample.no_params Sample.crowd eq_refl) as (_ & _ & Husers & Htasks).
  split.
  - eexists. split.
    + exact (Husers find_all [] 0 eq_refl eq_refl eq_refl eq_refl).
    + vm_compute. reflexivity.
  - eexists. split.
    + exact (Htasks (mkQuery [] [] [] None (Some (Int 100))) [] 0
               eq_refl eq_refl eq_refl eq_refl).
    + vm_compute. reflexivity.
Defined.

(** *** Scenarios on the sample store *)

(** Completing Alice's task takes it off her list. *)
Example complete_task_scenario :
  u_pendingTasks <$>
    users (final (@put_task Sample.schema "t1"
             (Sample.task_body (JStr "Write report") (JStr "1730421319000.0")
                (JStr "true") (JStr "u1") (JStr "Alice")) Sample.db)) !! "u1"
  = Some [].
Proof. reflexivity. Qed.

(** Deleting a task takes it off the assigned user's list. *)
Example delete_task_scenario :
  calls (delete_task "t1" Sample.db) = [TaskDelete "t1"; UserPull (JStr "u1") "t1"]
  ∧ u_pendingTasks <$> users (final (delete_task "t1" Sample.db)) !! "u1" = Some [].
Proof. split; reflexivity. Qed.

(** Unassigning Alice's task with a body that has no [completed] field
    pulls the id from her list (user change) and then puts it back
    (completion change, the stored [false] not being [undefined]). *)
Example unassign_without_completed_scenario :
  calls (@put_task Sample.schema "t1"
           (Sample.task_body (JStr "Write report") (JStr "1730421319000.0")
              JUndef JUndef (JStr "unassigned")) Sample.db)
  = [UserPull (JStr "u1") "t1"; UserAddToSet (JStr "u1") "t1";
     TaskReplace "t1"
       (@overwritten Sample.schema Sample.open_task
          (replacement_task
             (Sample.task_body (JStr "Write report") (JStr "1730421319000.0")
                JUndef JUndef (JStr "unassigned"))))]
  ∧ u_pendingTasks <$>
      users (final (@put_task Sample.schema "t1"
               (Sample.task_body (JStr "Write report") (JStr "1730421319000.0")
                  JUndef JUndef (JStr "unassigned")) Sample.db)) !! "u1"
    = Some [JStr "t1"].
Proof. split; reflexivity. Qed.

(** * Further properties of the handlers *)

(** *** PUT /users/:id, the whole handler *)

Lemma put_user_run `{Schema} id b st :
  put_user id b st =
  if negb (truthy (b_name b)) || negb (truthy (b_email b)) then
    (mkResponse 400 MsgUserFieldsRequired DNull, st, [])
  else
    match users st !! id with
    | None => (mkResponse 404 MsgUserNotFound DNull, st, [])
    | Some oldUser =>
        let added := not_included (u_pendingTasks oldUser) (pendingTasks_of b) in
        let removed := not_included (pendingTasks_of b) (u_pendingTasks oldUser) in
        let blocked :=
          if nonempty added then result (Task_find_completed added st) else [] in
        if nonempty blocked then
          (mkResponse 400 (MsgCompletedAdded (map t_name blocked)) DNull, st, [])
        else if nonempty added && negb (assigns (JStr id) (b_name b)) then
          (user_write_refused, st, [])
        else
          let log :=
            if nonempty added then [TaskAssignMany added (JStr id) (b_name b)] else [] in
          if nonempty removed || negb (replaces_user (replacement_user b)) then
            (user_write_refused, replay log st, log)
          else
            let log := log ++ [UserReplace id (replacement_user b)] in
            (mkResponse 200 MsgUserReplaced (DUser (users (replay log st) !! id)),
             replay log st, log)
    end.
Proof.
  unfold put_user, replacement_user.
  destruct (negb (truthy (b_name b)) || negb (truthy (b_email b))); [done |].
  unfold bind at 1, User_findById, get, find_user.
  cbn [as_key mbind option_bind].
  destruct (users st !! id) as [oldUser|]; [| done].
  cbv zeta. cbn [u_pendingTasks u_name].
  fold (not_included (u_pendingTasks oldUser) (pendingTasks_of b)).
  fold (not_included (pendingTasks_of b) (u_pendingTasks oldUser)).
  generalize (not_included (u_pendingTasks oldUser) (pendingTasks_of b)) as added.
  generalize (not_included (pendingTasks_of b) (u_pendingTasks oldUser)) as removed.
  intros removed added.
  unfold bind, attempt_when, attempt, bind, issue, ret, Task_find_completed, get, result.
  rewrite assigns_assignee.
  destruct (assigns (JStr id) (b_name b)),
    (replaces_user (mkUser (b_name b) (b_email b) (pendingTasks_of b))),
    (nonempty removed), (nonempty added);
    cbn [fst snd app andb orb negb];
    match goal with |- context [nonempty ?l] =>
      destruct (nonempty l); [done |] end;
    cbn [fst snd app replay foldl orb]; done.
Qed.

Lemma in_ids_not_included other l k :
  in_ids (not_included other l) k = in_ids l k && negb (in_ids other k).
Proof.
  apply Bool.eq_iff_eq_true.
  rewrite andb_true_iff, negb_true_iff, !in_ids_elem.
  unfold not_included. rewrite list_elem_of_In, filter_In, <- list_elem_of_In.
  rewrite negb_true_iff. done.
Qed.

Lemma tasks_after_assign ids user name st k :
  tasks (replay (if nonempty ids then [TaskAssignMany ids user name] else []) st) !! k =
  (fun t => if in_ids ids k then set_assignment user name t else t) <$> tasks st !! k.
Proof.
  destruct ids as [|x ids].
  - cbn [nonempty replay foldl]. by destruct (tasks st !! k).
  - cbn [nonempty replay foldl]. apply tasks_assign_many_lookup.
Qed.

Lemma users_after_assign ids user name st :
  users (replay (if nonempty ids then [TaskAssignMany ids user name] else []) st)
  = users st.
Proof. by destruct (nonempty ids). Qed.

Lemma alter_const_insert {A} (m : gmap string A) k (x : A) :
  is_Some (m !! k) → alter (fun _ => x) k m = <[k := x]> m.
Proof.
  intros [y Hy]. apply map_eq. intros j.
  destruct (decide (k = j)) as [<- | Hne].
  - by rewrite lookup_alter_eq, lookup_insert_eq, Hy.
  - by rewrite lookup_alter_ne, lookup_insert_ne.
Qed.

Lemma store_eq (a b : store) : users a = users b → tasks a = tasks b → a = b.
Proof. destruct a, b. cbn. by intros -> ->. Qed.

Lemma not_included_nil other l : nonempty (not_included other l) = false → not_included other l = [].
Proof. apply nonempty_false. Qed.

(** The store a successful user replacement leaves. *)
Lemma put_user_success `{Schema} id b st :
  status (result (put_user id b st)) = 200 →
  ∃ oldUser,
    users st !! id = Some oldUser
    ∧ truthy (b_name b) && truthy (b_email b) = true
    ∧ not_included (pendingTasks_of b) (u_pendingTasks oldUser) = []
    ∧ replaces_user (replacement_user b) = true
    ∧ calls (put_user id b st) =
        (if nonempty (not_included (u_pendingTasks oldUser) (pendingTasks_of b))
         then [TaskAssignMany (not_included (u_pendingTasks oldUser) (pendingTasks_of b))
                 (JStr id) (b_name b)] else [])
        ++ [UserReplace id (replacement_user b)]
    ∧ users (final (put_user id b st)) = <[id := replacement_user b]> (users st)
    ∧ ∀ k,
        tasks (final (put_user id b st)) !! k =
        (fun t =>
           if in_ids (pendingTasks_of b) k && negb (in_ids (u_pendingTasks oldUser) k)
           then set_assignment (JStr id) (b_name b) t
           else t)
        <$> tasks st !! k.
Proof.
  rewrite put_user_run.
  destruct (truthy (b_name b)), (truthy (b_email b)); cbn [negb orb andb]; try done.
  destruct (users st !! id) as [oldUser|] eqn:Hu; [| done].
  cbv zeta.
  set (added := not_included (u_pendingTasks oldUser) (pendingTasks_of b)).
  destruct (nonempty (not_included (pendingTasks_of b) (u_pendingTasks oldUser)))
    eqn:Hremoved.
  { cbn [orb].
    match goal with |- context [nonempty (if ?c then ?x else ?y)] =>
      destruct (nonempty (if c then x else y)) end; [done |].
    by destruct (nonempty added && negb (assigns (JStr id) (b_name b))). }
  apply not_included_nil in Hremoved.
  destruct (replaces_user (replacement_user b)) eqn:Hr; cbn [negb orb].
  2:{ match goal with |- context [nonempty (if ?c then ?x else ?y)] =>
        destruct (nonempty (if c then x else y)) end; [done |].
      by destruct (nonempty added && negb (assigns (JStr id) (b_name b))). }
  match goal with |- context [nonempty (if ?c then ?x else ?y)] =>
    destruct (nonempty (if c then x else y)) end; [done |].
  destruct (nonempty added && negb (assigns (JStr id) (b_name b))); [done |].
  intros _. cbn [result final calls fst snd]. exists oldUser.
  split_and!; [done | done | done | done | done | |].
  - rewrite !replay_app. cbn [replay foldl apply_op users].
    change (foldl (fun s o => apply_op o s)) with (fun s l => replay l s). cbv beta.
    rewrite !users_after_assign. apply alter_const_insert. by rewrite Hu.
  - intros k. rewrite !replay_app. cbn [replay foldl apply_op tasks].
    change (foldl (fun s o => apply_op o s)) with (fun s l => replay l s). cbv beta.
    rewrite !tasks_after_assign. unfold added.
    by rewrite !in_ids_not_included.
Qed.




(** *** DELETE /tasks/:id *)

Lemma delete_task_run id st :
  delete_task id st =
  match tasks st !! id with
  | None => (mkResponse 404 MsgTaskNotFound DNull, apply_op (TaskDelete id) st, [TaskDelete id])
  | Some t =>
      (mkResponse 204 MsgTaskDeleted (DTask (Some t)),
       if truthy (t_assignedUser t)
       then apply_op (UserPull (t_assignedUser t) id) (apply_op (TaskDelete id) st)
       else apply_op (TaskDelete id) st,
       TaskDelete id ::
       if truthy (t_assignedUser t) then [UserPull (t_assignedUser t) id] else [])
  end.
Proof.
  unfold delete_task, bind, Task_findByIdAndDelete.
  destruct (tasks st !! id) as [t|]; [| done].
  by destruct (truthy (t_assignedUser t)).
Qed.

Lemma delete_absent_user id st :
  users st !! id = None → apply_op (UserDelete id) st = st.
Proof. intros Hu. destruct st as [us ts]. cbn in *. by rewrite delete_id. Qed.

Lemma delete_absent_task id st :
  tasks st !! id = None → apply_op (TaskDelete id) st = st.
Proof. intros Ht. destruct st as [us ts]. cbn in *. by rewrite delete_id. Qed.

(** *** Requests that fail *)

(** X2.  A write request stopped by one of the handler's own checks (a
    missing field, an unknown or mismatching user, a completed task, an
    unknown id) leaves the store exactly as it was and issues no mutating
    call, and so does a task creation the schema refuses.  A task
    replacement whose final write the schema refuses does not: the calls of
    the two compensation rules have been issued and stay. *)
Theorem failed_writes_change_nothing `{Schema} id b st :
  (status (result (put_user id b st)) ≠ 200 →
   msg (result (put_user id b st)) ≠ MsgWriteRefused →
   final (put_user id b st) = st ∧ calls (put_user id b st) = [])
  ∧ (status (result (post_task id b st)) ≠ 201 →
     final (post_task id b st) = st ∧ calls (post_task id b st) = [])
  ∧ (status (result (put_task id b st)) ≠ 200 →
     msg (result (put_task id b st)) ≠ MsgWriteRefused →
     final (put_task id b st) = st ∧ calls (put_task id b st) = [])
  ∧ (msg (result (put_task id b st)) = MsgWriteRefused →
     ∃ oldTask,
       tasks st !! id = Some oldTask
       ∧ calls (put_task id b st) = compensation_calls oldTask b id
       ∧ final (put_task id b st) = replay (compensation_calls oldTask b id) st)
  ∧ (is_NotFound (result (delete_user id st)) → final (delete_user id st) = st)
  ∧ (status (result (delete_task id st)) ≠ 204 → final (delete_task id st) = st).
Proof.
  split_and!.
  - rewrite put_user_run.
    destruct (negb (truthy (b_name b)) || negb (truthy (b_email b))); [done |].
    destruct (users st !! id) as [oldUser|]; [| done]. cbv zeta.
    match goal with |- context [nonempty (if ?c then ?x else ?y)] =>
      destruct (nonempty (if c then x else y)) end; [done |].
    destruct (nonempty _ && negb (assigns (JStr id) (b_name b))); [done |].
    by destruct (nonempty _ || negb (replaces_user (replacement_user b))).
  - rewrite post_task_run.
    destruct (negb (truthy (b_name b)) || negb (truthy (b_deadline b))); [done |].
    destruct (result (check_assignee_post b st)); [done |].
    cbv zeta. by destruct (saves _).
  - rewrite put_task_run.
    destruct (negb (truthy (b_name b)) || negb (truthy (b_deadline b))); [done |].
    destruct (result (check_assignee_put b st)); [done |].
    destruct (tasks st !! id) as [oldTask|]; [| done].
    destruct (truthy (t_completed oldTask)); [done |].
    cbv zeta. by destruct (replaces _).
  - rewrite put_task_run.
    destruct (negb (truthy (b_name b)) || negb (truthy (b_deadline b))); [done |].
    destruct (result (check_assignee_put b st)) as [early|] eqn:Hcheck.
    { rewrite check_assignee_put_run in Hcheck. cbn [result fst] in Hcheck.
      cbn [result fst msg].
      destruct (truthy (b_assignedUser b)).
      - destruct (find_user st (b_assignedUser b)) as [u|]; [| by injection Hcheck as <-].
        destruct (js_seq (b_assignedUserName b) (u_name u)); [done |].
        by injection Hcheck as <-.
      - destruct (truthy (b_assignedUserName b)
                  && negb (js_seq (b_assignedUserName b) (JStr "unassigned")));
          [by injection Hcheck as <- | done]. }
    destruct (tasks st !! id) as [oldTask|]; [| done].
    destruct (truthy (t_completed oldTask)); [done |].
    cbv zeta. destruct (replaces _); [done |].
    intros _. by exists oldTask.
  - rewrite delete_user_run. destruct (users st !! id) as [u|] eqn:Hu.
    + unfold is_NotFound. cbn [result fst]. by destruct (nonempty _).
    + intros _. by apply delete_absent_user.
  - rewrite delete_task_run. destruct (tasks st !! id) as [t|] eqn:Ht; [done |].
    intros _. by apply delete_absent_task.
Qed.

(** X3.  Deleting is not repeatable: once a user (a task) has been
    deleted, the same request is answered 404 and changes nothing. *)
Theorem delete_twice_not_found `{Schema} id st :
  (is_NotFound (result (delete_user id (final (delete_user id st))))
   ∧ final (delete_user id (final (delete_user id st))) = final (delete_user id st))
  ∧ (is_NotFound (result (delete_task id (final (delete_task id st))))
     ∧ final (delete_task id (final (delete_task id st))) = final (delete_task id st)).
Proof.
  assert (Hu : users (final (delete_user id st)) !! id = None).
  { rewrite delete_user_run. destruct (users st !! id) as [u|];
      [destruct (nonempty (u_pendingTasks u)) |];
      cbn [final fst snd apply_op users]; apply lookup_delete_eq. }
  assert (Ht : tasks (final (delete_task id st)) !! id = None).
  { rewrite delete_task_run. destruct (tasks st !! id) as [t|];
      [destruct (truthy (t_assignedUser t)) |];
      cbn [final fst snd apply_op tasks]; apply lookup_delete_eq. }
  split.
  - rewrite (delete_user_run id (final (delete_user id st))), Hu.
    split; [done |]. by apply delete_absent_user.
  - rewrite (delete_task_run id (final (delete_task id st))), Ht.
    split; [done |]. by apply delete_absent_task.
Qed.

(** *** Replaying a user replacement *)

Lemma Task_find_completed_none ids st :
  (∀ k, in_ids ids k = false) → result (Task_find_completed ids st) = [].
Proof.
  intros Hnone. unfold Task_find_completed, get, result. cbn [fst].
  induction (map_to_list (tasks st)) as [|kt l IH]; [done |].
  cbn [List.filter]. by rewrite Hnone.
Qed.

Lemma tasks_after_assign_none ids user name st :
  (∀ k, in_ids ids k = false) →
  tasks (replay (if nonempty ids then [TaskAssignMany ids user name] else []) st)
  = tasks st.
Proof.
  intros Hnone. apply map_eq. intros k. rewrite tasks_after_assign, Hnone.
  by destruct (tasks st !! k).
Qed.

Lemma in_ids_not_included_self l k : in_ids (not_included l l) k = false.
Proof. rewrite in_ids_not_included. by destruct (in_ids l k). Qed.

Lemma not_included_self l :
  (∀ x, x ∈ l → js_seq x x = true) → not_included l l = [].
Proof.
  intros Hl. unfold not_included.
  assert (Hall : ∀ l', (∀ x, x ∈ l' → includes l x = true) →
                       List.filter (fun t => negb (includes l t)) l' = []).
  { induction l' as [|y l' IH]; [done |]. intros Hin. cbn [List.filter].
    rewrite (Hin y) by (by left). cbn [negb]. apply IH.
    intros x Hx. apply Hin. by right. }
  apply Hall. intros x Hx. unfold includes. apply existsb_exists.
  exists x. split; [by apply list_elem_of_In | by apply Hl].
Qed.

(** X4.  Sending a successful user replacement a second time succeeds
    again and leaves the store as the first one left it. *)
Theorem put_user_replay `{Schema} id b st :
  status (result (put_user id b st)) = 200 →
  status (result (put_user id b (final (put_user id b st)))) = 200
  ∧ final (put_user id b (final (put_user id b st))) = final (put_user id b st).
Proof.
  intros Hok.
  destruct (put_user_success id b st Hok)
    as (oldUser & Hu & Hreq & _ & Hr & _ & Husers & _).
  set (st1 := final (put_user id b st)) in *.
  assert (Hu1 : users st1 !! id = Some (replacement_user b)).
  { rewrite Husers. apply lookup_insert_eq. }
  assert (Hself : not_included (pendingTasks_of b) (pendingTasks_of b) = []).
  { apply not_included_self. intros x Hx.
    by apply (replaces_user_pending (replacement_user b)). }
  rewrite put_user_run, Hu1.
  destruct (truthy (b_name b)), (truthy (b_email b)); try done.
  cbn [negb orb]. cbv zeta. cbn [replacement_user u_pendingTasks].
  rewrite Hself. cbn [nonempty andb orb].
  change (mkUser (b_name b) (b_email b) (pendingTasks_of b)) with (replacement_user b).
  rewrite Hr. cbn [negb app result final calls fst snd replay foldl].
  split; [done |].
  apply store_eq; cbn [apply_op users tasks]; [| done].
  rewrite alter_const_insert by (by rewrite Hu1).
  by apply insert_id.
Qed.

Lemma put_user_replay_witness :
  final (@put_user Sample.schema "u2"
           (Sample.user_body (JStr "Robert") (JStr "b@x.com") (JArr [JStr "t1"]))
           (final (@put_user Sample.schema "u2"
                     (Sample.user_body (JStr "Robert") (JStr "b@x.com")
                        (JArr [JStr "t1"])) Sample.db)))
  = final (@put_user Sample.schema "u2"
             (Sample.user_body (JStr "Robert") (JStr "b@x.com") (JArr [JStr "t1"]))
             Sample.db).
Proof.
  exact (proj2 (@put_user_replay Sample.schema "u2"
                  (Sample.user_body (JStr "Robert") (JStr "b@x.com") (JArr [JStr "t1"]))
                  Sample.db eq_refl)).
Defined.

(** *** The stores the task handlers leave *)

Lemma find_user_Some st v u :
  find_user st v = Some u → ∃ uid, v = JStr uid ∧ users st !! uid = Some u.
Proof. unfold find_user. destruct v; try done. cbn. eauto. Qed.

Lemma truthy_JStr uid : truthy (JStr uid) = true ↔ uid ≠ "".
Proof.
  cbn. rewrite negb_true_iff. split.
  - intros Hne ->. by rewrite String.eqb_refl in Hne.
  - intros Hne. apply not_true_is_false. by rewrite String.eqb_eq.
Qed.

Lemma js_seq_eq a b : js_seq a b = true → a = b.
Proof.
  destruct a, b; cbn; try done.
  - by intros ->%Bool.eqb_prop.
  - by intros ->%Z.eqb_eq.
  - by intros ->%String.eqb_eq.
Qed.

(** The store a successful task creation leaves. *)
Lemma post_task_success `{Schema} newId b st :
  status (result (post_task newId b st)) = 201 →
  ∃ saved,
    result (post_task newId b st) = mkResponse 201 MsgTaskCreated (DTask (Some saved))
    ∧ t_completed saved = JBool (completed_on_create b)
    ∧ (if truthy (b_assignedUser b)
       then ∃ uid u, b_assignedUser b = JStr uid ∧ uid ≠ ""
                     ∧ users st !! uid = Some u ∧ t_assignedUser saved = JStr uid
       else t_assignedUser saved = JStr "")
    ∧ tasks (final (post_task newId b st)) = <[newId := saved]> (tasks st)
    ∧ ∀ uid,
        users (final (post_task newId b st)) !! uid =
        (fun u => if is_pending saved && js_seq (t_assignedUser saved) (JStr uid)
                  then set_pendingTasks (add_to_set (JStr newId)) u else u)
        <$> users st !! uid.
Proof.
  rewrite post_task_run.
  destruct (negb (truthy (b_name b)) || negb (truthy (b_deadline b))); [done |].
  rewrite check_assignee_post_run. cbn [result fst].
  assert (Hstore : ∀ saved,
    tasks (if is_pending saved
           then apply_op (UserAddToSet (t_assignedUser saved) newId)
                  (apply_op (TaskSave newId saved) st)
           else apply_op (TaskSave newId saved) st) = <[newId := saved]> (tasks st)
    ∧ ∀ uid,
        users (if is_pending saved
               then apply_op (UserAddToSet (t_assignedUser saved) newId)
                      (apply_op (TaskSave newId saved) st)
               else apply_op (TaskSave newId saved) st) !! uid
        = (fun u => if is_pending saved && js_seq (t_assignedUser saved) (JStr uid)
                    then set_pendingTasks (add_to_set (JStr newId)) u else u)
          <$> users st !! uid).
  { intros saved. destruct (is_pending saved); cbn [apply_op users tasks andb].
    - split; [done |]. intros uid. by rewrite update_user_lookup.
    - split; [done |]. intros uid. by destruct (users st !! uid). }
  destruct (truthy (b_assignedUser b)) eqn:Hau.
  - destruct (find_user st (b_assignedUser b)) as [usr|] eqn:Hfind; [| done].
    destruct (js_seq (b_assignedUserName b) (u_name usr)); [| done].
    cbv zeta. destruct (saves (new_task b (u_name usr))); [| done].
    intros _. exists (new_task b (u_name usr)).
    cbn [result final fst snd].
    destruct (Hstore (new_task b (u_name usr))) as [Ht Hu].
    split_and!; [done | done | | done | done].
    apply find_user_Some in Hfind as (uid & Heq & Hlk).
    exists uid, usr. split_and!; [done | | done |].
    + apply truthy_JStr. by rewrite <- Heq.
    + unfold new_task, js_or. cbn. by rewrite Hau.
  - cbv zeta. by rewrite (saves_unassigned _ _ Hau).
Qed.

Lemma tasks_after_user_change old new now tid st :
  tasks (replay (user_change_calls old new now tid) st) = tasks st.
Proof.
  unfold user_change_calls. destruct (differs_from_stored old new); [| done].
  by destruct (truthy old), (truthy new && negb (truthy now)).
Qed.

Lemma tasks_after_completion_change was now old new tid st :
  tasks (replay (completion_change_calls was now old new tid) st) = tasks st.
Proof.
  unfold completion_change_calls.
  destruct (negb (js_seq was now) && (truthy new || truthy old)); [| done].
  by destruct (truthy now).
Qed.

Lemma tasks_after_compensation oldTask b id st :
  tasks (replay (compensation_calls oldTask b id) st) = tasks st.
Proof.
  unfold compensation_calls. rewrite replay_app.
  by rewrite tasks_after_completion_change, tasks_after_user_change.
Qed.

(** The store a successful task replacement leaves. *)
Lemma put_task_success `{Schema} id b st :
  status (result (put_task id b st)) = 200 →
  ∃ oldTask,
    tasks st !! id = Some oldTask
    ∧ truthy (t_completed oldTask) = false
    ∧ (if truthy (b_assignedUser b)
       then ∃ uid u, b_assignedUser b = JStr uid ∧ uid ≠ "" ∧ users st !! uid = Some u
       else True)
    ∧ tasks (final (put_task id b st))
      = <[id := overwritten oldTask (replacement_task b)]> (tasks st)
    ∧ ∀ uid,
        users (final (put_task id b st)) !! uid =
        set_pendingTasks
          (fun l =>
             pending_after_completion_change uid (t_completed oldTask)
               (completed_on_replace b)
               (js_or (t_assignedUser oldTask) (JStr ""))
               (js_or (b_assignedUser b) (JStr "")) id
               (pending_after_user_change uid
                  (js_or (t_assignedUser oldTask) (JStr ""))
                  (js_or (b_assignedUser b) (JStr ""))
                  (completed_on_replace b) id l))
        <$> users st !! uid.
Proof.
  rewrite put_task_run.
  destruct (negb (truthy (b_name b)) || negb (truthy (b_deadline b))); [done |].
  rewrite check_assignee_put_run. cbn [result fst].
  assert (Hassignee :
    (if truthy (b_assignedUser b) then
       match find_user st (b_assignedUser b) with
       | None => Some (mkResponse 404 MsgNoSuchAssignee DNull)
       | Some user =>
           if js_seq (b_assignedUserName b) (u_name user) then None
           else Some (mkResponse 400
                        (MsgNameMismatch (b_assignedUserName b) (u_name user)) DNull)
       end
     else if truthy (b_assignedUserName b)
             && negb (js_seq (b_assignedUserName b) (JStr "unassigned"))
          then Some (mkResponse 400 MsgMustBeUnassigned DNull)
          else None) = None →
    if truthy (b_assignedUser b)
    then ∃ uid u, b_assignedUser b = JStr uid ∧ uid ≠ "" ∧ users st !! uid = Some u
    else True).
  { destruct (truthy (b_assignedUser b)) eqn:Hau; [| done].
    destruct (find_user st (b_assignedUser b)) as [usr|] eqn:Hfind; [| done].
    intros _. apply find_user_Some in Hfind as (uid & Heq & Hlk).
    exists uid, usr. split_and!; [done | | done].
    apply truthy_JStr. by rewrite <- Heq. }
  match type of Hassignee with ?c = None → _ => destruct c as [early|] eqn:Hcheck end.
  { cbn [result fst]. intros Hst. exfalso.
    destruct (truthy (b_assignedUser b)).
    - destruct (find_user st (b_assignedUser b)) as [u|]; [| by injection Hcheck as <-].
      destruct (js_seq (b_assignedUserName b) (u_name u)); [done |].
      by injection Hcheck as <-.
    - destruct (truthy (b_assignedUserName b)
                && negb (js_seq (b_assignedUserName b) (JStr "unassigned")));
        [by injection Hcheck as <- | done]. }
  destruct (tasks st !! id) as [oldTask|] eqn:Hold; [| done].
  destruct (truthy (t_completed oldTask)) eqn:Hopen; [done |].
  cbv zeta. destruct (replaces (replacement_task b)); [| done].
  intros _. cbn [result final calls fst snd]. exists oldTask.
  split_and!; [done | done | by apply Hassignee | |].
  - rewrite replay_app. cbn [replay foldl apply_op tasks].
    change (foldl (fun s o => apply_op o s)) with (fun s l => replay l s). cbv beta.
    rewrite tasks_after_compensation.
    apply alter_const_insert. by rewrite Hold.
  - intros uid. rewrite replay_app. cbn [replay foldl].
    rewrite users_after_TaskReplace. apply users_after_compensation.
Qed.

(** *** More on the set operations *)

Lemma add_to_set_elem_other x k l : x ≠ JStr k → x ∈ add_to_set (JStr k) l ↔ x ∈ l.
Proof.
  intros Hne. destruct (add_to_set_cases k l) as [-> | [_ ->]]; [done |].
  rewrite elem_of_app, list_elem_of_singleton.
  split; [intros [Hx | ->]; [done | by destruct Hne] | by left].
Qed.

Lemma pull_absent k l : JStr k ∉ l → pull (JStr k) l = l.
Proof.
  unfold pull. induction l as [|x l IH]; [done |]. intros Hnotin.
  apply not_elem_of_cons in Hnotin as [Hne Hl]. cbn [List.filter].
  destruct (js_seq x (JStr k)) eqn:Hx.
  - apply js_seq_JStr_r in Hx. congruence.
  - cbn [negb]. f_equal. by apply IH.
Qed.

Lemma pull_add_absent k l : JStr k ∉ l → pull (JStr k) (add_to_set (JStr k) l) = l.
Proof.
  intros Hnotin. destruct (add_to_set_cases k l) as [-> | [_ ->]].
  - by apply pull_absent.
  - unfold pull. rewrite List.filter_app. cbn [List.filter].
    rewrite js_seq_JStr_refl. cbn [negb]. rewrite app_nil_r.
    by apply pull_absent.
Qed.

Lemma pull_NoDup x l : NoDup l → NoDup (pull x l).
Proof.
  unfold pull. induction 1 as [|y l Hy Hl IH]; [constructor |].
  cbn [List.filter]. destruct (negb (js_seq y x)); [| done].
  constructor; [| done]. intros Hin. apply Hy.
  by apply list_elem_of_In, filter_In in Hin as [Hin%list_elem_of_In _].
Qed.

Lemma set_pendingTasks_fixed f u :
  f (u_pendingTasks u) = u_pendingTasks u → set_pendingTasks f u = u.
Proof. destruct u. unfold set_pendingTasks. cbn. by intros ->. Qed.

(** The two rules of a task replacement on one user's list: an id other
    than the task's is neither gained nor lost, a user who is neither the
    old nor the new assignee keeps the list, and no duplicate appears. *)
Lemma pending_after_put_other uid was now old new tid l x :
  x ≠ JStr tid →
  x ∈ pending_after_completion_change uid was now old new tid
        (pending_after_user_change uid old new now tid l)
  ↔ x ∈ l.
Proof.
  intros Hne. unfold pending_after_completion_change, pending_after_user_change.
  repeat match goal with
         | |- context [if ?c then _ else _] => destruct c
         end;
    rewrite ?add_to_set_elem_other, ?pull_elem, ?add_to_set_elem_other, ?pull_elem by done;
    tauto.
Qed.

Lemma pending_after_put_frame uid was now old new tid l :
  js_seq old (JStr uid) = false → js_seq new (JStr uid) = false →
  pending_after_completion_change uid was now old new tid
    (pending_after_user_change uid old new now tid l) = l.
Proof.
  intros Hold Hnew. unfold pending_after_completion_change, pending_after_user_change.
  rewrite Hold, Hnew, !andb_false_r.
  destruct (truthy new); cbn [andb orb]; rewrite ?Hnew, ?Hold;
    by repeat match goal with
              | |- context [if ?c then _ else _] => destruct c
              end.
Qed.

Lemma pending_after_put_NoDup uid was now old new tid l :
  NoDup l →
  NoDup (pending_after_completion_change uid was now old new tid
           (pending_after_user_change uid old new now tid l)).
Proof.
  intros Hl. unfold pending_after_completion_change, pending_after_user_change.
  repeat match goal with
         | |- context [if ?c then _ else _] => destruct c
         end;
    repeat first [apply add_to_set_NoDup | apply pull_NoDup]; done.
Qed.

(** *** Deleting and creating tasks *)

Lemma users_after_delete_task id t st uid :
  users (if truthy (t_assignedUser t)
         then apply_op (UserPull (t_assignedUser t) id) (apply_op (TaskDelete id) st)
         else apply_op (TaskDelete id) st) !! uid
  = (fun u => if truthy (t_assignedUser t) && js_seq (t_assignedUser t) (JStr uid)
              then set_pendingTasks (pull (JStr id)) u else u)
    <$> users st !! uid.
Proof.
  destruct (truthy (t_assignedUser t)); cbn [apply_op users tasks andb].
  - by rewrite update_user_lookup.
  - by destruct (users st !! uid).
Qed.

Lemma tasks_after_delete_task id t st :
  tasks (if truthy (t_assignedUser t)
         then apply_op (UserPull (t_assignedUser t) id) (apply_op (TaskDelete id) st)
         else apply_op (TaskDelete id) st) = delete id (tasks st).
Proof. by destruct (truthy (t_assignedUser t)). Qed.

(** X5.  Deleting a stored task answers 204 with the deleted document,
    removes the task and nothing else from the task collection, and pulls
    its id from the pendingTasks of the user it was assigned to, so that
    this user no longer lists it; every other user document stays as it
    was. *)
Theorem delete_task_unlinks id st t :
  tasks st !! id = Some t →
  result (delete_task id st) = mkResponse 204 MsgTaskDeleted (DTask (Some t))
  ∧ tasks (final (delete_task id st)) = delete id (tasks st)
  ∧ (∀ uid, t_assignedUser t ≠ JStr uid →
       users (final (delete_task id st)) !! uid = users st !! uid)
  ∧ (∀ uid u, t_assignedUser t = JStr uid → uid ≠ "" → users st !! uid = Some u →
       users (final (delete_task id st)) !! uid
       = Some (set_pendingTasks (pull (JStr id)) u)
       ∧ (JStr id ∉ pull (JStr id) (u_pendingTasks u))
       ∧ ∀ x, x ≠ JStr id → x ∈ pull (JStr id) (u_pendingTasks u) ↔ x ∈ u_pendingTasks u).
Proof.
  intros Ht. rewrite delete_task_run, Ht. cbn [result final fst snd].
  split_and!; [done | apply tasks_after_delete_task | |].
  - intros uid Hne. rewrite users_after_delete_task.
    destruct (js_seq (t_assignedUser t) (JStr uid)) eqn:Hs.
    + apply js_seq_JStr_r in Hs. congruence.
    + rewrite andb_false_r. by destruct (users st !! uid).
  - intros uid u Heq Hne Hu. rewrite users_after_delete_task, Hu, Heq.
    apply truthy_JStr in Hne. rewrite Hne, js_seq_JStr_refl.
    split_and!; [done | apply pull_not_elem |].
    intros x Hx. rewrite pull_elem. tauto.
Qed.

Lemma delete_task_unlinks_witness :
  tasks (final (delete_task "t1" Sample.db)) = delete "t1" (tasks Sample.db)
  ∧ users (final (delete_task "t1" Sample.db)) !! "u2" = users Sample.db !! "u2".
Proof.
  destruct (delete_task_unlinks "t1" Sample.db Sample.open_task eq_refl)
    as (_ & Htasks & Hother & _).
  split; [exact Htasks |]. apply Hother. discriminate.
Defined.

(** X6.  Creating a task and then deleting it brings the store back to
    where it was, provided the new id is fresh: no stored task has it and
    no pendingTasks lists it. *)
Theorem post_then_delete_task `{Schema} newId b st :
  status (result (post_task newId b st)) = 201 →
  tasks st !! newId = None →
  (∀ uid u, users st !! uid = Some u → JStr newId ∉ u_pendingTasks u) →
  status (result (delete_task newId (final (post_task newId b st)))) = 204
  ∧ final (delete_task newId (final (post_task newId b st))) = st.
Proof.
  intros Hok Hfresh Hunlisted.
  destruct (post_task_success newId b st Hok)
    as (saved & _ & _ & _ & Htasks & Husers).
  set (st1 := final (post_task newId b st)) in *.
  assert (Hsaved : tasks st1 !! newId = Some saved).
  { rewrite Htasks. apply lookup_insert_eq. }
  rewrite delete_task_run, Hsaved. cbn [result final fst snd status].
  split; [done |]. apply store_eq.
  - apply map_eq. intros uid. rewrite users_after_delete_task, Husers.
    destruct (users st !! uid) as [u|] eqn:Hu; [| done].
    cbn [fmap option_fmap option_map]. f_equal.
    specialize (Hunlisted uid u Hu).
    unfold is_pending.
    destruct (truthy (t_assignedUser saved)),
             (js_seq (t_assignedUser saved) (JStr uid)),
             (negb (truthy (t_completed saved))); cbn [andb]; try done.
    + unfold set_pendingTasks. cbn [u_name u_email u_pendingTasks].
      rewrite pull_add_absent by done. by destruct u.
    + apply set_pendingTasks_fixed. by apply pull_absent.
  - rewrite tasks_after_delete_task, Htasks. by apply delete_insert_id.
Qed.

Lemma post_then_delete_task_witness :
  final (delete_task "t3"
           (final (@post_task Sample.schema "t3"
                     (Sample.task_body (JStr "Pay rent") (JStr "1730421319000")
                        (JStr "false") (JStr "u2") (JStr "Bob")) Sample.db)))
  = Sample.db.
Proof.
  refine (proj2 (@post_then_delete_task Sample.schema "t3"
                   (Sample.task_body (JStr "Pay rent") (JStr "1730421319000")
                      (JStr "false") (JStr "u2") (JStr "Bob"))
                   Sample.db eq_refl eq_refl _)).
  intros uid u Hu Hin.
  unfold Sample.db in Hu. cbn [users] in Hu.
  apply lookup_insert_Some in Hu as [[<- <-] | [_ Hu]].
  - vm_compute in Hin. apply list_elem_of_singleton in Hin. discriminate Hin.
  - apply lookup_singleton_Some in Hu as [<- <-]. by apply elem_of_nil in Hin.
Defined.

(** *** What a task replacement leaves alone *)

Lemma post_task_failure `{Schema} newId b st :
  status (result (post_task newId b st)) ≠ 201 → final (post_task newId b st) = st.
Proof.
  rewrite post_task_run.
  destruct (negb (truthy (b_name b)) || negb (truthy (b_deadline b))); [done |].
  destruct (result (check_assignee_post b st)); [done |].
  cbv zeta. by destruct (saves _).
Qed.

(** The store a task replacement leaves, whatever the answer: either the
    one it found, or one where every user's list went through the two
    compensation rules and the task document is the old one (the final
    write was refused) or the one the final write leaves. *)
Lemma put_task_final `{Schema} id b st :
  final (put_task id b st) = st
  ∨ ∃ oldTask,
      tasks st !! id = Some oldTask
      ∧ (if decide (status (result (put_task id b st)) = 200)
         then tasks (final (put_task id b st))
              = <[id := overwritten oldTask (replacement_task b)]> (tasks st)
         else tasks (final (put_task id b st)) = tasks st)
      ∧ ∀ uid,
          users (final (put_task id b st)) !! uid =
          set_pendingTasks
            (fun l =>
               pending_after_completion_change uid (t_completed oldTask)
                 (completed_on_replace b)
                 (js_or (t_assignedUser oldTask) (JStr ""))
                 (js_or (b_assignedUser b) (JStr "")) id
                 (pending_after_user_change uid
                    (js_or (t_assignedUser oldTask) (JStr ""))
                    (js_or (b_assignedUser b) (JStr ""))
                    (completed_on_replace b) id l))
          <$> users st !! uid.
Proof.
  destruct (decide (status (result (put_task id b st)) = 200)) as [Hok | Hfail].
  - right. destruct (put_task_success id b st Hok) as (oldTask & ? & _ & _ & ? & ?).
    by exists oldTask.
  - revert Hfail. rewrite put_task_run.
    destruct (negb (truthy (b_name b)) || negb (truthy (b_deadline b))); [by left |].
    destruct (result (check_assignee_put b st)); [by left |].
    destruct (tasks st !! id) as [oldTask|] eqn:Hold; [| by left].
    destruct (truthy (t_completed oldTask)); [by left |].
    cbv zeta. destruct (replaces (replacement_task b)); [done |].
    intros _. right. exists oldTask. cbn [final fst snd].
    split_and!; [done | apply tasks_after_compensation |].
    intros uid. apply users_after_compensation.
Qed.

(** X7.  A task replacement changes no other task: when it is answered 200
    the task's document is the one the final write leaves, and otherwise
    the task collection is as it was.  Whatever the answer, the request
    creates and deletes no user, never changes a user's name or e-mail,
    leaves the document of every user who is neither the old nor the new
    assignee as it was, and on any user's pendingTasks neither adds nor
    removes an id other than the task's own. *)
Theorem put_task_frame `{Schema} id b st oldTask :
  tasks st !! id = Some oldTask →
  (∀ k, k ≠ id → tasks (final (put_task id b st)) !! k = tasks st !! k)
  ∧ (status (result (put_task id b st)) = 200 →
     tasks (final (put_task id b st)) !! id
     = Some (overwritten oldTask (replacement_task b)))
  ∧ (status (result (put_task id b st)) ≠ 200 →
     tasks (final (put_task id b st)) = tasks st)
  ∧ (∀ uid,
       js_or (t_assignedUser oldTask) (JStr "") ≠ JStr uid →
       js_or (b_assignedUser b) (JStr "") ≠ JStr uid →
       users (final (put_task id b st)) !! uid = users st !! uid)
  ∧ (∀ uid, users st !! uid = None → users (final (put_task id b st)) !! uid = None)
  ∧ (∀ uid u, users st !! uid = Some u →
       ∃ u', users (final (put_task id b st)) !! uid = Some u'
             ∧ u_name u' = u_name u ∧ u_email u' = u_email u
             ∧ ∀ x, x ≠ JStr id → x ∈ u_pendingTasks u' ↔ x ∈ u_pendingTasks u).
Proof.
  intros Hold.
  destruct (put_task_final id b st) as [Hsame | (old' & Hold' & Htasks & Husers)].
  { split_and!.
    - intros k _. by rewrite Hsame.
    - intros Hok.
      destruct (put_task_success id b st Hok) as (o & Ho & _ & _ & -> & _).
      rewrite Hold in Ho. injection Ho as <-. apply lookup_insert_eq.
    - intros _. by rewrite Hsame.
    - intros uid _ _. by rewrite Hsame.
    - intros uid Hu. by rewrite Hsame.
    - intros uid u Hu. exists u. rewrite Hsame. by split_and!. }
  rewrite Hold in Hold'. injection Hold' as <-.
  split_and!.
  - intros k Hk. destruct (decide _); rewrite Htasks; [| done].
    by rewrite lookup_insert_ne.
  - intros Hok. destruct (decide _); [| done]. rewrite Htasks.
    apply lookup_insert_eq.
  - intros Hfail. by destruct (decide _).
  - intros uid Hno Hnn. rewrite Husers.
    destruct (users st !! uid) as [u|]; [| done].
    cbn [fmap option_fmap option_map]. f_equal.
    apply set_pendingTasks_fixed, pending_after_put_frame.
    + apply not_true_is_false. by intros ?%js_seq_JStr_r.
    + apply not_true_is_false. by intros ?%js_seq_JStr_r.
  - intros uid Hu. by rewrite Husers, Hu.
  - intros uid u Hu. rewrite Husers, Hu. eexists. split; [reflexivity |].
    split_and!; [done | done |]. intros x Hx. cbn [set_pendingTasks u_pendingTasks].
    by apply pending_after_put_other.
Qed.

Lemma put_task_frame_witness :
  tasks (final (@put_task Sample.schema "t1"
                  (Sample.task_body (JStr "Write report") (JStr "1730421319000.0")
                     (JBool true) (JStr "u1") (JStr "Alice")) Sample.db)) !! "t2"
  = Some Sample.done_task
  ∧ users (final (@put_task Sample.schema "t1"
                    (Sample.task_body (JStr "Write report") (JStr "1730421319000.0")
                       (JBool true) (JStr "u1") (JStr "Alice")) Sample.db)) !! "u2"
    = Some Sample.bob.
Proof.
  destruct (@put_task_frame Sample.schema "t1"
              (Sample.task_body (JStr "Write report") (JStr "1730421319000.0")
                 (JBool true) (JStr "u1") (JStr "Alice"))
              Sample.db Sample.open_task eq_refl) as (Htasks & _ & _ & Hother & _).
  split; [rewrite Htasks; [reflexivity | discriminate] |].
  rewrite Hother; [reflexivity | discriminate | discriminate].
Defined.

(** *** Duplicate-free pendingTasks *)

(** X8.  Creating, replacing or deleting a task, or deleting a user, never
    introduces a duplicate: when every user's pendingTasks is free of
    duplicates before the request, it is so afterwards, whether the
    request succeeds or fails. *)
Theorem task_writes_keep_duplicate_free `{Schema} id b st :
  duplicate_free st →
  duplicate_free (final (post_task id b st))
  ∧ duplicate_free (final (put_task id b st))
  ∧ duplicate_free (final (delete_task id st))
  ∧ duplicate_free (final (delete_user id st)).
Proof.
  intros Hst. split_and!.
  - destruct (decide (status (result (post_task id b st)) = 201)) as [Hok | Hfail];
      [| by rewrite post_task_failure].
    destruct (post_task_success id b st Hok) as (saved & _ & _ & _ & _ & Husers).
    intros uid u'. rewrite Husers.
    destruct (users st !! uid) as [u|] eqn:Hu; [| done].
    intros [= <-]. specialize (Hst uid u Hu).
    destruct (is_pending saved && js_seq (t_assignedUser saved) (JStr uid)); [| done].
    by apply add_to_set_NoDup.
  - destruct (put_task_final id b st) as [-> | (oldTask & _ & _ & Husers)]; [done |].
    intros uid u'. rewrite Husers.
    destruct (users st !! uid) as [u|] eqn:Hu; [| done].
    intros [= <-]. cbn [set_pendingTasks u_pendingTasks].
    apply pending_after_put_NoDup. by apply (Hst uid).
  - rewrite delete_task_run. destruct (tasks st !! id) as [t|] eqn:Ht.
    + cbn [final fst snd]. intros uid u'. rewrite users_after_delete_task.
      destruct (users st !! uid) as [u|] eqn:Hu; [| done].
      intros [= <-]. specialize (Hst uid u Hu).
      destruct (truthy (t_assignedUser t) && js_seq (t_assignedUser t) (JStr uid));
        [| done].
      by apply pull_NoDup.
    + cbn [final fst snd]. by rewrite delete_absent_task.
  - rewrite delete_user_run. intros uid u'.
    destruct (users st !! id) as [u|] eqn:Hu;
      [destruct (nonempty (u_pendingTasks u)) |];
      cbn [final fst snd apply_op users];
      (destruct (decide (id = uid)) as [<- | Hne];
       [by rewrite lookup_delete_eq | rewrite lookup_delete_ne by done; apply Hst]).
Qed.

Lemma task_writes_keep_duplicate_free_witness :
  duplicate_free (final (@post_task Sample.schema "t3"
                    (Sample.task_body (JStr "Pay rent") (JStr "1730421319000")
                       (JStr "false") (JStr "u2") (JStr "Bob")) Sample.db)).
Proof.
  refine (proj1 (@task_writes_keep_duplicate_free Sample.schema "t3"
                   (Sample.task_body (JStr "Pay rent") (JStr "1730421319000")
                      (JStr "false") (JStr "u2") (JStr "Bob")) Sample.db _)).
  intros uid u Hu. unfold Sample.db in Hu. cbn [users] in Hu.
  apply lookup_insert_Some in Hu as [[<- <-] | [_ Hu]].
  - apply NoDup_singleton.
  - apply lookup_singleton_Some in Hu as [<- <-]. apply NoDup_nil_2.
Defined.

(** *** The two-way reference as an invariant *)

Lemma consistent_user_id st uid u :
  consistent st → users st !! uid = Some u → uid ≠ "".
Proof. intros (Hempty & _) Hu ->. congruence. Qed.

(** X9.  Creating a task under a fresh id keeps the two-way reference:
    if before the request every listed id names an open task assigned to
    the listing user and every open, assigned task is listed by its user,
    the same holds afterwards. *)
Theorem post_task_keeps_consistent `{Schema} newId b st :
  consistent st →
  tasks st !! newId = None →
  consistent (final (post_task newId b st)).
Proof.
  intros Hst Hfresh.
  destruct (decide (status (result (post_task newId b st)) = 201)) as [Hok | Hfail];
    [| by rewrite post_task_failure].
  destruct (post_task_success newId b st Hok)
    as (saved & _ & Hcompleted & _ & Htasks & Husers).
  pose proof Hst as (Hempty & Hbool & Hsound & Hcomplete).
  split_and!.
  - by rewrite Husers, Hempty.
  - intros tid t. rewrite Htasks. intros [[<- <-] | [_ Ht]]%lookup_insert_Some; eauto.
  - intros uid u' tid. rewrite Husers, Htasks.
    destruct (users st !! uid) as [u|] eqn:Hu; [| done]. intros [= <-] Hin.
    destruct (decide (tid = newId)) as [-> | Hne].
    + destruct (is_pending saved && js_seq (t_assignedUser saved) (JStr uid)) eqn:Hc.
      * apply andb_true_iff in Hc as [Hpend Hseq%js_seq_JStr_r].
        exists saved. rewrite lookup_insert_eq. split_and!; [done | done |].
        unfold is_pending in Hpend. rewrite Hcompleted in Hpend |- *.
        apply andb_true_iff in Hpend as [_ Hpend]. cbn in Hpend.
        by destruct (completed_on_create b).
      * destruct (Hsound uid u newId Hu Hin) as (t & Ht & _). congruence.
    + assert (Hin' : JStr tid ∈ u_pendingTasks u).
      { destruct (is_pending saved && js_seq (t_assignedUser saved) (JStr uid));
          [| done].
        cbn [set_pendingTasks u_pendingTasks] in Hin.
        apply add_to_set_elem_other in Hin; [done | congruence]. }
      destruct (Hsound uid u tid Hu Hin') as (t & Ht & Hassigned & Hopen).
      exists t. by rewrite lookup_insert_ne.
  - intros tid t uid u'. rewrite Husers, Htasks.
    intros Ht Hassigned Hopen.
    destruct (users st !! uid) as [u|] eqn:Hu; [| done]. intros [= <-].
    pose proof (consistent_user_id st uid u Hst Hu) as Huid.
    apply lookup_insert_Some in Ht as [[<- <-] | [Hne Ht]].
    + unfold is_pending. rewrite Hassigned, Hopen, js_seq_JStr_refl.
      apply truthy_JStr in Huid. rewrite Huid. cbn. apply add_to_set_elem.
    + pose proof (Hcomplete tid t uid u Ht Hassigned Hopen Hu) as Hin.
      destruct (is_pending saved && js_seq (t_assignedUser saved) (JStr uid)); [| done].
      cbn [set_pendingTasks u_pendingTasks].
      apply add_to_set_elem_other; [congruence | done].
Qed.

(** X10.  Deleting a task keeps the two-way reference. *)
Theorem delete_task_keeps_consistent id st :
  consistent st → consistent (final (delete_task id st)).
Proof.
  intros Hst. rewrite delete_task_run.
  destruct (tasks st !! id) as [t|] eqn:Ht;
    [| cbn [final fst snd]; by rewrite delete_absent_task].
  cbn [final fst snd].
  pose proof Hst as (Hempty & Hbool & Hsound & Hcomplete).
  split_and!.
  - by rewrite users_after_delete_task, Hempty.
  - intros tid t0. rewrite tasks_after_delete_task.
    intros [_ Ht0]%lookup_delete_Some. eauto.
  - intros uid u' tid. rewrite users_after_delete_task, tasks_after_delete_task.
    destruct (users st !! uid) as [u|] eqn:Hu; [| done]. intros [= <-] Hin.
    pose proof (consistent_user_id st uid u Hst Hu) as Huid.
    assert (Hin' : JStr tid ∈ u_pendingTasks u).
    { destruct (truthy (t_assignedUser t) && js_seq (t_assignedUser t) (JStr uid));
        [| done].
      cbn [set_pendingTasks u_pendingTasks] in Hin. by apply pull_elem in Hin as [? _]. }
    destruct (Hsound uid u tid Hu Hin') as (t0 & Ht0 & Hassigned & Hopen).
    exists t0. split_and!; [| done | done].
    destruct (decide (id = tid)) as [-> | Hne]; [| by rewrite lookup_delete_ne].
    exfalso. rewrite Ht in Ht0. injection Ht0 as <-.
    rewrite Hassigned, js_seq_JStr_refl in Hin.
    apply truthy_JStr in Huid. rewrite Huid in Hin.
    by apply pull_not_elem in Hin.
  - intros tid t0 uid u'. rewrite users_after_delete_task, tasks_after_delete_task.
    intros [Hne Ht0]%lookup_delete_Some Hassigned Hopen.
    destruct (users st !! uid) as [u|] eqn:Hu; [| done]. intros [= <-].
    pose proof (Hcomplete tid t0 uid u Ht0 Hassigned Hopen Hu) as Hin.
    destruct (truthy (t_assignedUser t) && js_seq (t_assignedUser t) (JStr uid));
      [| done].
    cbn [set_pendingTasks u_pendingTasks]. apply pull_elem. split; [done | congruence].
Qed.

(** X11.  Deleting a user leaves every task as it was and keeps the
    two-way reference among the users that remain: a remaining user's
    pendingTasks still lists only open tasks assigned to that user, and
    an open task assigned to a remaining user is still on that user's
    list.  The tasks of the deleted user are not among these: they keep
    naming the user who is gone. *)
Theorem delete_user_keeps_consistent `{Schema} id st :
  consistent st →
  consistent (final (delete_user id st))
  ∧ tasks (final (delete_user id st)) = tasks st
  ∧ users (final (delete_user id st)) = delete id (users st).
Proof.
  intros Hst. rewrite delete_user_run.
  assert (Hfinal : final
    match users st !! id with
    | Some u =>
        (if nonempty (u_pendingTasks u) then user_write_refused
         else mkResponse 204 MsgUserDeleted (DUser (Some u)),
         apply_op (UserDelete id) st, [UserDelete id])
    | None =>
        (mkResponse 404 MsgUserNotFound DNull, apply_op (UserDelete id) st,
         [UserDelete id])
    end = apply_op (UserDelete id) st).
  { by destruct (users st !! id). }
  rewrite Hfinal. cbn [apply_op users tasks].
  split; [| done].
  pose proof Hst as (Hempty & Hbool & Hsound & Hcomplete).
  split_and!;
    unfold completed_booleans, pending_sound, pending_complete; cbn [users tasks].
  - apply lookup_delete_None. by right.
  - done.
  - intros uid u tid [Hne Hu]%lookup_delete_Some Hin.
    by apply (Hsound uid u tid).
  - intros tid t uid u Ht Hassigned Hopen [Hne Hu]%lookup_delete_Some.
    by apply (Hcomplete tid t uid u).
Qed.

Lemma sample_consistent : consistent Sample.db.
Proof.
  split_and!.
  - reflexivity.
  - intros tid t Ht. unfold Sample.db in Ht. cbn [tasks] in Ht.
    apply lookup_insert_Some in Ht as [[_ <-] | [_ Ht]]; [by exists false |].
    apply lookup_singleton_Some in Ht as [_ <-]. by exists true.
  - intros uid u tid Hu Hin. unfold Sample.db in Hu. cbn [users] in Hu.
    apply lookup_insert_Some in Hu as [[<- <-] | [_ Hu]].
    + apply list_elem_of_singleton in Hin. injection Hin as ->.
      by exists Sample.open_task.
    + apply lookup_singleton_Some in Hu as [_ <-]. by apply elem_of_nil in Hin.
  - intros tid t uid u Ht Hassigned Hopen Hu. unfold Sample.db in Ht. cbn [tasks] in Ht.
    apply lookup_insert_Some in Ht as [[<- <-] | [_ Ht]].
    + injection Hassigned as <-. injection Hu as <-. by apply list_elem_of_singleton.
    + apply lookup_singleton_Some in Ht as [_ <-]. discriminate Hopen.
Qed.

Lemma post_task_keeps_consistent_witness :
  consistent (final (@post_task Sample.schema "t3"
                (Sample.task_body (JStr "Pay rent") (JStr "1730421319000")
                   (JStr "false") (JStr "u2") (JStr "Bob")) Sample.db)).
Proof.
  exact (@post_task_keeps_consistent Sample.schema "t3"
           (Sample.task_body (JStr "Pay rent") (JStr "1730421319000")
              (JStr "false") (JStr "u2") (JStr "Bob"))
           Sample.db sample_consistent eq_refl).
Defined.

Lemma delete_task_keeps_consistent_witness :
  consistent (final (delete_task "t1" Sample.db)).
Proof. exact (delete_task_keeps_consistent "t1" Sample.db sample_consistent). Defined.

Lemma delete_user_keeps_consistent_witness :
  consistent (final (@delete_user Sample.schema "u1" Sample.db))
  ∧ tasks (final (@delete_user Sample.schema "u1" Sample.db)) !! "t1"
    = Some Sample.open_task.
Proof.
  destruct (@delete_user_keeps_consistent Sample.schema "u1" Sample.db sample_consistent)
    as (Hc & Ht & _).
  split; [exact Hc |]. rewrite Ht. reflexivity.
Defined.

(** *** The query interpreter, clause by clause *)

Section ClauseFacts.
Context `{QueryLanguage}.

End ClauseFacts.

(** *** Reads with an explicit limit, and reads by id *)

Section ReadFacts.
Context `{QueryLanguage} `{Collection (string * UserDoc)} `{Collection (string * TaskDoc)}.

Lemma with_default_limit_given p :
  present (p_limit p) = true → with_default_limit p = p.
Proof. intros Hp. destruct p. unfold with_default_limit. cbn in *. by rewrite Hp. Qed.

(** X14.  A [limit] that reads as a positive integer n is the cap of both
    lists: a returned list holds min(n, matches - skip) documents.  For
    tasks it replaces the default of 100, also when n is larger. *)
Theorem explicit_limit_caps p st n :
  present (p_limit p) = true →
  parseInt (p_limit p) = Int n →
  (0 < n)%Z →
  (∀ l, data (get_users p st).1 = DUsers l →
     ∃ q ws k,
       parseQuery find_all p = Returned (q, ws)
       ∧ skip_count (q_skip q) = Some k
       ∧ length l =
           Z.to_nat n `min`
           (length (List.filter (fun d => forallb (fun w => matches w d) (q_where q))
                      (map_to_list (users st))) - k))
  ∧ (∀ l, data (get_tasks p st).1 = DTasks l →
     ∃ q ws k,
       parseQuery find_all p = Returned (q, ws)
       ∧ skip_count (q_skip q) = Some k
       ∧ length l =
           Z.to_nat n `min`
           (length (List.filter (fun d => forallb (fun w => matches w d) (q_where q))
                      (map_to_list (tasks st))) - k)).
Proof.
  intros Hgiven Hn Hpos.
  assert (Hcap : ∀ q ws c,
    parseQuery find_all p = Returned (q, ws) → limit_cap (q_limit q) = Some c →
    c = Some (Z.to_nat n)).
  { intros q ws c Hp Hc.
    destruct (parseQuery_returns find_all p) as (q1 & ws1 & Hp1 & _ & _ & _ & _ & Hl).
    rewrite Hp in Hp1. injection Hp1 as <- <-.
    rewrite Hgiven, Hn in Hl. rewrite Hl in Hc. cbn in Hc.
    destruct (n =? 0)%Z eqn:Hz; [lia |]. injection Hc as <-.
    f_equal. lia. }
  split; intros l Hl.
  - apply list_response_data in Hl as (q & ws & k & c & Hp & _ & Hk & Hc & ->);
      [| done | done | by intros ?? [=]].
    rewrite (Hcap q ws c Hp Hc). cbn [cap].
    exists q, ws, k. split_and!; [done | done |].
    by rewrite length_map, length_take, length_drop, selected_length.
  - unfold get_tasks in Hl. rewrite with_default_limit_given in Hl by done.
    apply list_response_data in Hl as (q & ws & k & c & Hp & _ & Hk & Hc & ->);
      [| done | done | by intros ?? [=]].
    rewrite (Hcap q ws c Hp Hc). cbn [cap].
    exists q, ws, k. split_and!; [done | done |].
    by rewrite length_map, length_take, length_drop, selected_length.
Qed.

Lemma get_by_id_cases {D} `{Collection D} (found : option D) (select : qparam) :
  get_by_id found select =
  if present select then
    match JSON_parse select with
    | None => mkItem 400 ItemBadSelect None
    | Some v =>
        if select_ok v && readable (D := D) (mkQuery [] [] [v] None None) then
          match found with
          | None => mkItem 404 ItemNotFound None
          | Some doc => mkItem 200 ItemOK (Some (project [v] doc))
          end
        else mkItem 500 ItemInternalError None
    end
  else
    match found with
    | None => mkItem 404 ItemNotFound None
    | Some doc => mkItem 200 ItemOK (Some (project [] doc))
    end.
Proof.
  unfold get_by_id, parse, Query_select.
  destruct (present select).
  - destruct (JSON_parse select) as [v|]; [| done]. cbn [and_then].
    destruct (select_ok v); [| done]. cbn [andb find_all q_where q_sort q_select app].
    by destruct (readable _).
  - unfold find_all. by rewrite readable_find_all.
Qed.

(** X15.  A read by id is strict where a list read is lenient.  With a
    [select] that does not parse, GET /users/:id and GET /tasks/:id answer
    400 without data, whether or not the document exists, while the list
    reads given the same [select] answer as if it had not been sent.
    With no [select], a read by id answers 404 for an id that names no
    document and 200 with the document otherwise. *)
Theorem read_by_id_is_strict id p st :
  (present (p_select p) = true → JSON_parse (p_select p) = None →
   get_user id (p_select p) st = mkItem 400 ItemBadSelect None
   ∧ get_task id (p_select p) st = mkItem 400 ItemBadSelect None
   ∧ (get_users p st).1 = (get_users (without_select p) st).1
   ∧ (get_tasks p st).1 = (get_tasks (without_select p) st).1)
  ∧ (present (p_select p) = false →
     get_user id (p_select p) st =
       match users st !! id with
       | None => mkItem 404 ItemNotFound None
       | Some u => mkItem 200 ItemOK (Some (project [] (id, u)))
       end
     ∧ get_task id (p_select p) st =
         match tasks st !! id with
         | None => mkItem 404 ItemNotFound None
         | Some t => mkItem 200 ItemOK (Some (project [] (id, t)))
         end).
Proof.
  unfold get_user, get_task. rewrite !get_by_id_cases. split.
  - intros Hp Hbad. rewrite Hp, Hbad. split_and!; [done | done | |].
    + unfold get_users. apply list_response_query; [done |]. symmetry.
      by apply (parseQuery_without find_all p).
    + unfold get_tasks. apply list_response_query; [done |]. symmetry.
      by apply (parseQuery_without find_all (with_default_limit p)).
  - intros Hp. rewrite Hp.
    split; [by destruct (users st !! id) | by destruct (tasks st !! id)].
Qed.
End ReadFacts.

Lemma explicit_limit_caps_witness :
  ∃ l,
    data (@get_tasks Sample.language (Sample.plain _)
            (mkParams QAbsent QAbsent QAbsent QAbsent (QStr "101") QAbsent)
            Sample.crowd).1 = DTasks l
    ∧ length l = 101
    ∧ ∃ q ws k,
        @parseQuery Sample.language find_all
          (mkParams QAbsent QAbsent QAbsent QAbsent (QStr "101") QAbsent)
        = Returned (q, ws)
        ∧ skip_count (q_skip q) = Some k
        ∧ length l =
            Z.to_nat 101 `min`
            (length (List.filter
                       (fun d => forallb (fun w => @matches _ (Sample.plain _) w d)
                                   (q_where q))
                       (map_to_list (tasks Sample.crowd))) - k).
Proof.
  destruct (@explicit_limit_caps Sample.language (Sample.plain _) (Sample.plain _)
              (mkParams QAbsent QAbsent QAbsent QAbsent (QStr "101") QAbsent)
              Sample.crowd 101%Z eq_refl eq_refl eq_refl) as [_ Htasks].
  eexists. split; [vm_compute; reflexivity |].
  split; [vm_compute; reflexivity |].
  apply Htasks. vm_compute; reflexivity.
Defined.

Lemma read_by_id_is_strict_witness :
  @get_user Sample.language (Sample.plain _) "u1" (QStr "[") Sample.db
  = mkItem 400 ItemBadSelect None.
Proof.
  exact (proj1 (proj1 (@read_by_id_is_strict Sample.language (Sample.plain _)
                         (Sample.plain _) "u1"
                         (mkParams QAbsent QAbsent (QStr "[") QAbsent QAbsent QAbsent)
                         Sample.db) eq_refl eq_refl)).
Defined.

(** *** When a write succeeds *)

Lemma Task_find_completed_empty ids st :
  nonempty (result (Task_find_completed ids st)) = false
  ↔ ∀ k t, JStr k ∈ ids → tasks st !! k = Some t → t_completed t ≠ JBool true.
Proof.
  split.
  - intros Hnone k t Hin Hk Hc. apply nonempty_false in Hnone.
    pose proof (Task_find_completed_elem ids st k t Hin Hk Hc) as Ht.
    rewrite Hnone in Ht. by apply elem_of_nil in Ht.
  - intros Hopen. unfold Task_find_completed, get, result. cbn [fst].
    assert (Hall : ∀ kt, kt ∈ map_to_list (tasks st) →
              in_ids ids kt.1 && js_seq (t_completed kt.2) (JBool true) = false).
    { intros [k t] Hkt. apply elem_of_map_to_list in Hkt. cbn.
      destruct (in_ids ids k) eqn:Hin; [| done].
      destruct (js_seq (t_completed t) (JBool true)) eqn:Hc; [| done].
      apply in_ids_elem in Hin. apply js_seq_eq in Hc.
      by destruct (Hopen k t Hin Hkt). }
    induction (map_to_list (tasks st)) as [|kt l IH]; [done |].
    cbn [List.filter]. rewrite Hall by apply list_elem_of_here.
    apply IH. intros kt' Hkt'. apply Hall. by apply list_elem_of_further.
Qed.

(** X16.  A user replacement succeeds exactly when name and e-mail are
    there, the user exists, no id that is on the new pendingTasks but not
    on the old one names a stored task whose completed flag is true, no id
    of the old pendingTasks is dropped, and the schema accepts the update
    of the added tasks, if any, and the new user document.  Ids that name
    no stored task do not stand in the way; a dropped id always does,
    because the update that unassigns its task is never accepted. *)
Theorem put_user_succeeds_iff `{Schema} id b st :
  status (result (put_user id b st)) = 200
  ↔ truthy (b_name b) = true
    ∧ truthy (b_email b) = true
    ∧ ∃ oldUser,
        users st !! id = Some oldUser
        ∧ (∀ k t,
             JStr k ∈ pendingTasks_of b → JStr k ∉ u_pendingTasks oldUser →
             tasks st !! k = Some t → t_completed t ≠ JBool true)
        ∧ not_included (pendingTasks_of b) (u_pendingTasks oldUser) = []
        ∧ (not_included (u_pendingTasks oldUser) (pendingTasks_of b) ≠ [] →
           assigns (JStr id) (b_name b) = true)
        ∧ replaces_user (replacement_user b) = true.
Proof.
  rewrite put_user_run.
  destruct (truthy (b_name b)), (truthy (b_email b)); cbn [negb orb];
    try (split; [done | by intros (? & ? & _)]).
  destruct (users st !! id) as [oldUser|] eqn:Hu;
    [| split; [done | by intros (_ & _ & ? & ? & _)]].
  cbv zeta.
  set (added := not_included (u_pendingTasks oldUser) (pendingTasks_of b)).
  set (removed := not_included (pendingTasks_of b) (u_pendingTasks oldUser)).
  assert (Hadded : ∀ k, JStr k ∈ added ↔
            JStr k ∈ pendingTasks_of b ∧ JStr k ∉ u_pendingTasks oldUser).
  { intros k. rewrite <- !in_ids_elem. unfold added. rewrite in_ids_not_included.
    rewrite andb_true_iff, negb_true_iff. split; intros [? ?]; split; try done.
    - congruence.
    - by apply not_true_is_false. }
  assert (Hblocked :
    nonempty (if nonempty added then result (Task_find_completed added st) else []) = false
    ↔ ∀ k t, JStr k ∈ added → tasks st !! k = Some t → t_completed t ≠ JBool true).
  { destruct (nonempty added) eqn:Hne; [apply Task_find_completed_empty |].
    apply nonempty_false in Hne. rewrite Hne. split; [| done].
    intros _ k t Hin. by apply elem_of_nil in Hin. }
  assert (Hne : ∀ l : list jsval, nonempty l = true ↔ l ≠ []).
  { intros l. by destruct l. }
  destruct (nonempty (if nonempty added then result (Task_find_completed added st) else []))
    eqn:Hb.
  { split; [done |]. intros (_ & _ & old' & [= <-] & Hopen & _). exfalso.
    assert (true = false); [| done]. apply Hblocked.
    intros k t Hin. apply Hadded in Hin as [? ?]. by apply Hopen. }
  assert (Hopen : ∀ k t,
    JStr k ∈ pendingTasks_of b → JStr k ∉ u_pendingTasks oldUser →
    tasks st !! k = Some t → t_completed t ≠ JBool true).
  { intros k t Hnew Hold. apply Hblocked; [done |]. by apply Hadded. }
  destruct (nonempty added && negb (assigns (JStr id) (b_name b))) eqn:Hassign.
  { split; [done |]. intros (_ & _ & old' & [= <-] & _ & _ & Hacc & _). exfalso.
    apply andb_true_iff in Hassign as [Hsome Hrefused].
    apply Hne in Hsome. rewrite (Hacc Hsome) in Hrefused. done. }
  destruct (nonempty removed) eqn:Hremoved; cbn [orb].
  { split; [done |]. intros (_ & _ & old' & [= <-] & _ & Hkept & _). exfalso.
    apply Hne in Hremoved. done. }
  apply nonempty_false in Hremoved.
  destruct (replaces_user (replacement_user b)) eqn:Hr; cbn [negb].
  - split; [| done]. intros _. split_and!; [done | done |].
    exists oldUser. split_and!; try done.
    intros Hsome%Hne. fold added in Hsome. rewrite Hsome in Hassign.
    by destruct (assigns (JStr id) (b_name b)).
  - split; [done |]. by intros (_ & _ & old' & _ & _ & _ & _ & ?).
Qed.

Lemma put_user_succeeds_iff_witness :
  status (result (@put_user Sample.schema "u2"
                    (Sample.user_body (JStr "Robert") (JStr "b@x.com")
                       (JArr [JStr "t1"; JStr "t9"])) Sample.db)) = 200.
Proof.
  apply (@put_user_succeeds_iff Sample.schema). split_and!; [reflexivity | reflexivity |].
  exists Sample.bob. split_and!; try reflexivity.
  intros k t Hk _ Ht.
  apply elem_of_cons in Hk as [[= ->] | Hk].
  - injection Ht as <-. discriminate.
  - apply list_elem_of_singleton in Hk. injection Hk as ->. discriminate Ht.
Defined.

(** X17.  A task creation succeeds exactly when name and deadline are
    there, an assigned user is given and exists under exactly the
    submitted assignedUserName, and the schema accepts the new document; a
    creation without an assigned user never succeeds, because the empty
    string it stores as assignedUser is not accepted.  A task replacement
    succeeds exactly when name and deadline are there, the assigned user,
    if one is given, exists under exactly the submitted assignedUserName,
    a request without assigned user carries an assignedUserName that is
    empty or "unassigned", the task exists, its stored completed flag is
    not set, and the schema accepts the final write. *)
Theorem task_write_succeeds_iff `{Schema} id b st :
  (status (result (post_task id b st)) = 201
   ↔ truthy (b_name b) = true ∧ truthy (b_deadline b) = true
     ∧ truthy (b_assignedUser b) = true
     ∧ ∃ u, find_user st (b_assignedUser b) = Some u
            ∧ js_seq (b_assignedUserName b) (u_name u) = true
            ∧ saves (new_task b (u_name u)) = true)
  ∧ (status (result (put_task id b st)) = 200
     ↔ truthy (b_name b) = true ∧ truthy (b_deadline b) = true
       ∧ (truthy (b_assignedUser b) = true →
          ∃ u, find_user st (b_assignedUser b) = Some u
               ∧ js_seq (b_assignedUserName b) (u_name u) = true)
       ∧ (truthy (b_assignedUser b) = false →
          truthy (b_assignedUserName b) = false
          ∨ b_assignedUserName b = JStr "unassigned")
       ∧ (∃ t, tasks st !! id = Some t ∧ truthy (t_completed t) = false)
       ∧ replaces (replacement_task b) = true).
Proof.
  split.
  - rewrite post_task_run, check_assignee_post_run. cbn [result fst].
    destruct (truthy (b_name b)), (truthy (b_deadline b)); cbn [negb orb];
      try (split; [done | by intros (? & ? & _)]).
    destruct (truthy (b_assignedUser b)) eqn:Hau.
    + destruct (find_user st (b_assignedUser b)) as [u|].
      * destruct (js_seq (b_assignedUserName b) (u_name u)) eqn:Hname.
        -- cbv zeta. destruct (saves (new_task b (u_name u))) eqn:Hs.
           ++ split; [| done]. intros _. split_and!; [done | done | done |]. eauto.
           ++ split; [done |]. intros (_ & _ & _ & u' & [= <-] & _ & ?). congruence.
        -- split; [done |]. intros (_ & _ & _ & u' & [= <-] & Hn & _). congruence.
      * split; [done |]. by intros (_ & _ & _ & ? & ? & _).
    + cbv zeta. rewrite (saves_unassigned _ _ Hau).
      split; [done |]. by intros (_ & _ & ? & _).
  - rewrite put_task_run, check_assignee_put_run. cbn [result fst].
    destruct (truthy (b_name b)), (truthy (b_deadline b)); cbn [negb orb];
      try (split; [done | by intros (? & ? & _)]).
    assert (Hlast :
      status (result
        match tasks st !! id with
        | Some oldTask =>
            if truthy (t_completed oldTask)
            then (mkResponse 400 MsgAlreadyCompleted DNull, st, [])
            else
              let log := compensation_calls oldTask b id in
              if replaces (replacement_task b)
              then
                let log0 :=
                  log ++ [TaskReplace id (overwritten oldTask (replacement_task b))] in
                (mkResponse 200 MsgTaskReplaced (DTask (tasks (replay log0 st) !! id)),
                 replay log0 st, log0)
              else (mkResponse 400 MsgWriteRefused DNull, replay log st, log)
        | None => (mkResponse 404 MsgTaskNotFound DNull, st, [])
        end) = 200
      ↔ (∃ t, tasks st !! id = Some t ∧ truthy (t_completed t) = false)
        ∧ replaces (replacement_task b) = true).
    { destruct (tasks st !! id) as [t|];
        [destruct (truthy (t_completed t)) eqn:Hc |].
      - split; [done |]. intros [(t' & [= <-] & ?) _]. congruence.
      - cbv zeta. destruct (replaces (replacement_task b)).
        + split; [| done]. intros _. split; [eauto | done].
        + split; [done |]. by intros [_ ?].
      - split; [done |]. by intros [(t' & ? & _) _]. }
    destruct (truthy (b_assignedUser b)).
    + destruct (find_user st (b_assignedUser b)) as [u|].
      * destruct (js_seq (b_assignedUserName b) (u_name u)) eqn:Hname.
        -- rewrite Hlast. split.
           ++ intros [? ?]. split_and!; eauto. done.
           ++ intros (_ & _ & _ & _ & ? & ?). done.
        -- split; [done |]. intros (_ & _ & Hex & _).
           destruct (Hex eq_refl) as (u' & [= <-] & Hn). congruence.
      * split; [done |]. intros (_ & _ & Hex & _).
        by destruct (Hex eq_refl) as (? & ? & _).
    + destruct (truthy (b_assignedUserName b)) eqn:Hn; cbn [andb].
      * destruct (js_seq (b_assignedUserName b) (JStr "unassigned")) eqn:Hs; cbn [negb].
        -- apply js_seq_JStr_r in Hs. rewrite Hlast. split.
           ++ intros [? ?]. split_and!; eauto. done.
           ++ intros (_ & _ & _ & _ & ? & ?). done.
        -- split; [done |]. intros (_ & _ & _ & Hor & _).
           destruct (Hor eq_refl) as [? | Heq]; [done |].
           apply js_seq_JStr_r in Heq. congruence.
      * rewrite Hlast. split.
        -- intros [? ?]. split_and!; eauto. done.
        -- intros (_ & _ & _ & _ & ? & ?). done.
Qed.

Lemma failed_writes_change_nothing_witness :
  final (@put_user Sample.schema "u9"
           (Sample.user_body (JStr "Zed") (JStr "z@x.com") JUndef) Sample.db)
  = Sample.db
  ∧ calls (@put_user Sample.schema "u9"
             (Sample.user_body (JStr "Zed") (JStr "z@x.com") JUndef) Sample.db)
    = []
  ∧ (∃ oldTask,
       tasks Sample.db !! "t1" = Some oldTask
       ∧ calls (@put_task Sample.schema "t1"
                  (Sample.task_body (JStr "Write report") (JStr "next week")
                     (JBool true) (JStr "u1") (JStr "Alice")) Sample.db)
         = compensation_calls oldTask
             (Sample.task_body (JStr "Write report") (JStr "next week")
                (JBool true) (JStr "u1") (JStr "Alice")) "t1"
       ∧ final (@put_task Sample.schema "t1"
                  (Sample.task_body (JStr "Write report") (JStr "next week")
                     (JBool true) (JStr "u1") (JStr "Alice")) Sample.db)
         = replay (compensation_calls oldTask
                     (Sample.task_body (JStr "Write report") (JStr "next week")
                        (JBool true) (JStr "u1") (JStr "Alice")) "t1") Sample.db).
Proof.
  destruct (@failed_writes_change_nothing Sample.schema "u9"
              (Sample.user_body (JStr "Zed") (JStr "z@x.com") JUndef) Sample.db)
    as (Huser & _).
  destruct (@failed_writes_change_nothing Sample.schema "t1"
              (Sample.task_body (JStr "Write report") (JStr "next week")
                 (JBool true) (JStr "u1") (JStr "Alice")) Sample.db)
    as (_ & _ & _ & Hrefused & _).
  destruct Huser as [Hfinal Hcalls]; [vm_compute; discriminate.. |].
  split_and!; [exact Hfinal | exact Hcalls | exact (Hrefused eq_refl)].
Defined.
